(** * exdir core: object directories, root discovery, raw directories and datasets

    A shallow embedding of [exdir/core/exdir_object.py] and
    [exdir/core/dataset.py], followed by the properties of the storage
    conventions that hold of it.

    Conventions of the embedding.
    - A Python call either returns or raises: [result A].  Code that also
      changes the filesystem or a dataset handle runs in [M S A], a state
      monad whose state survives a raised exception, as it does in Python.
    - An absolute, normalised path is the list of its components, innermost
      first: [/r/a/b] is [["b"; "a"; "r"]] and the filesystem root is [[]].
      [os.path.dirname] is then [tail] and [os.path.join d n] is [n ++ d].
    - A text file is kept as what [yaml.safe_load] makes of it: a document,
      or text that the parser rejects. *)

From stdpp Require Import base gmap strings list.

Set Default Proof Using "Type".
Set Warnings "-register-all".

(** ** Exceptions and results *)

Inductive exn : Type :=
| IOError (msg : string)
| ValueError (msg : string)
| FileExistsError (msg : string)
| FileNotFoundError (msg : string)
| NotADirectoryError (msg : string)
| IsADirectoryError (msg : string)
| YAMLError
| TypeError (msg : string)
| KeyError (key : string)
| IndexError (msg : string)
| AttributeError (msg : string)
| Exception (msg : string).

Inductive result (A : Type) : Type :=
| Ok (a : A)
| Raise (e : exn).
Arguments Ok {A} a.
Arguments Raise {A} e.

#[global] Instance result_ret : MRet result := λ A a, Ok a.
#[global] Instance result_bind : MBind result := λ A B f m,
  match m with
  | Ok a => f a
  | Raise e => Raise e
  end.

(** State and exceptions: the state reached when the exception was raised is
    kept. *)
Definition M (S A : Type) : Type := S → result A * S.

#[global] Instance M_ret {S} : MRet (M S) := λ A a s, (Ok a, s).
#[global] Instance M_bind {S} : MBind (M S) := λ A B f m s,
  match m s with
  | (Ok a, s') => f a s'
  | (Raise e, s') => (Raise e, s')
  end.

Definition raise {S A} (e : exn) : M S A := λ s, (Raise e, s).
Definition gets {S A} (f : S → A) : M S A := λ s, (Ok (f s), s).
Definition modify {S} (f : S → S) : M S unit := λ s, (Ok tt, f s).
(** A read of the state that may raise. *)
Definition reads {S A} (f : S → result A) : M S A := λ s, (f s, s).
(** A fallible update of the state; nothing changes when it raises. *)
Definition updates {S} (f : S → result S) : M S unit := λ s,
  match f s with
  | Ok s' => (Ok tt, s')
  | Raise e => (Raise e, s)
  end.
(** A pure computation that may raise. *)
Definition lift {S A} (r : result A) : M S A := λ s, (r, s).

(** The double quote character, as a text. *)
Definition dquote : string := String (Ascii.ascii_of_nat 34) EmptyString.

(** ** Python dictionaries

    Insertion ordered: assigning to a key that is present keeps its place. *)

Section dict.
Context {V : Type}.

Fixpoint dict_get (k : string) (d : list (string * V)) : option V :=
  match d with
  | [] => None
  | (k', v) :: d' => if String.eqb k k' then Some v else dict_get k d'
  end.

Fixpoint dict_set (k : string) (v : V) (d : list (string * V)) : list (string * V) :=
  match d with
  | [] => [(k, v)]
  | (k', v') :: d' =>
      if String.eqb k k' then (k, v) :: d' else (k', v') :: dict_set k v d'
  end.

Definition dict_contains (k : string) (d : list (string * V)) : bool :=
  match dict_get k d with Some _ => true | None => false end.

Definition dict_keys (d : list (string * V)) : list string := d.*1.

(** [d.update(other)] *)
Definition dict_update (d other : list (string * V)) : list (string * V) :=
  foldl (λ acc kv, dict_set kv.1 kv.2 acc) d other.
End dict.

Abbreviation dict V := (list (string * V)).

(** ** YAML documents and the Python operators applied to them *)

Inductive yaml : Type :=
| YNull
| YBool (b : bool)
| YInt (z : Z)
| YStr (s : string)
| YSeq (l : list yaml)
| YMap (m : list (string * yaml)).

Definition isinstance_dict (v : yaml) : bool :=
  match v with YMap _ => true | _ => false end.

Fixpoint is_substring (k s : string) : bool :=
  String.prefix k s ||
  match s with
  | EmptyString => false
  | String _ s' => is_substring k s'
  end.

Definition yaml_is_str (k : string) (v : yaml) : bool :=
  match v with YStr s => String.eqb s k | _ => false end.

(** [k in v] for a text key [k]. *)
Definition py_in (k : string) (v : yaml) : result bool :=
  match v with
  | YMap m => Ok (dict_contains k m)
  | YSeq l => Ok (existsb (yaml_is_str k) l)
  | YStr s => Ok (is_substring k s)
  | YNull | YBool _ | YInt _ => Raise (TypeError "argument is not iterable")
  end.

(** [v[k]] for a text key [k]. *)
Definition py_getitem (v : yaml) (k : string) : result yaml :=
  match v with
  | YMap m =>
      match dict_get k m with
      | Some x => Ok x
      | None => Raise (KeyError k)
      end
  | YSeq _ => Raise (TypeError "list indices must be integers or slices, not str")
  | YStr _ => Raise (TypeError "string indices must be integers")
  | YNull | YBool _ | YInt _ => Raise (TypeError "object is not subscriptable")
  end.

(** ** The filesystem *)

Abbreviation pathname := (list string).

Inductive file_content : Type :=
| Unparsable
| Document (y : yaml).

Inductive node : Type :=
| Dir
| File (c : file_content).

Abbreviation FS := (gmap pathname node).

Definition node_at (fs : FS) (p : pathname) : option node :=
  match p with
  | [] => Some Dir
  | _ => fs !! p
  end.

Definition os_path_exists (fs : FS) (p : pathname) : bool :=
  match node_at fs p with Some _ => true | None => false end.

Definition os_path_isdir (fs : FS) (p : pathname) : bool :=
  match node_at fs p with Some Dir => true | _ => false end.

Definition os_path_join (d name : pathname) : pathname := name ++ d.

Definition os_path_dirname (p : pathname) : pathname := tail p.

(** Printed form of an absolute path, for messages. *)
Definition path_str (p : pathname) : string :=
  match p with
  | [] => "/"
  | _ => foldr (λ c acc, acc +:+ "/" +:+ c) EmptyString p
  end.

Definition os_mkdir (p : pathname) : M FS unit := updates (λ fs,
  if os_path_exists fs p then Raise (FileExistsError (path_str p))
  else match node_at fs (os_path_dirname p) with
       | Some Dir => Ok (<[p := Dir]> fs)
       | Some (File _) => Raise (NotADirectoryError (path_str p))
       | None => Raise (FileNotFoundError (path_str p))
       end).

(** [open(p, "r")] followed by reading the whole text. *)
Definition open_read (fs : FS) (p : pathname) : result file_content :=
  match node_at fs p with
  | Some (File c) => Ok c
  | Some Dir => Raise (IsADirectoryError (path_str p))
  | None => Raise (FileNotFoundError (path_str p))
  end.

(** [open(p, "w")] followed by writing the whole text. *)
Definition open_write (p : pathname) (c : file_content) : M FS unit := updates (λ fs,
  match node_at fs p with
  | Some Dir => Raise (IsADirectoryError (path_str p))
  | _ => match node_at fs (os_path_dirname p) with
         | Some Dir => Ok (<[p := File c]> fs)
         | Some (File _) => Raise (NotADirectoryError (path_str p))
         | None => Raise (FileNotFoundError (path_str p))
         end
  end).

Definition yaml_safe_load (c : file_content) : result yaml :=
  match c with
  | Unparsable => Raise YAMLError
  | Document y => Ok y
  end.

(** [yaml.load] on a text that [yaml.safe_load] accepts gives the same
    document. *)
Definition yaml_load (c : file_content) : result yaml := yaml_safe_load c.

Definition yaml_safe_dump (y : yaml) : file_content := Document y.

(** Every entry lies in a directory. *)
Definition fs_wf (fs : FS) : Prop :=
  map_Forall (λ p _, p ≠ [] ∧ os_path_isdir fs (os_path_dirname p) = true) fs.

(** ** exdir_object.py *)

Definition EXDIR_METANAME : string := "exdir".
Definition TYPE_METANAME : string := "type".
Definition VERSION_METANAME : string := "version".

Definition META_FILENAME : string := "exdir.yaml".
Definition ATTRIBUTES_FILENAME : string := "attributes.yaml".
Definition RAW_FOLDER_NAME : string := "__raw__".

Definition DATASET_TYPENAME : string := "dataset".
Definition GROUP_TYPENAME : string := "group".
Definition FILE_TYPENAME : string := "file".

Definition valid_types : list string :=
  [DATASET_TYPENAME; FILE_TYPENAME; GROUP_TYPENAME].

Definition _metafile_from_directory (directory : pathname) : pathname :=
  os_path_join directory [META_FILENAME].

Definition object_metadata (typename : string) : yaml :=
  YMap [(EXDIR_METANAME,
         YMap [(TYPE_METANAME, YStr typename); (VERSION_METANAME, YInt 1)])].

Definition _create_object_directory (directory : pathname) (typename : string)
  : M FS unit :=
  present ← gets (λ fs, os_path_exists fs directory);
  if present : bool then
    raise (IOError ("The directory '" +:+ path_str directory +:+ "' already exists"))
  else if negb (existsb (String.eqb typename) valid_types) then
    raise (ValueError (typename +:+ " is not a valid typename"))
  else
    os_mkdir directory;;
    open_write (_metafile_from_directory directory)
               (yaml_safe_dump (object_metadata typename)).

Definition is_exdir_object (fs : FS) (directory : pathname) : bool :=
  os_path_isdir fs directory.

(** [v in valid_types]: list membership compares with [==]. *)
Definition in_valid_types (v : yaml) : bool :=
  existsb (λ t, yaml_is_str t v) valid_types.

Definition is_nonraw_object_directory (fs : FS) (directory : pathname) : result bool :=
  let meta_filename := os_path_join directory [META_FILENAME] in
  if negb (os_path_exists fs meta_filename) then Ok false
  else
    text ← open_read fs meta_filename;
    meta_data ← yaml_safe_load text;
    if negb (isinstance_dict meta_data) then Ok false
    else
      has_exdir ← py_in EXDIR_METANAME meta_data;
      if negb has_exdir then Ok false
      else
        exdir_meta ← py_getitem meta_data EXDIR_METANAME;
        has_type ← py_in TYPE_METANAME exdir_meta;
        if negb has_type then Ok false
        else
          exdir_meta' ← py_getitem meta_data EXDIR_METANAME;
          typename ← py_getitem exdir_meta' TYPE_METANAME;
          if negb (in_valid_types typename) then Ok false
          else Ok true.

Definition is_raw_object_directory (fs : FS) (directory : pathname) : result bool :=
  if is_exdir_object fs directory then
    nonraw ← is_nonraw_object_directory fs directory;
    Ok (negb nonraw)
  else Ok false.

(** One turn of the loop of [root_directory] on a directory that is not its
    own parent: [Ok true] when the loop stops here, [Ok false] when it
    goes on with the parent. *)
Definition root_directory_step (fs : FS) (path : pathname) : result bool :=
  valid ← is_nonraw_object_directory fs path;
  if negb valid then Ok false
  else
    let meta_filename := _metafile_from_directory path in
    text ← open_read fs meta_filename;
    meta_data ← yaml_load text;
    has_exdir ← py_in EXDIR_METANAME meta_data;
    if negb has_exdir then Ok false
    else
      exdir_meta ← py_getitem meta_data EXDIR_METANAME;
      has_type ← py_in TYPE_METANAME exdir_meta;
      if negb has_type then Ok false
      else
        typename ← py_getitem exdir_meta TYPE_METANAME;
        if negb (yaml_is_str FILE_TYPENAME typename) then Ok false
        else Ok true.

(** [None] of Python is [Ok None]; the parent of [c :: parent] is [parent],
    and only the root is its own parent. *)
Fixpoint root_directory (fs : FS) (path : pathname) : result (option pathname) :=
  match path with
  | [] => Ok None
  | _ :: parent =>
      found ← root_directory_step fs path;
      if found : bool then Ok (Some path) else root_directory fs parent
  end.

Definition is_inside_exdir (fs : FS) (path : pathname) : result bool :=
  root ← root_directory fs path;
  Ok (match root with Some _ => true | None => false end).

Definition assert_inside_exdir (fs : FS) (path : pathname) : result unit :=
  inside ← is_inside_exdir fs path;
  if negb inside then
    Raise (FileNotFoundError
             ("Path " +:+ path_str path +:+ " is not inside an Exdir repository."))
  else Ok tt.

(** What the properties below call a store root: a directory whose metadata
    file parses to a mapping whose [exdir] entry is a mapping with the type
    ["file"]. *)
Definition file_typed (fs : FS) (directory : pathname) : bool :=
  match fs !! (META_FILENAME :: directory) with
  | Some (File (Document (YMap m))) =>
      match dict_get EXDIR_METANAME m with
      | Some (YMap e) =>
          match dict_get TYPE_METANAME e with
          | Some t => yaml_is_str FILE_TYPENAME t
          | None => false
          end
      | _ => false
      end
  | _ => false
  end.

Inductive OpenMode : Type :=
| READ_WRITE
| READ_ONLY.

#[global] Instance OpenMode_eq_dec : EqDecision OpenMode.
Proof. solve_decision. Defined.

(** A name validation rule, [validate_name(directory, name)]: it inspects the
    filesystem and raises when it rejects the name.  The rules of
    [filename_validation] are not among the sources; an object carries the
    rule it was built with. *)
Abbreviation validator := (pathname → pathname → FS → result unit).

(** Modelled from the spec: the class [raw.Raw], which is not among the
    sources.  A raw handle is an object view identified by
    [(root_directory, parent_path, object_name)]; its directory is derived as
    [root_directory / parent_path / object_name]. *)
Module Raw.
Record t : Type := Build {
  root_directory : pathname;
  parent_path : pathname;
  object_name : pathname;
  io_mode : option OpenMode
}.

Definition relative_path (self : t) : pathname :=
  os_path_join (parent_path self) (object_name self).

Definition directory (self : t) : pathname :=
  os_path_join (root_directory self) (relative_path self).
End Raw.

(** The rules of the module [filename_validation], which is not among the
    sources: they are taken as given. *)
Record rules : Type := Rules {
  thorough : validator;
  strict : validator;
  none : validator
}.

(** What [__init__] may be given as [validate_name]: nothing, a rule, or a
    text that names one. *)
Inductive validate_name_arg : Type :=
| NoRule
| Rule (v : validator)
| RuleName (s : string).

(** The class [Object], after [__init__]. *)
Module Object.
Record t : Type := Build {
  root_directory : pathname;
  parent_path : pathname;
  object_name : pathname;
  io_mode : option OpenMode;
  validate_name : validator
}.

Definition relative_path (self : t) : pathname :=
  os_path_join (parent_path self) (object_name self).

(** [__init__], which also says whether it has warned.  The rule is taken
    from the argument when it is a rule; nothing and the empty text stand for
    [thorough]; a text is looked up, and warned about. *)
Definition __init__ (filename_validation : rules) (root_directory : pathname)
    (parent_path object_name : pathname) (io_mode : option OpenMode)
    (validate_name : validate_name_arg) : result (t * bool) :=
  let validate_name :=
    match validate_name with
    | NoRule | RuleName EmptyString => Rule (thorough filename_validation)
    | _ => validate_name
    end in
  '(validate_name, warned) ←
    match validate_name with
    | RuleName s =>
        if String.eqb s "simple" then Ok (thorough filename_validation, true)
        else if String.eqb s "strict" then Ok (strict filename_validation, true)
        else if String.eqb s "none" then Ok (none filename_validation, true)
        else Raise (ValueError
                      ("IO name rule " +:+ dquote +:+ s +:+ dquote
                       +:+ " not recognized," +:+ "name rule must be one of "
                       +:+ dquote +:+ "strict" +:+ dquote +:+ ", "
                       +:+ dquote +:+ "simple" +:+ dquote +:+ ", "
                       +:+ dquote +:+ "thorough" +:+ dquote +:+ ", "
                       +:+ dquote +:+ "none" +:+ dquote))
    | Rule v => Ok (v, false)
    | NoRule => Ok (thorough filename_validation, false)
    end;
  Ok (Build root_directory parent_path object_name io_mode validate_name, warned).

(** ["/" + self.relative_path] *)
Definition name (self : t) : string := path_str (relative_path self).

Definition directory (self : t) : pathname :=
  os_path_join (root_directory self) (relative_path self).

Definition attributes_filename (self : t) : pathname :=
  os_path_join (directory self) [ATTRIBUTES_FILENAME].

Definition meta_filename (self : t) : pathname :=
  _metafile_from_directory (directory self).

Definition _assert_valid_name (name : pathname) (container : t) : M FS unit :=
  reads (validate_name container (directory container) name).

Definition create_raw (self : t) (name : pathname) : M FS Raw.t :=
  _assert_valid_name name self;;
  let directory_name := os_path_join (directory self) name in
  present ← gets (λ fs, os_path_exists fs directory_name);
  if present : bool then
    raise (FileExistsError
             ("Raw directory " +:+ path_str directory_name +:+ " already exists."))
  else
    os_mkdir directory_name;;
    mret (Raw.Build (root_directory self) (parent_path self) name (io_mode self)).

(** [require_raw] returns the path itself when the directory is there and
    a [Raw] object when it had to be made. *)
Definition require_raw (self : t) (name : pathname) : M FS (pathname + Raw.t) :=
  let directory_name := os_path_join (directory self) name in
  present ← gets (λ fs, os_path_exists fs directory_name);
  if present : bool then
    nonraw ← reads (λ fs, is_nonraw_object_directory fs directory_name);
    if nonraw : bool then
      raise (FileExistsError
               ("Directory '" +:+ path_str directory_name
                +:+ "' already exists, but is not raw."))
    else mret (inl directory_name)
  else
    raw ← create_raw self name;
    mret (inr raw).
End Object.

(** ** Arrays

    The array library is outside the repository.  An array is kept as its
    shape and its items in row-major order; of indexing, the forms the
    repository and its scenarios use are modelled: the full slice [a[:]], an
    integer [a[i]] and a tuple of integers [a[i, j]]. *)

Inductive scalar : Type :=
| SInt (z : Z)
| SText (s : string).

Record ndarray : Type := Ndarray {
  ndarray_shape : list nat;
  ndarray_items : list scalar
}.

#[global] Instance scalar_eq_dec : EqDecision scalar.
Proof. solve_decision. Defined.

Definition shape_size (shape : list nat) : nat := foldr Nat.mul 1 shape.

Inductive pyvalue : Type :=
| PNum (z : Z)
| PStr (s : string)
| PTuple (l : list pyvalue)
| PArr (a : ndarray).

(** [isinstance(data, (numbers.Number, tuple, str))] *)
Definition isinstance_number_tuple_str (data : pyvalue) : bool :=
  match data with
  | PNum _ | PTuple _ | PStr _ => true
  | PArr _ => false
  end.

Definition stack (rows : list ndarray) : result ndarray :=
  match rows with
  | [] => Ok (Ndarray [0] [])
  | r :: _ =>
      if forallb (λ r', bool_decide (ndarray_shape r' = ndarray_shape r)) rows then
        Ok (Ndarray (length rows :: ndarray_shape r)
                    (concat (ndarray_items <$> rows)))
      else Raise (ValueError "setting an array element with a sequence")
  end.

(** [np.asarray(v, order="C")] *)
Fixpoint np_asarray (v : pyvalue) : result ndarray :=
  match v with
  | PNum z => Ok (Ndarray [] [SInt z])
  | PStr s => Ok (Ndarray [] [SText s])
  | PArr a => Ok a
  | PTuple l =>
      rows ← (fix go (l : list pyvalue) : result (list ndarray) :=
                match l with
                | [] => Ok []
                | x :: l' => r ← np_asarray x; rs ← go l'; Ok (r :: rs)
                end) l;
      stack rows
  end.

(** [v.shape]: arrays have one, numbers, tuples and text do not. *)
Definition shape_of (v : pyvalue) : result (list nat) :=
  match v with
  | PArr a => Ok (ndarray_shape a)
  | _ => Raise (AttributeError "object has no attribute 'shape'")
  end.

Inductive selector : Type :=
| SelAll
| SelInt (i : Z)
| SelTuple (idx : list Z).

Definition norm_index (n : nat) (i : Z) : option nat :=
  if bool_decide (0 ≤ i < Z.of_nat n)%Z then Some (Z.to_nat i)
  else if bool_decide (- Z.of_nat n ≤ i < 0)%Z then Some (Z.to_nat (i + Z.of_nat n))
  else None.

(** Offset and shape of the block that a tuple of integers selects. *)
Fixpoint locate (shape : list nat) (idx : list Z) : result (nat * list nat) :=
  match idx, shape with
  | [], _ => Ok (0, shape)
  | _ :: _, [] => Raise (IndexError "too many indices for array")
  | i :: idx', n :: shape' =>
      match norm_index n i with
      | None => Raise (IndexError "index is out of bounds")
      | Some k =>
          '(off, sub) ← locate shape' idx';
          Ok (k * shape_size shape' + off, sub)
      end
  end.

Definition region (shape : list nat) (args : selector) : result (nat * list nat) :=
  match args with
  | SelAll =>
      match shape with
      | [] => Raise (IndexError "too many indices for array")
      | _ => Ok (0, shape)
      end
  | SelInt i => locate shape [i]
  | SelTuple idx => locate shape idx
  end.

(** [a[args]]: a block, or the item itself when every axis is indexed. *)
Definition np_getitem (a : ndarray) (args : selector) : result pyvalue :=
  '(off, sub) ← region (ndarray_shape a) args;
  let block := take (shape_size sub) (drop off (ndarray_items a)) in
  match args, sub, block with
  | SelAll, _, _ => Ok (PArr a)
  | _, [], [SInt z] => Ok (PNum z)
  | _, [], [SText s] => Ok (PStr s)
  | _, _, _ => Ok (PArr (Ndarray sub block))
  end.

Fixpoint strip_leading_ones (excess : nat) (vshape : list nat) : list nat :=
  match excess, vshape with
  | S excess', 1 :: vshape' => strip_leading_ones excess' vshape'
  | _, _ => vshape
  end.

(** The items of a value of shape [vshape] broadcast to [target]. *)
Fixpoint broadcast_to (target vshape : list nat) (vitems : list scalar)
  : option (list scalar) :=
  match target with
  | [] => match vshape with [] => Some vitems | _ => None end
  | t :: target' =>
      if bool_decide (length vshape ≤ length target') then
        block ← broadcast_to target' vshape vitems;
        Some (concat (replicate t block))
      else
        match vshape with
        | [] => None
        | d :: vshape' =>
            let sz := shape_size vshape' in
            if bool_decide (d = t) then
              blocks ← mapM (λ k, broadcast_to target' vshape'
                                    (take sz (drop (k * sz) vitems)))
                            (seq 0 d);
              Some (concat blocks)
            else if bool_decide (d = 1) then
              block ← broadcast_to target' vshape' vitems;
              Some (concat (replicate t block))
            else None
        end
  end.

(** [a[args] = v], giving the array afterwards. *)
Definition np_setitem (a : ndarray) (args : selector) (v : pyvalue) : result ndarray :=
  va ← np_asarray v;
  '(off, sub) ← region (ndarray_shape a) args;
  let vshape := strip_leading_ones (length (ndarray_shape va) - length sub)
                                   (ndarray_shape va) in
  match broadcast_to sub vshape (ndarray_items va) with
  | None => Raise (ValueError "could not broadcast input array")
  | Some new =>
      Ok (Ndarray (ndarray_shape a)
                  (take off (ndarray_items a) ++ new
                   ++ drop (off + shape_size sub) (ndarray_items a)))
  end.

(** ** dataset.py *)

(** Modelled from the spec: the plugin interface of [exdir.core.plugin], which
    is not among the sources.  A plugin has an identifier, a write hook
    [prepare_write(value) -> (value, attributes, meta)] and a read hook
    [prepare_read(value, attributes) -> value]; the meta it contributes
    carries at least a [required] flag. *)
Record plugin_meta : Type := PluginMeta {
  required : bool;
  details : dict pyvalue
}.

(** Modelled from the spec: a plugin of [exdir.core.plugin], with its
    identifier and its two hooks, each of which may raise. *)
Record plugin : Type := Plugin {
  IDENTIFIER : string;
  prepare_write : pyvalue → result (pyvalue * dict pyvalue * plugin_meta);
  prepare_read : pyvalue → dict pyvalue → result pyvalue
}.

(** The loop of [_prepare_write] over the registered plugins. *)
Fixpoint prepare_write_loop (plugins : list plugin) (data : pyvalue)
    (attrs : dict pyvalue) (meta : dict plugin_meta)
  : result (pyvalue * dict pyvalue * dict plugin_meta) :=
  match plugins with
  | [] => Ok (data, attrs, meta)
  | plugin :: rest =>
      '(data', plugin_attrs, plugin_meta) ← prepare_write plugin data;
      let attrs' := dict_update attrs plugin_attrs in
      let meta' := if required plugin_meta
                   then dict_set (IDENTIFIER plugin) plugin_meta meta
                   else meta in
      prepare_write_loop rest data' attrs' meta'
  end.

Definition _prepare_write (dataset_plugins : list plugin) (data : pyvalue)
  : result (pyvalue * dict pyvalue * dict plugin_meta) :=
  '(data, attrs, meta) ← prepare_write_loop dataset_plugins data [] [];
  data ← (if isinstance_number_tuple_str data
          then a ← np_asarray data; Ok (PArr a)
          else Ok data);
  Ok (data, attrs, meta).

(** What Python may hold for a path: a text, or a path object of [pathlib].
    Of the two only the path object has the operator [/]. *)
Inductive pathlike : Type :=
| PathText (p : pathname)
| PathObject (p : pathname).

(** [a / name] *)
Definition truediv (a : pathlike) (name : string) : result pathlike :=
  match a with
  | PathObject p => Ok (PathObject (os_path_join p [name]))
  | PathText _ =>
      Raise (TypeError "unsupported operand type(s) for /: 'str' and 'str'")
  end.

(** [str(a)] *)
Definition str (a : pathlike) : pathname :=
  match a with
  | PathText p | PathObject p => p
  end.

Definition _dataset_filename (dataset_directory : pathlike) : result pathlike :=
  truediv dataset_directory "data.npy".

(** Modelled from the spec: the class [Attribute], which is not among the
    sources.  [attrs] and [meta] are live accessors bound to the attribute
    sidecar and to the metadata sidecar; of the metadata sidecar the entry
    [plugins] is kept, absent until something is assigned to it.

    A dataset handle works on the three files of its directory and on its
    own mapping of the payload, [None] until the first access. *)
Record dataset_state : Type := DatasetState {
  attributes_yaml : dict pyvalue;
  meta_plugins : option (dict plugin_meta);
  data_npy : option ndarray;
  (** how many times the payload file has been written whole *)
  payload_writes : nat;
  _data_memmap : option ndarray
}.

Inductive mmap_mode : Type :=
| mmap_r
| mmap_r_plus.

(** Modelled from the spec: [self.attrs.update(attrs)] merges into the
    attribute sidecar. *)
Definition attrs_update (attrs : dict pyvalue) : M dataset_state unit :=
  modify (λ st, DatasetState (dict_update (attributes_yaml st) attrs)
                  (meta_plugins st) (data_npy st) (payload_writes st)
                  (_data_memmap st)).

(** Modelled from the spec: [self.meta["plugins"] = meta] replaces the
    entry of the metadata sidecar. *)
Definition meta_set_plugins (meta : dict plugin_meta) : M dataset_state unit :=
  modify (λ st, DatasetState (attributes_yaml st) (Some meta) (data_npy st)
                  (payload_writes st) (_data_memmap st)).

(** Modelled from the spec: [self.meta["plugins"]] reads the entry of the
    metadata sidecar. *)
Definition meta_get_plugins : M dataset_state (dict plugin_meta) :=
  reads (λ st, match meta_plugins st with
               | Some meta => Ok meta
               | None => Raise (KeyError "plugins")
               end).

(** [np.save(filename, value)] writes the whole file. *)
Definition np_save (value : pyvalue) : M dataset_state unit :=
  a ← lift (np_asarray value);
  modify (λ st, DatasetState (attributes_yaml st) (meta_plugins st) (Some a)
                  (S (payload_writes st)) (_data_memmap st)).

(** An assignment through a read-write mapping changes the mapped array and,
    with it, the payload file, which is not written whole. *)
Definition memmap_assign (mode : mmap_mode) (a : ndarray) (args : selector)
    (value : pyvalue) : M dataset_state unit :=
  match mode with
  | mmap_r => raise (ValueError "assignment destination is read-only")
  | mmap_r_plus =>
      a' ← lift (np_setitem a args value);
      modify (λ st, DatasetState (attributes_yaml st) (meta_plugins st) (Some a')
                      (payload_writes st) (Some a'))
  end.

(** The message of [__getitem__] about a plugin that is not enabled. *)
Definition not_enabled_message (plugin_name name : string) : string :=
  "Plugin '" +:+ plugin_name +:+ "' was used to write '" +:+ name
  +:+ "', but is not enabled.".

(** The loop of [__getitem__] over the recorded plugin names. *)
Fixpoint check_enabled (enabled : list string) (name : string)
    (recorded : list string) : result unit :=
  match recorded with
  | [] => Ok tt
  | plugin_name :: rest =>
      if negb (bool_decide (plugin_name ∈ enabled)) then
        Raise (Exception (not_enabled_message plugin_name name))
      else check_enabled enabled name rest
  end.

(** The loop of [__getitem__] over the registered plugins. *)
Fixpoint prepare_read_loop (plugins : list plugin) (values : pyvalue)
  : M dataset_state pyvalue :=
  match plugins with
  | [] => mret values
  | plugin :: rest =>
      attrs ← gets attributes_yaml;
      values' ← lift (prepare_read plugin values attrs);
      prepare_read_loop rest values'
  end.

(** The class [Dataset]; a handle is an [Object.t], its [_data_memmap] is
    part of the state. *)
Module Dataset.
Definition _mmap_mode (self : Object.t) : mmap_mode :=
  if decide (Object.io_mode self = Some READ_ONLY) then mmap_r else mmap_r_plus.

Definition data_filename (self : Object.t) : pathname :=
  os_path_join (Object.directory self) ["data.npy"].

Definition _reload_data (self : Object.t) : M dataset_state unit :=
  updates (λ st,
    match data_npy st with
    | None => Raise (FileNotFoundError (path_str (data_filename self)))
    | Some a => Ok (DatasetState (attributes_yaml st) (meta_plugins st)
                      (data_npy st) (payload_writes st) (Some a))
    end).

(** The property [_data]; what it returns is an array once the payload is
    mapped. *)
Definition _data (self : Object.t) : M dataset_state ndarray :=
  mapped ← gets _data_memmap;
  (if mapped is None then _reload_data self else mret tt);;
  mapped ← gets _data_memmap;
  match mapped with
  | Some a => mret a
  | None => raise (AttributeError "'NoneType' object has no attribute 'shape'")
  end.

Section plugins.
(** [exdir.core.plugin.dataset_plugins] *)
Variable dataset_plugins : list plugin.

Definition __getitem__ (self : Object.t) (args : selector)
  : M dataset_state pyvalue :=
  a ← _data self;
  values ← (if bool_decide (length (ndarray_shape a) = 0)
            then a ← _data self; mret (PArr a)
            else a ← _data self; lift (np_getitem a args));
  let enabled_plugins := IDENTIFIER <$> dataset_plugins in
  recorded ← meta_get_plugins;
  lift (check_enabled enabled_plugins (Object.name self) (dict_keys recorded));;
  prepare_read_loop dataset_plugins values.

Definition __setitem__ (self : Object.t) (args : selector) (value : pyvalue)
  : M dataset_state unit :=
  if decide (Object.io_mode self = Some READ_ONLY) then
    raise (IOError ("Cannot write data to file in read only (" +:+ dquote
                    +:+ "r" +:+ dquote +:+ ") mode"))
  else
    '(value, attrs, meta) ← lift (_prepare_write dataset_plugins value);
    attrs_update attrs;;
    meta_set_plugins meta;;
    a ← _data self;
    memmap_assign (_mmap_mode self) a args value.

Definition _reset_data (self : Object.t) (value : pyvalue)
  : M dataset_state unit :=
  '(value, attrs, meta) ← lift (_prepare_write dataset_plugins value);
  np_save value;;
  attrs_update attrs;;
  meta_set_plugins meta;;
  _reload_data self.

Definition shape (self : Object.t) : M dataset_state (list nat) :=
  values ← __getitem__ self SelAll;
  lift (shape_of values).

Definition value (self : Object.t) : M dataset_state pyvalue :=
  __getitem__ self SelAll.

(** The setter of [value]. *)
Definition set_value (self : Object.t) (value : pyvalue)
  : M dataset_state unit :=
  a ← _data self;
  value_shape ← lift (shape_of value);
  if negb (bool_decide (ndarray_shape a = value_shape)) then
    _reset_data self value
  else
    __setitem__ self SelAll value.

Definition __len__ (self : Object.t) : M dataset_state nat :=
  s ← shape self;
  if bool_decide (length s = 0) then
    raise (TypeError "Attempt to take len() of scalar dataset")
  else
    s ← shape self;
    match s with
    | n :: _ => mret n
    | [] => raise (IndexError "tuple index out of range")
    end.

(** What the generator [__iter__] yields when it is run to its end. *)
Definition __iter__ (self : Object.t) : M dataset_state (list pyvalue) :=
  s ← shape self;
  if bool_decide (length s = 0) then
    raise (TypeError "Can't iterate over a scalar dataset")
  else
    s ← shape self;
    match s with
    | n :: _ => mapM (λ i, __getitem__ self (SelInt (Z.of_nat i))) (seq 0 n)
    | [] => raise (IndexError "tuple index out of range")
    end.
End plugins.

(** What [__init__] sets besides the fields of [Object]. *)
Record fields : Type := Fields {
  init_object : Object.t;
  init_data_memmap : option ndarray;
  init_mmap_mode : mmap_mode;
  init_data_filename : pathname
}.

(** [__init__], which also says whether a warning was issued.
    [self.directory] is made by [os.path.join], which gives a text. *)
Definition __init__ (filename_validation : rules)
    (root_directory parent_path object_name : pathname)
    (io_mode : option OpenMode) (validate_name : validate_name_arg)
  : result (fields * bool) :=
  '(self, warned) ← Object.__init__ filename_validation root_directory
                      parent_path object_name io_mode validate_name;
  filename ← _dataset_filename (PathText (Object.directory self));
  Ok (Fields self None (_mmap_mode self) (str filename), warned).
End Dataset.

(** ** Auxiliary notions for the properties of datasets *)

(** The state with the payload mapped as [a]. *)
Definition with_memmap (st : dataset_state) (a : ndarray) : dataset_state :=
  DatasetState (attributes_yaml st) (meta_plugins st) (data_npy st)
    (payload_writes st) (Some a).

(** What [a[args]] is for [__getitem__]: the whole array when it has no
    axis. *)
Definition selected (a : ndarray) (args : selector) : result pyvalue :=
  if bool_decide (length (ndarray_shape a) = 0) then Ok (PArr a)
  else np_getitem a args.

(** The sidecars after a write has merged [attrs] and recorded [meta]. *)
Definition with_sidecars (st : dataset_state) (attrs : dict pyvalue)
    (meta : dict plugin_meta) : dataset_state :=
  DatasetState (dict_update (attributes_yaml st) attrs) (Some meta)
    (data_npy st) (payload_writes st) (_data_memmap st).

(** The files of the dataset directory are the same in both states. *)
Definition same_files (st st' : dataset_state) : Prop :=
  attributes_yaml st' = attributes_yaml st
  ∧ meta_plugins st' = meta_plugins st
  ∧ data_npy st' = data_npy st
  ∧ payload_writes st' = payload_writes st.

(** An array has as many items as its shape says. *)
Definition ndarray_wf (a : ndarray) : Prop :=
  length (ndarray_items a) = shape_size (ndarray_shape a).

(** The values that the write hooks are called with by the loop of
    [_prepare_write], in the order of the calls. *)
Fixpoint prepare_write_args (plugins : list plugin) (data : pyvalue)
  : list pyvalue :=
  match plugins with
  | [] => []
  | plugin :: rest =>
      data :: match prepare_write plugin data with
              | Ok (data', _, _) => prepare_write_args rest data'
              | Raise _ => []
              end
  end.

(** What the write hooks return during that loop, in the order of the
    calls: the identifier of the plugin, its attributes and its meta. *)
Fixpoint write_trace (plugins : list plugin) (data : pyvalue)
  : list (string * dict pyvalue * plugin_meta) :=
  match plugins with
  | [] => []
  | plugin :: rest =>
      match prepare_write plugin data with
      | Ok (data', plugin_attrs, plugin_meta) =>
          (IDENTIFIER plugin, plugin_attrs, plugin_meta) :: write_trace rest data'
      | Raise _ => []
      end
  end.

(** The meta of the plugins that declared themselves required, under their
    identifiers. *)
Definition required_contributions (plugins : list plugin) (data : pyvalue)
  : dict plugin_meta :=
  (λ c, (c.1.1, c.2)) <$> filter (λ c, required c.2 = true) (write_trace plugins data).

(** [_prepare_write] as the specification words it: the value is made an
    array first, the plugins run on the result. *)
Definition _prepare_write_normalizing_first (dataset_plugins : list plugin)
    (data : pyvalue) : result (pyvalue * dict pyvalue * dict plugin_meta) :=
  data ← (if isinstance_number_tuple_str data
          then a ← np_asarray data; Ok (PArr a)
          else Ok data);
  prepare_write_loop dataset_plugins data [] [].

(** ** Stores and handles used as examples *)

(** [/d] holds a metadata file whose text does not parse. *)
Definition fs_unparsable_meta : FS :=
  {[ ["d"] := Dir; [META_FILENAME; "d"] := File Unparsable ]}.

(** Only the directory [/r]. *)
Definition fs_one_dir : FS := {[ ["r"] := Dir ]}.


(** [/r] is a store root and [/r/a] holds a metadata file whose text does
    not parse. *)
Definition fs_unparsable_below_root : FS :=
  {[ ["r"] := Dir;
     [META_FILENAME; "r"] := File (Document (object_metadata FILE_TYPENAME));
     ["a"; "r"] := Dir;
     [META_FILENAME; "a"; "r"] := File Unparsable ]}.

(** The filesystem root itself carries the metadata of a store root. *)
Definition fs_store_at_root : FS :=
  {[ [META_FILENAME] := File (Document (object_metadata FILE_TYPENAME));
     ["a"] := Dir ]}.

(** [/r] is a store root, [/r/g] a group, [/r/g/x] a plain directory and
    [/r/g/x/y] holds the empty document. *)
Definition fs_nested_store : FS :=
  {[ ["r"] := Dir;
     [META_FILENAME; "r"] := File (Document (object_metadata FILE_TYPENAME));
     ["g"; "r"] := Dir;
     [META_FILENAME; "g"; "r"] := File (Document (object_metadata GROUP_TYPENAME));
     ["x"; "g"; "r"] := Dir;
     ["y"; "x"; "g"; "r"] := Dir;
     [META_FILENAME; "y"; "x"; "g"; "r"] := File (Document YNull) ]}.


(** A rule that accepts every name. *)
Definition accept_name : validator := λ _ _ _, Ok tt.

(** The group [/r/g] of the store [/r]. *)
Definition group_handle : Object.t :=
  Object.Build ["r"] [] ["g"] None accept_name.


(** The dataset [/r/a], opened for writing, and [/r/b], opened read-only. *)
Definition dataset_handle : Object.t :=
  Object.Build ["r"] [] ["a"] None accept_name.

Definition read_only_handle : Object.t :=
  Object.Build ["r"] [] ["b"] (Some READ_ONLY) accept_name.

(** The arrays [[1, 2], [3, 4]] and [[1, 2, 3]], and the scalar [7]. *)
Definition array_2_2 : ndarray := Ndarray [2; 2] [SInt 1; SInt 2; SInt 3; SInt 4].
Definition array_1_3 : ndarray := Ndarray [1; 3] [SInt 1; SInt 2; SInt 3].
Definition array_scalar : ndarray := Ndarray [] [SInt 7].

(** A dataset directory as it is after the dataset was created with the
    given payload and no plugin, seen through a fresh handle. *)
Definition created_with (a : ndarray) : dataset_state :=
  DatasetState [] (Some []) (Some a) 1 None.

(** A plugin that passes the value on and notes, in an attribute, whether
    what it was handed was an array.  It is not required. *)
Definition probe : plugin :=
  Plugin "probe"
    (λ data, Ok (data,
                 [("saw_array",
                   PNum (if isinstance_number_tuple_str data then 0 else 1))],
                 PluginMeta false []))
    (λ values _, Ok values).

(** A plugin that passes the value on and declares itself required. *)
Definition scaling : plugin :=
  Plugin "scaling"
    (λ data, Ok (data, [("unit", PStr "mV")], PluginMeta true []))
    (λ values _, Ok values).

(** A plugin whose write hook raises. *)
Definition failing : plugin :=
  Plugin "failing"
    (λ _, Raise (ValueError "cannot prepare"))
    (λ values _, Ok values).

(** A dataset directory written earlier with a plugin ["old"] that declared
    itself required, with one user attribute. *)
Definition written_with_old_plugin : dataset_state :=
  DatasetState [("keep", PNum 1)] (Some [("old", PluginMeta true [])])
    (Some array_2_2) 1 None.


(** Directories whose metadata parses but is no record of a managed object:
    [/e] has the empty mapping, [/t] an [exdir] mapping without a type, [/u]
    the type ["blob"]. *)
Definition fs_malformed_meta : FS :=
  {[ ["e"] := Dir;
     [META_FILENAME; "e"] := File (Document (YMap []));
     ["t"] := Dir;
     [META_FILENAME; "t"] := File (Document (YMap [(EXDIR_METANAME, YMap [])]));
     ["u"] := Dir;
     [META_FILENAME; "u"] := File (Document (object_metadata "blob")) ]}.


(** * Properties *)

(** ** Running the monads *)

Ltac unfold_monad :=
  unfold mbind, mret, M_bind, M_ret, result_bind, result_ret,
    raise, gets, modify, reads, updates, lift in *.

Ltac run := repeat (unfold_monad; cbn [fst snd] in *).

(** ** Dictionaries *)

Section dict_lemmas.
Context {V : Type}.
Implicit Types (d other : dict V) (k : string) (v : V).

Lemma dict_get_set k k' v d :
  dict_get k' (dict_set k v d) = if String.eqb k' k then Some v else dict_get k' d.
Proof.
  induction d as [|[k0 v0] d IH]; simpl.
  - done.
  - destruct (String.eqb k k0) eqn:E; simpl.
    + apply String.eqb_eq in E as ->.
      by destruct (String.eqb k' k0).
    + destruct (String.eqb k' k0) eqn:E'.
      * apply String.eqb_eq in E' as ->.
        rewrite String.eqb_sym in E. by rewrite E.
      * done.
Qed.

Lemma dict_get_app k d other :
  dict_get k (d ++ other) =
    match dict_get k d with Some v => Some v | None => dict_get k other end.
Proof.
  induction d as [|[k0 v0] d IH]; simpl; [done|].
  by destruct (String.eqb k k0).
Qed.

(** The last binding of a key in [other] wins. *)
Lemma dict_get_update k d other :
  dict_get k (dict_update d other) =
    match dict_get k (reverse other) with
    | Some v => Some v
    | None => dict_get k d
    end.
Proof.
  unfold dict_update. revert d.
  induction other as [|[k0 v0] other IH]; intros d; simpl; [done|].
  rewrite IH, reverse_cons, dict_get_app, dict_get_set. simpl.
  destruct (dict_get k (reverse other)); [done|].
  by destruct (String.eqb k k0).
Qed.

Lemma elem_of_dict_keys k d : k ∈ dict_keys d ↔ is_Some (dict_get k d).
Proof.
  unfold dict_keys. induction d as [|[k0 v0] d IH]; simpl.
  - split; [by intros ?%elem_of_nil | by intros [? ?]].
  - rewrite elem_of_cons, IH.
    destruct (String.eqb k k0) eqn:E.
    + apply String.eqb_eq in E. split; eauto.
    + apply String.eqb_neq in E.
      split; [by intros [?|?] | by right].
Qed.

Lemma dict_get_reverse_is_Some k d :
  is_Some (dict_get k (reverse d)) ↔ is_Some (dict_get k d).
Proof.
  rewrite <-!elem_of_dict_keys. unfold dict_keys.
  by rewrite fmap_reverse, elem_of_reverse.
Qed.
End dict_lemmas.

(** ** Managed object directories *)

Lemma in_valid_types_str s :
  in_valid_types (YStr s) = true ↔ s ∈ valid_types.
Proof.
  unfold in_valid_types, valid_types. simpl.
  rewrite !orb_true_iff, !String.eqb_eq, !elem_of_cons, elem_of_nil.
  split; intros [?|[?|[?|?]]]; auto; done.
Qed.

Lemma in_valid_types_inv t :
  in_valid_types t = true → ∃ s, t = YStr s ∧ s ∈ valid_types.
Proof.
  intros H. destruct t as [| | |s| |]; try discriminate H.
  exists s. split; [done|]. by apply in_valid_types_str.
Qed.

(** The query, by the content of the metadata file. *)
Lemma is_nonraw_object_directory_eq (fs : FS) (directory : pathname) :
  is_nonraw_object_directory fs directory =
    match fs !! (META_FILENAME :: directory) with
    | None => Ok false
    | Some Dir => Raise (IsADirectoryError (path_str (META_FILENAME :: directory)))
    | Some (File Unparsable) => Raise YAMLError
    | Some (File (Document (YMap m))) =>
        match dict_get EXDIR_METANAME m with
        | None => Ok false
        | Some (YMap e) =>
            match dict_get TYPE_METANAME e with
            | None => Ok false
            | Some t => Ok (in_valid_types t)
            end
        | Some (YStr s) =>
            if is_substring TYPE_METANAME s
            then Raise (TypeError "string indices must be integers")
            else Ok false
        | Some (YSeq l) =>
            if existsb (yaml_is_str TYPE_METANAME) l
            then Raise (TypeError "list indices must be integers or slices, not str")
            else Ok false
        | Some _ => Raise (TypeError "argument is not iterable")
        end
    | Some (File (Document _)) => Ok false
    end.
Proof.
  unfold is_nonraw_object_directory, os_path_exists, open_read, os_path_join.
  cbn [app node_at].
  destruct (fs !! (META_FILENAME :: directory)) as [[|[|y]]|]; try done.
  destruct y as [| | | | |m]; try done.
  run. cbn [yaml_safe_load isinstance_dict negb py_in py_getitem].
  unfold dict_contains.
  destruct (dict_get EXDIR_METANAME m) as [e|]; [|done].
  destruct e as [| | |s|l|e]; cbn [negb py_in py_getitem]; try done.
  - by destruct (is_substring TYPE_METANAME s).
  - by destruct (existsb (yaml_is_str TYPE_METANAME) l).
  - unfold dict_contains.
    destruct (dict_get TYPE_METANAME e) as [t|]; [|done].
    cbn [negb]. by destruct (in_valid_types t).
Qed.

(** C1, as the code has it.  [is_nonraw_object_directory] answers [true]
    exactly when the metadata file parses to a mapping whose [exdir] entry is
    a mapping whose [type] entry is one of dataset, group and file.  It
    answers [false] when the metadata file is absent, when the document is
    not a mapping, when the [exdir] key is missing, when the [exdir] mapping
    has no [type] key and when the type is not a known one.  A metadata file
    that does not parse is not answered with [false]: the parser's error
    propagates. *)
Theorem is_nonraw_object_directory_cases (fs : FS) (directory : pathname) :
  let meta := fs !! (META_FILENAME :: directory) in
  (is_nonraw_object_directory fs directory = Ok true ↔
     ∃ m e s, meta = Some (File (Document (YMap m)))
              ∧ dict_get EXDIR_METANAME m = Some (YMap e)
              ∧ dict_get TYPE_METANAME e = Some (YStr s)
              ∧ s ∈ valid_types)
  ∧ (meta = None → is_nonraw_object_directory fs directory = Ok false)
  ∧ (∀ y, meta = Some (File (Document y)) → isinstance_dict y = false →
          is_nonraw_object_directory fs directory = Ok false)
  ∧ (∀ m, meta = Some (File (Document (YMap m))) →
          dict_get EXDIR_METANAME m = None →
          is_nonraw_object_directory fs directory = Ok false)
  ∧ (∀ m e, meta = Some (File (Document (YMap m))) →
            dict_get EXDIR_METANAME m = Some (YMap e) →
            dict_get TYPE_METANAME e = None →
            is_nonraw_object_directory fs directory = Ok false)
  ∧ (∀ m e t, meta = Some (File (Document (YMap m))) →
              dict_get EXDIR_METANAME m = Some (YMap e) →
              dict_get TYPE_METANAME e = Some t →
              in_valid_types t = false →
              is_nonraw_object_directory fs directory = Ok false)
  ∧ (meta = Some (File Unparsable) →
     is_nonraw_object_directory fs directory = Raise YAMLError).
Proof.
  intros meta. subst meta. rewrite is_nonraw_object_directory_eq.
  split; [|repeat split].
  - split.
    + destruct (fs !! (META_FILENAME :: directory)) as [[|[|y]]|]; try done.
      destruct y as [| | | | |m]; try done.
      destruct (dict_get EXDIR_METANAME m) as [e|] eqn:Hexdir; [|done].
      destruct e as [| | |s|l|e]; try done.
      * by destruct (is_substring TYPE_METANAME s).
      * by destruct (existsb (yaml_is_str TYPE_METANAME) l).
      * destruct (dict_get TYPE_METANAME e) as [t|] eqn:Htype; [|done].
        intros [= Hvalid].
        apply in_valid_types_inv in Hvalid as (s & -> & Hs). eauto 10.
    + intros (m & e & s & -> & -> & -> & Hs).
      apply in_valid_types_str in Hs. by rewrite Hs.
  - by intros ->.
  - intros y -> Hy. by destruct y.
  - by intros m -> ->.
  - by intros m e -> -> ->.
  - intros m e t -> -> -> Hvalid. by rewrite Hvalid.
  - by intros ->.
Qed.

Lemma is_nonraw_object_directory_cases_witness :
  is_nonraw_object_directory fs_nested_store ["g"; "r"] = Ok true
  ∧ is_nonraw_object_directory fs_nested_store ["x"; "g"; "r"] = Ok false
  ∧ is_nonraw_object_directory fs_nested_store ["y"; "x"; "g"; "r"] = Ok false
  ∧ is_nonraw_object_directory fs_malformed_meta ["e"] = Ok false
  ∧ is_nonraw_object_directory fs_malformed_meta ["t"] = Ok false
  ∧ is_nonraw_object_directory fs_malformed_meta ["u"] = Ok false
  ∧ is_nonraw_object_directory fs_unparsable_meta ["d"] = Raise YAMLError.
Proof.
  repeat apply conj.
  - apply (is_nonraw_object_directory_cases fs_nested_store ["g"; "r"]).
    eexists _, _, GROUP_TYPENAME. repeat apply conj; try reflexivity.
    by apply in_valid_types_str.
  - by apply (is_nonraw_object_directory_cases fs_nested_store ["x"; "g"; "r"]).
  - by apply (proj1 (proj2 (proj2 (is_nonraw_object_directory_cases
                                     fs_nested_store ["y"; "x"; "g"; "r"])))
                YNull).
  - by apply (proj1 (proj2 (proj2 (proj2 (is_nonraw_object_directory_cases
                                            fs_malformed_meta ["e"]))))
                []).
  - by apply (proj1 (proj2 (proj2 (proj2 (proj2
                (is_nonraw_object_directory_cases fs_malformed_meta ["t"])))))
                [(EXDIR_METANAME, YMap [])] []).
  - by apply (proj1 (proj2 (proj2 (proj2 (proj2 (proj2
                (is_nonraw_object_directory_cases fs_malformed_meta ["u"]))))))
                [(EXDIR_METANAME,
                  YMap [(TYPE_METANAME, YStr "blob"); (VERSION_METANAME, YInt 1)])]
                [(TYPE_METANAME, YStr "blob"); (VERSION_METANAME, YInt 1)]
                (YStr "blob")).
  - by apply (is_nonraw_object_directory_cases fs_unparsable_meta ["d"]).
Defined.

(** C1 as stated fails: on a metadata file whose text does not parse the
    query raises instead of answering [false]. *)
Lemma is_nonraw_object_directory_raises_on_unparsable_text :
  fs_unparsable_meta !! [META_FILENAME; "d"] = Some (File Unparsable)
  ∧ is_nonraw_object_directory fs_unparsable_meta ["d"] = Raise YAMLError
  ∧ is_nonraw_object_directory fs_unparsable_meta ["d"] ≠ Ok false.
Proof. by vm_compute. Qed.

(** ** Creating object directories *)

Lemma cons_neq_self {A} (x : A) (l : list A) : x :: l ≠ l.
Proof. intros H. apply (f_equal length) in H. simpl in H. lia. Qed.

Lemma existsb_eqb_valid_types typename :
  existsb (String.eqb typename) valid_types = true ↔ typename ∈ valid_types.
Proof.
  unfold valid_types. simpl.
  rewrite !orb_true_iff, !String.eqb_eq, !elem_of_cons, elem_of_nil.
  split; intros [?|[?|[?|?]]]; auto; done.
Qed.

Lemma fs_wf_absent_below (fs : FS) (directory : pathname) (name : string) :
  fs_wf fs → os_path_exists fs directory = false →
  fs !! (name :: directory) = None.
Proof.
  intros Hwf Habsent.
  destruct (fs !! (name :: directory)) as [n|] eqn:Hn; [|done].
  destruct (Hwf _ _ Hn) as [_ Hdir]. simpl in Hdir.
  unfold os_path_isdir in Hdir. unfold os_path_exists in Habsent.
  by destruct (node_at fs directory) as [[|]|].
Qed.

(** C2.  [_create_object_directory] raises [IOError] when the directory is
    there, and [ValueError] when it is not there and the typename is not one
    of dataset, group and file.  Otherwise, in a directory that exists, it
    makes the directory and writes the metadata record with that type and
    version 1, after which [is_nonraw_object_directory] answers [true].  A
    directory without a metadata file is not a managed object and is raw. *)
Theorem create_object_directory_spec (fs : FS) (directory : pathname)
    (typename : string) :
  (os_path_exists fs directory = true →
   _create_object_directory directory typename fs =
     (Raise (IOError ("The directory '" +:+ path_str directory
                      +:+ "' already exists")), fs))
  ∧ (os_path_exists fs directory = false → typename ∉ valid_types →
     _create_object_directory directory typename fs =
       (Raise (ValueError (typename +:+ " is not a valid typename")), fs))
  ∧ (fs_wf fs → os_path_exists fs directory = false →
     os_path_isdir fs (os_path_dirname directory) = true →
     typename ∈ valid_types →
     let fs' := <[META_FILENAME :: directory :=
                    File (Document (object_metadata typename))]>
                (<[directory := Dir]> fs) in
     _create_object_directory directory typename fs = (Ok tt, fs')
     ∧ os_path_isdir fs' directory = true
     ∧ is_nonraw_object_directory fs' directory = Ok true)
  ∧ (os_path_isdir fs directory = true →
     fs !! (META_FILENAME :: directory) = None →
     is_nonraw_object_directory fs directory = Ok false
     ∧ is_raw_object_directory fs directory = Ok true).
Proof.
  split; [|split; [|split]].
  - intros Hpresent. unfold _create_object_directory. run. by rewrite Hpresent.
  - intros Habsent Htype. unfold _create_object_directory. run.
    rewrite Habsent.
    destruct (existsb (String.eqb typename) valid_types) eqn:E; [|done].
    by apply existsb_eqb_valid_types in E.
  - intros Hwf Habsent Hparent Htype fs'.
    assert (directory ≠ []) as Hne by (by intros ->).
    assert (fs !! (META_FILENAME :: directory) = None) as Hmeta
      by (by apply fs_wf_absent_below).
    split; [|split].
    + apply existsb_eqb_valid_types in Htype.
      unfold _create_object_directory, os_mkdir, open_write,
        _metafile_from_directory, os_path_join, yaml_safe_dump.
      run. rewrite Habsent, Htype. cbn [negb]. rewrite Habsent.
      unfold os_path_isdir in Hparent.
      destruct (node_at fs (os_path_dirname directory)) as [[|]|]; try done.
      cbn [app os_path_dirname tail node_at].
      rewrite lookup_insert_ne by apply not_eq_sym, cons_neq_self.
      rewrite Hmeta.
      destruct directory as [|c parent]; [done|]. cbn [node_at].
      by rewrite lookup_insert_eq.
    + unfold os_path_isdir. destruct directory as [|c parent]; [done|].
      cbn [node_at]. subst fs'.
      rewrite lookup_insert_ne by apply cons_neq_self.
      by rewrite lookup_insert_eq.
    + rewrite is_nonraw_object_directory_eq. subst fs'.
      rewrite lookup_insert_eq. cbn -[in_valid_types].
      apply in_valid_types_str in Htype. by rewrite Htype.
  - intros Hdir Hmeta. split.
    + rewrite is_nonraw_object_directory_eq. by rewrite Hmeta.
    + unfold is_raw_object_directory, is_exdir_object.
      rewrite Hdir. rewrite is_nonraw_object_directory_eq. by rewrite Hmeta.
Qed.

Lemma create_object_directory_spec_witness :
  _create_object_directory ["r"] "group" fs_one_dir =
    (Raise (IOError "The directory '/r' already exists"), fs_one_dir)
  ∧ _create_object_directory ["d"; "r"] "blob" fs_one_dir =
      (Raise (ValueError "blob is not a valid typename"), fs_one_dir)
  ∧ (let fs' := <[[META_FILENAME; "d"; "r"] :=
                    File (Document (object_metadata "group"))]>
                (<[["d"; "r"] := Dir]> fs_one_dir) in
     _create_object_directory ["d"; "r"] "group" fs_one_dir = (Ok tt, fs')
     ∧ os_path_isdir fs' ["d"; "r"] = true
     ∧ is_nonraw_object_directory fs' ["d"; "r"] = Ok true)
  ∧ (is_nonraw_object_directory fs_one_dir ["r"] = Ok false
     ∧ is_raw_object_directory fs_one_dir ["r"] = Ok true).
Proof.
  split; [|split; [|split]].
  - apply (create_object_directory_spec fs_one_dir ["r"] "group"). reflexivity.
  - apply (create_object_directory_spec fs_one_dir ["d"; "r"] "blob").
    + reflexivity.
    + intros H%existsb_eqb_valid_types. discriminate H.
  - apply (create_object_directory_spec fs_one_dir ["d"; "r"] "group").
    + apply map_Forall_singleton. split; [discriminate|reflexivity].
    + reflexivity.
    + reflexivity.
    + by apply existsb_eqb_valid_types.
  - apply (create_object_directory_spec fs_one_dir ["r"] "group");
      reflexivity.
Defined.

(** ** Finding the store root *)

Lemma file_typed_nonraw (fs : FS) (directory : pathname) :
  file_typed fs directory = true →
  is_nonraw_object_directory fs directory = Ok true.
Proof.
  unfold file_typed. rewrite is_nonraw_object_directory_eq.
  destruct (fs !! (META_FILENAME :: directory)) as [[|[|y]]|]; try done.
  destruct y as [| | | | |m]; try done.
  destruct (dict_get EXDIR_METANAME m) as [[| | | | |e]|]; try done.
  destruct (dict_get TYPE_METANAME e) as [t|]; [|done].
  destruct t as [| | |s| |]; try done. cbn [yaml_is_str].
  intros ->%String.eqb_eq. done.
Qed.

(** One turn of the loop stops exactly on a store root, goes on when the
    query answers otherwise, and raises when the query raises. *)
Lemma root_directory_step_eq (fs : FS) (path : pathname) :
  root_directory_step fs path =
    match is_nonraw_object_directory fs path with
    | Ok _ => Ok (file_typed fs path)
    | Raise e => Raise e
    end.
Proof.
  unfold root_directory_step, file_typed, _metafile_from_directory,
    os_path_join, open_read, yaml_load.
  rewrite is_nonraw_object_directory_eq. cbn [app node_at].
  destruct (fs !! (META_FILENAME :: path)) as [[|[|y]]|]; try done.
  destruct y as [| | | | |m]; try done.
  destruct (dict_get EXDIR_METANAME m) as [e|] eqn:Hexdir; [|done].
  destruct e as [| | |s|l|e]; try done.
  - by destruct (is_substring TYPE_METANAME s).
  - by destruct (existsb (yaml_is_str TYPE_METANAME) l).
  - destruct (dict_get TYPE_METANAME e) as [t|] eqn:Htype; [|done].
    run. cbn [yaml_safe_load py_in py_getitem]. unfold dict_contains.
    rewrite Hexdir. cbn [negb py_in py_getitem]. unfold dict_contains.
    rewrite Htype. cbn [negb].
    destruct (in_valid_types t) eqn:Hvalid; cbn [negb].
    + by destruct (yaml_is_str FILE_TYPENAME t).
    + destruct t as [| | |s| |]; try done. cbn [yaml_is_str].
      destruct (String.eqb s FILE_TYPENAME) eqn:E; [|done].
      apply String.eqb_eq in E as ->. discriminate Hvalid.
Qed.

Lemma root_directory_found (fs : FS) (below : pathname) (c : string)
    (above : pathname) :
  file_typed fs (c :: above) = true →
  (∀ s, s `suffix_of` below → s ≠ [] →
        (∃ b, is_nonraw_object_directory fs (s ++ c :: above) = Ok b)
        ∧ file_typed fs (s ++ c :: above) = false) →
  root_directory fs (below ++ c :: above) = Ok (Some (c :: above)).
Proof.
  intros Hroot. induction below as [|x below IH]; intros Hbetween.
  - cbn [app root_directory]. rewrite root_directory_step_eq.
    rewrite (file_typed_nonraw _ _ Hroot), Hroot. done.
  - cbn [app root_directory]. rewrite root_directory_step_eq.
    destruct (Hbetween (x :: below)) as [[b Hb] Hnot]; [done..|].
    cbn [app] in Hb, Hnot. rewrite Hb, Hnot. cbn.
    apply IH. intros s Hs Hne. apply Hbetween; [|done].
    by apply suffix_cons_r.
Qed.

Lemma root_directory_not_found (fs : FS) (path : pathname) :
  root_directory fs path = Ok None ↔
  ∀ s, s `suffix_of` path → s ≠ [] →
       (∃ b, is_nonraw_object_directory fs s = Ok b)
       ∧ file_typed fs s = false.
Proof.
  induction path as [|x path IH].
  - split; [|done]. intros _ s Hs Hne. by apply suffix_nil_inv in Hs.
  - cbn [root_directory]. rewrite root_directory_step_eq. split.
    + intros Hrun s Hs Hne.
      destruct (is_nonraw_object_directory fs (x :: path)) as [b|e] eqn:Hb;
        [|done].
      destruct (file_typed fs (x :: path)) eqn:Hft; [done|].
      cbn in Hrun. destruct s as [|y s]; [done|].
      apply suffix_cons_inv in Hs as [[= -> ->]|Hs].
      * split; [by exists b|done].
      * by apply IH.
    + intros Hall.
      destruct (Hall (x :: path)) as [[b Hb] Hnot]; [done..|].
      rewrite Hb, Hnot. cbn. apply IH.
      intros s Hs Hne. apply Hall; [|done]. by apply suffix_cons_r.
Qed.

(** An exception of the query on a directory of the chain comes out of
    [root_directory] when every directory before it is walked past. *)
Lemma root_directory_raises (fs : FS) (below : pathname) (c : string)
    (above : pathname) (e : exn) :
  is_nonraw_object_directory fs (c :: above) = Raise e →
  (∀ s, s `suffix_of` below → s ≠ [] →
        (∃ b, is_nonraw_object_directory fs (s ++ c :: above) = Ok b)
        ∧ file_typed fs (s ++ c :: above) = false) →
  root_directory fs (below ++ c :: above) = Raise e.
Proof.
  intros Hraise. induction below as [|x below IH]; intros Hbetween.
  - cbn [app root_directory]. rewrite root_directory_step_eq.
    by rewrite Hraise.
  - cbn [app root_directory]. rewrite root_directory_step_eq.
    destruct (Hbetween (x :: below)) as [[b Hb] Hnot]; [done..|].
    cbn [app] in Hb, Hnot. rewrite Hb, Hnot. cbn.
    apply IH. intros s Hs Hne. apply Hbetween; [|done].
    by apply suffix_cons_r.
Qed.

Lemma root_directory_raise_inv (fs : FS) (path : pathname) (e : exn) :
  root_directory fs path = Raise e →
  ∃ below c above,
    path = below ++ c :: above
    ∧ is_nonraw_object_directory fs (c :: above) = Raise e
    ∧ ∀ s, s `suffix_of` below → s ≠ [] →
           (∃ b, is_nonraw_object_directory fs (s ++ c :: above) = Ok b)
           ∧ file_typed fs (s ++ c :: above) = false.
Proof.
  induction path as [|x path IH]; [done|].
  cbn [root_directory]. rewrite root_directory_step_eq.
  destruct (is_nonraw_object_directory fs (x :: path)) as [b|e0] eqn:Hb.
  - destruct (file_typed fs (x :: path)) eqn:Hft; [done|]. cbn.
    intros (below & c & above & -> & Hraise & Hbetween)%IH.
    exists (x :: below), c, above. split; [done|]. split; [done|].
    intros s Hs Hne. destruct s as [|y s]; [done|].
    apply suffix_cons_inv in Hs as [[= -> ->]|Hs].
    + split; [by exists b|done].
    + by apply Hbetween.
  - cbn. intros [= ->]. exists [], x, path. split; [done|]. split; [done|].
    intros s Hs Hne. by apply suffix_nil_inv in Hs.
Qed.

(** C3, as the code has it.  Started at or below a store root that is not
    the filesystem root, [root_directory] returns the nearest store root,
    walking past every directory on the way whose metadata file is absent or
    is answered by [is_nonraw_object_directory] without its being a store
    root.  The filesystem root is never examined: for it the answer is
    not-found whatever it holds; and not-found is the answer exactly when
    every directory on the chain below the filesystem root is answered and
    is not a store root.  A directory on whose metadata file the query
    raises is not walked past: [root_directory] raises an exception exactly
    when the first directory of the chain that is not walked past is one on
    which the query raises it; so a metadata file whose text does not parse,
    reached in this way, makes the error of the parser come out. *)
Theorem root_directory_nearest_store_root (fs : FS) :
  (∀ below c above,
     file_typed fs (c :: above) = true →
     (∀ s, s `suffix_of` below → s ≠ [] →
           (∃ b, is_nonraw_object_directory fs (s ++ c :: above) = Ok b)
           ∧ file_typed fs (s ++ c :: above) = false) →
     root_directory fs (below ++ c :: above) = Ok (Some (c :: above)))
  ∧ root_directory fs [] = Ok None
  ∧ (∀ path,
       root_directory fs path = Ok None ↔
       ∀ s, s `suffix_of` path → s ≠ [] →
            (∃ b, is_nonraw_object_directory fs s = Ok b)
            ∧ file_typed fs s = false)
  ∧ (∀ path e,
       root_directory fs path = Raise e ↔
       ∃ below c above,
         path = below ++ c :: above
         ∧ is_nonraw_object_directory fs (c :: above) = Raise e
         ∧ ∀ s, s `suffix_of` below → s ≠ [] →
                (∃ b, is_nonraw_object_directory fs (s ++ c :: above) = Ok b)
                ∧ file_typed fs (s ++ c :: above) = false)
  ∧ (∀ below c above,
       fs !! (META_FILENAME :: c :: above) = Some (File Unparsable) →
       (∀ s, s `suffix_of` below → s ≠ [] →
             (∃ b, is_nonraw_object_directory fs (s ++ c :: above) = Ok b)
             ∧ file_typed fs (s ++ c :: above) = false) →
       root_directory fs (below ++ c :: above) = Raise YAMLError).
Proof.
  split; [|split; [|split; [|split]]].
  - intros below c above. apply root_directory_found.
  - done.
  - apply root_directory_not_found.
  - intros path e. split; [apply root_directory_raise_inv|].
    intros (below & c & above & -> & Hraise & Hbetween).
    by apply root_directory_raises.
  - intros below c above Hmeta. apply root_directory_raises.
    by rewrite is_nonraw_object_directory_eq, Hmeta.
Qed.

Lemma root_directory_nearest_store_root_witness :
  root_directory fs_nested_store ["y"; "x"; "g"; "r"] = Ok (Some ["r"])
  ∧ root_directory fs_one_dir ["x"; "r"] = Ok None
  ∧ root_directory fs_unparsable_below_root ["b"; "a"; "r"] = Raise YAMLError.
Proof.
  split; [|split].
  - apply (proj1 (root_directory_nearest_store_root fs_nested_store)
             ["y"; "x"; "g"] "r" []).
    + reflexivity.
    + intros s Hs Hne. destruct s as [|a s]; [done|].
      apply suffix_cons_inv in Hs as [[= -> ->]|Hs];
        [split; [by exists false|reflexivity]|].
      apply suffix_cons_inv in Hs as [[= -> ->]|Hs];
        [split; [by exists false|reflexivity]|].
      apply suffix_cons_inv in Hs as [[= -> ->]|Hs];
        [split; [by exists true|reflexivity]|].
      by apply suffix_nil_inv in Hs.
  - apply (proj2 (proj1 (proj2 (proj2 (root_directory_nearest_store_root
                                         fs_one_dir)))
                    ["x"; "r"])).
    intros s Hs Hne. destruct s as [|a s]; [done|].
    apply suffix_cons_inv in Hs as [[= -> ->]|Hs];
      [split; [by exists false|reflexivity]|].
    apply suffix_cons_inv in Hs as [[= -> ->]|Hs];
      [split; [by exists false|reflexivity]|].
    by apply suffix_nil_inv in Hs.
  - apply (proj2 (proj2 (proj2 (proj2 (root_directory_nearest_store_root
                                         fs_unparsable_below_root))))
             ["b"] "a" ["r"]).
    + reflexivity.
    + intros s Hs Hne. destruct s as [|a s]; [done|].
      apply suffix_cons_inv in Hs as [[= -> ->]|Hs];
        [split; [by exists false|reflexivity]|].
      by apply suffix_nil_inv in Hs.
Defined.

(** C3 as stated fails twice.  Below a store root, a directory whose
    metadata text does not parse is not walked past: the parser's error
    comes out of [root_directory].  And a store root at the filesystem root
    is not found, from the root itself or from below it. *)
Lemma root_directory_misses_store_root :
  (file_typed fs_unparsable_below_root ["r"] = true
   ∧ root_directory fs_unparsable_below_root ["a"; "r"] = Raise YAMLError)
  ∧ (file_typed fs_store_at_root [] = true
     ∧ is_nonraw_object_directory fs_store_at_root [] = Ok true
     ∧ root_directory fs_store_at_root [] = Ok None
     ∧ root_directory fs_store_at_root ["a"] = Ok None).
Proof. by vm_compute. Qed.

(** ** Raw directories *)

(** C4, where the code departs from it.  On the group [/r/g],
    [create_raw "blob"] makes the directory [/r/g/blob] and returns a handle
    whose directory is [/r/blob], which does not exist; a second
    [require_raw "blob"] raises nothing and returns the path [/r/g/blob]
    itself, not a handle. *)
Theorem create_raw_handle_misses_created_directory :
  let made := Object.create_raw group_handle ["blob"] fs_nested_store in
  let first := Object.require_raw group_handle ["blob"] fs_nested_store in
  let second := Object.require_raw group_handle ["blob"] first.2 in
  os_path_exists fs_nested_store ["blob"; "g"; "r"] = false
  ∧ made.1 = Ok (Raw.Build ["r"] [] ["blob"] None)
  ∧ os_path_isdir made.2 ["blob"; "g"; "r"] = true
  ∧ Raw.directory (Raw.Build ["r"] [] ["blob"] None) = ["blob"; "r"]
  ∧ os_path_exists made.2 ["blob"; "r"] = false
  ∧ first.1 = Ok (inr (Raw.Build ["r"] [] ["blob"] None))
  ∧ second.1 = Ok (inl ["blob"; "g"; "r"]).
Proof. by vm_compute. Qed.

(** ** Datasets: the mapping of the payload *)

Lemma _data_mapped (self : Object.t) (st : dataset_state) (a : ndarray) :
  _data_memmap st = Some a → Dataset._data self st = (Ok a, st).
Proof. intros H. unfold Dataset._data. run. rewrite H. cbn. by rewrite H. Qed.

Lemma _data_unmapped (self : Object.t) (st : dataset_state) :
  _data_memmap st = None →
  Dataset._data self st =
    match data_npy st with
    | Some a => (Ok a, with_memmap st a)
    | None => (Raise (FileNotFoundError (path_str (Dataset.data_filename self))), st)
    end.
Proof.
  intros H. unfold Dataset._data, Dataset._reload_data, with_memmap. run.
  rewrite H. by destruct (data_npy st).
Qed.

Lemma _data_inv (self : Object.t) (st st1 : dataset_state) (a : ndarray) :
  Dataset._data self st = (Ok a, st1) →
  _data_memmap st1 = Some a
  ∧ attributes_yaml st1 = attributes_yaml st
  ∧ meta_plugins st1 = meta_plugins st
  ∧ data_npy st1 = data_npy st
  ∧ payload_writes st1 = payload_writes st.
Proof.
  destruct (_data_memmap st) as [a0|] eqn:Hmap.
  - rewrite (_data_mapped _ _ _ Hmap). by intros [= <- <-].
  - rewrite (_data_unmapped _ _ Hmap).
    destruct (data_npy st) eqn:Hfile; [|done].
    intros [= <- <-]. cbn. by rewrite Hfile.
Qed.

Lemma _data_again (self : Object.t) (st st1 : dataset_state) (a : ndarray) :
  Dataset._data self st = (Ok a, st1) → Dataset._data self st1 = (Ok a, st1).
Proof. intros H. apply _data_mapped. by apply _data_inv in H as [? _]. Qed.

Lemma _data_payload_writes (self : Object.t) (st : dataset_state) :
  payload_writes (Dataset._data self st).2 = payload_writes st.
Proof.
  destruct (_data_memmap st) as [a0|] eqn:Hmap.
  - by rewrite (_data_mapped _ _ _ Hmap).
  - rewrite (_data_unmapped _ _ Hmap). by destruct (data_npy st).
Qed.

Lemma prepare_read_loop_state (plugins : list plugin) (values : pyvalue)
    (st : dataset_state) :
  (prepare_read_loop plugins values st).2 = st.
Proof.
  revert values. induction plugins as [|p plugins IH]; intros values; [done|].
  cbn [prepare_read_loop]. run.
  destruct (prepare_read p values (attributes_yaml st)); [apply IH|done].
Qed.

(** [__getitem__] once the payload is mapped. *)
Lemma __getitem___eq (plugins : list plugin) (self : Object.t) (args : selector)
    (st st1 : dataset_state) (a : ndarray) :
  Dataset._data self st = (Ok a, st1) →
  Dataset.__getitem__ plugins self args st =
    match selected a args with
    | Raise e => (Raise e, st1)
    | Ok values =>
        match meta_plugins st1 with
        | None => (Raise (KeyError "plugins"), st1)
        | Some recorded =>
            match check_enabled (IDENTIFIER <$> plugins) (Object.name self)
                    (dict_keys recorded) with
            | Raise e => (Raise e, st1)
            | Ok _ => prepare_read_loop plugins values st1
            end
        end
    end.
Proof.
  intros Hdata. pose proof (_data_again _ _ _ _ Hdata) as Hagain.
  unfold Dataset.__getitem__, selected, meta_get_plugins. unfold_monad.
  rewrite Hdata.
  destruct (bool_decide (length (ndarray_shape a) = 0)).
  - rewrite Hagain. destruct (meta_plugins st1); [|done].
    by destruct (check_enabled _ _ _).
  - rewrite Hagain. destruct (np_getitem a args); [|done].
    destruct (meta_plugins st1); [|done].
    by destruct (check_enabled _ _ _).
Qed.

Lemma __getitem___unreadable (plugins : list plugin) (self : Object.t)
    (args : selector) (st st1 : dataset_state) (e : exn) :
  Dataset._data self st = (Raise e, st1) →
  Dataset.__getitem__ plugins self args st = (Raise e, st1).
Proof.
  intros Hdata. unfold Dataset.__getitem__. unfold_monad. by rewrite Hdata.
Qed.

Lemma __getitem___state (plugins : list plugin) (self : Object.t)
    (args : selector) (st st1 : dataset_state) (a : ndarray) :
  Dataset._data self st = (Ok a, st1) →
  (Dataset.__getitem__ plugins self args st).2 = st1.
Proof.
  intros Hdata. rewrite (__getitem___eq _ _ _ _ _ _ Hdata).
  destruct (selected a args); [|done].
  destruct (meta_plugins st1); [|done].
  destruct (check_enabled _ _ _); [|done].
  apply prepare_read_loop_state.
Qed.

(** A read that has returned returns the same again and leaves the state as
    it is. *)
Lemma __getitem___again (plugins : list plugin) (self : Object.t)
    (args : selector) (st st1 : dataset_state) (values : pyvalue) :
  Dataset.__getitem__ plugins self args st = (Ok values, st1) →
  Dataset.__getitem__ plugins self args st1 = (Ok values, st1).
Proof.
  intros Hread.
  destruct (Dataset._data self st) as [[a|e] st'] eqn:Hdata.
  - pose proof (__getitem___state plugins _ args _ _ _ Hdata) as Hst.
    rewrite Hread in Hst. cbn in Hst. subst st'.
    rewrite (__getitem___eq _ _ _ _ _ _ Hdata) in Hread.
    by rewrite (__getitem___eq _ _ _ _ _ _ (_data_again _ _ _ _ Hdata)).
  - rewrite (__getitem___unreadable _ _ _ _ _ _ Hdata) in Hread. done.
Qed.

(** ** Datasets: writing through a read-only handle *)

Lemma __setitem___read_only (plugins : list plugin) (self : Object.t)
    (args : selector) (value : pyvalue) (st : dataset_state) :
  Object.io_mode self = Some READ_ONLY →
  Dataset.__setitem__ plugins self args value st =
    (Raise (IOError ("Cannot write data to file in read only (" +:+ dquote
                     +:+ "r" +:+ dquote +:+ ") mode")), st).
Proof.
  intros Hmode. unfold Dataset.__setitem__.
  destruct (decide (Object.io_mode self = Some READ_ONLY)); done.
Qed.

(** C6.  On a handle opened [READ_ONLY], [dataset[args] = value] raises
    [IOError] whatever the selector, the value and the registered plugins
    are, and the attribute sidecar, the metadata sidecar, the payload file
    and the mapping are as they were: the check comes before any plugin
    runs. *)
Theorem setitem_read_only_raises (plugins : list plugin) (self : Object.t)
    (args : selector) (value : pyvalue) (st : dataset_state) :
  Object.io_mode self = Some READ_ONLY →
  Dataset.__setitem__ plugins self args value st =
    (Raise (IOError ("Cannot write data to file in read only (" +:+ dquote
                     +:+ "r" +:+ dquote +:+ ") mode")), st).
Proof. apply __setitem___read_only. Qed.

Lemma setitem_read_only_raises_witness :
  Dataset.__setitem__ [] read_only_handle SelAll (PArr array_2_2)
    (created_with array_2_2) =
    (Raise (IOError ("Cannot write data to file in read only (" +:+ dquote
                     +:+ "r" +:+ dquote +:+ ") mode")),
     created_with array_2_2).
Proof. apply setitem_read_only_raises. reflexivity. Defined.

(** ** Datasets: length, iteration and reads of a scalar *)

Lemma shape_inv (plugins : list plugin) (self : Object.t)
    (st st1 : dataset_state) (s : list nat) :
  Dataset.shape plugins self st = (Ok s, st1) →
  ∃ values, Dataset.__getitem__ plugins self SelAll st = (Ok values, st1)
            ∧ shape_of values = Ok s.
Proof.
  unfold Dataset.shape. unfold_monad.
  destruct (Dataset.__getitem__ plugins self SelAll st) as [[values|e] st'];
    [|done].
  destruct (shape_of values) as [s'|e] eqn:Hs; [|done].
  intros [= <- <-]. eauto.
Qed.

Lemma shape_again (plugins : list plugin) (self : Object.t)
    (st st1 : dataset_state) (s : list nat) :
  Dataset.shape plugins self st = (Ok s, st1) →
  Dataset.shape plugins self st1 = (Ok s, st1).
Proof.
  intros (values & Hread & Hs)%shape_inv.
  apply __getitem___again in Hread.
  unfold Dataset.shape. unfold_monad. by rewrite Hread, Hs.
Qed.

Lemma selected_all (a : ndarray) : selected a SelAll = Ok (PArr a).
Proof.
  unfold selected. destruct a as [[|n shape] items]; [done|].
  by cbn.
Qed.

Lemma getitem_no_plugins (self : Object.t) (args : selector)
    (st st1 : dataset_state) (a : ndarray) :
  Dataset._data self st = (Ok a, st1) → meta_plugins st = Some [] →
  Dataset.__getitem__ [] self args st =
    match selected a args with
    | Ok values => (Ok values, st1)
    | Raise e => (Raise e, st1)
    end.
Proof.
  intros Hdata Hmeta. rewrite (__getitem___eq _ _ _ _ _ _ Hdata).
  apply _data_inv in Hdata as (_ & _ & -> & _). rewrite Hmeta.
  by destruct (selected a args).
Qed.

(** C7.  A read of a payload without axes does not look at the selector,
    and without plugins it returns that payload.  When the shape of the
    dataset is empty, [len] and iteration raise [TypeError].  When it is
    [n :: _], [len] is [n] and iteration yields the reads [self[0]], ...,
    [self[n-1]], each a read of its own.  Without plugins the shape of the
    dataset is the shape of the payload. *)
Theorem scalar_and_first_axis (plugins : list plugin) (self : Object.t)
    (st : dataset_state) :
  (∀ a st1, Dataset._data self st = (Ok a, st1) → ndarray_shape a = [] →
     (∀ args args', Dataset.__getitem__ plugins self args st =
                    Dataset.__getitem__ plugins self args' st)
     ∧ (meta_plugins st = Some [] →
        ∀ args, Dataset.__getitem__ [] self args st = (Ok (PArr a), st1)))
  ∧ (∀ st1, Dataset.shape plugins self st = (Ok [], st1) →
       Dataset.__len__ plugins self st =
         (Raise (TypeError "Attempt to take len() of scalar dataset"), st1)
       ∧ Dataset.__iter__ plugins self st =
           (Raise (TypeError "Can't iterate over a scalar dataset"), st1))
  ∧ (∀ n rest st1, Dataset.shape plugins self st = (Ok (n :: rest), st1) →
       Dataset.__len__ plugins self st = (Ok n, st1)
       ∧ Dataset.__iter__ plugins self st =
           mapM (λ i, Dataset.__getitem__ plugins self (SelInt (Z.of_nat i)))
                (seq 0 n) st1)
  ∧ (∀ a st1, Dataset._data self st = (Ok a, st1) →
       meta_plugins st = Some [] →
       Dataset.shape [] self st = (Ok (ndarray_shape a), st1)).
Proof.
  split; [|split; [|split]].
  - intros a st1 Hdata Hrank. split.
    + intros args args'. rewrite !(__getitem___eq _ _ _ _ _ _ Hdata).
      unfold selected. by rewrite Hrank.
    + intros Hmeta args. rewrite (getitem_no_plugins _ _ _ _ _ Hdata Hmeta).
      unfold selected. by rewrite Hrank.
  - intros st1 Hshape. unfold Dataset.__len__, Dataset.__iter__. unfold_monad.
    by rewrite Hshape.
  - intros n rest st1 Hshape. pose proof (shape_again _ _ _ _ _ Hshape) as Hagain.
    unfold Dataset.__len__, Dataset.__iter__. unfold_monad.
    rewrite Hshape. rewrite !bool_decide_eq_false_2 by (cbn; lia).
    by rewrite Hagain.
  - intros a st1 Hdata Hmeta. unfold Dataset.shape. unfold_monad.
    rewrite (getitem_no_plugins _ _ _ _ _ Hdata Hmeta), selected_all. done.
Qed.

Lemma scalar_and_first_axis_witness :
  (Dataset.__getitem__ [] dataset_handle (SelTuple [3; 4]%Z)
     (created_with array_scalar) =
   Dataset.__getitem__ [] dataset_handle SelAll (created_with array_scalar)
   ∧ Dataset.__getitem__ [] dataset_handle SelAll (created_with array_scalar) =
     (Ok (PArr array_scalar),
      with_memmap (created_with array_scalar) array_scalar))
  ∧ (Dataset.__len__ [] dataset_handle (created_with array_scalar) =
       (Raise (TypeError "Attempt to take len() of scalar dataset"),
        with_memmap (created_with array_scalar) array_scalar)
     ∧ Dataset.__iter__ [] dataset_handle (created_with array_scalar) =
         (Raise (TypeError "Can't iterate over a scalar dataset"),
          with_memmap (created_with array_scalar) array_scalar))
  ∧ (Dataset.__len__ [] dataset_handle (created_with array_2_2) =
       (Ok 2, with_memmap (created_with array_2_2) array_2_2)
     ∧ Dataset.__iter__ [] dataset_handle (created_with array_2_2) =
         mapM (λ i, Dataset.__getitem__ [] dataset_handle (SelInt (Z.of_nat i)))
              (seq 0 2) (with_memmap (created_with array_2_2) array_2_2))
  ∧ Dataset.shape [] dataset_handle (created_with array_2_2) =
      (Ok [2; 2], with_memmap (created_with array_2_2) array_2_2).
Proof.
  split; [|split; [|split]].
  - destruct (proj1 (scalar_and_first_axis [] dataset_handle
                       (created_with array_scalar))
                array_scalar
                (with_memmap (created_with array_scalar) array_scalar))
      as [Hany Hnone]; [reflexivity..|].
    split; [apply Hany|by apply Hnone].
  - apply (proj1 (proj2 (scalar_and_first_axis [] dataset_handle
                           (created_with array_scalar)))).
    reflexivity.
  - apply (proj1 (proj2 (proj2 (scalar_and_first_axis [] dataset_handle
                                  (created_with array_2_2)))) 2 [2]).
    reflexivity.
  - apply (proj2 (proj2 (proj2 (scalar_and_first_axis [] dataset_handle
                                  (created_with array_2_2)))) array_2_2);
      reflexivity.
Defined.

(** ** Datasets: the two ways of writing *)

Lemma _reset_data_eq (plugins : list plugin) (self : Object.t)
    (value : pyvalue) (st : dataset_state) :
  Dataset._reset_data plugins self value st =
    match _prepare_write plugins value with
    | Raise e => (Raise e, st)
    | Ok (data, attrs, meta) =>
        match np_asarray data with
        | Raise e => (Raise e, st)
        | Ok arr =>
            (Ok tt, DatasetState (dict_update (attributes_yaml st) attrs)
                      (Some meta) (Some arr) (S (payload_writes st)) (Some arr))
        end
    end.
Proof.
  unfold Dataset._reset_data, np_save, attrs_update, meta_set_plugins,
    Dataset._reload_data.
  unfold_monad.
  destruct (_prepare_write plugins value) as [[[data attrs] meta]|e]; [|done].
  by destruct (np_asarray data).
Qed.

Lemma __setitem___eq (plugins : list plugin) (self : Object.t)
    (args : selector) (value : pyvalue) (st : dataset_state) :
  Object.io_mode self ≠ Some READ_ONLY →
  Dataset.__setitem__ plugins self args value st =
    match _prepare_write plugins value with
    | Raise e => (Raise e, st)
    | Ok (data, attrs, meta) =>
        match Dataset._data self (with_sidecars st attrs meta) with
        | (Raise e, st') => (Raise e, st')
        | (Ok a, st') =>
            match np_setitem a args data with
            | Raise e => (Raise e, st')
            | Ok a' =>
                (Ok tt, DatasetState (attributes_yaml st') (meta_plugins st')
                          (Some a') (payload_writes st') (Some a'))
            end
        end
    end.
Proof.
  intros Hmode.
  unfold Dataset.__setitem__, Dataset._mmap_mode, memmap_assign, attrs_update,
    meta_set_plugins, with_sidecars.
  destruct (decide (Object.io_mode self = Some READ_ONLY)); [done|].
  unfold_monad.
  destruct (_prepare_write plugins value) as [[[data attrs] meta]|e]; [|done].
  cbn.
  destruct (Dataset._data self _) as [[a|e] st']; [|done].
  by destruct (np_setitem a args data).
Qed.

(** An indexed write never writes the payload file whole. *)
Lemma __setitem___payload_writes (plugins : list plugin) (self : Object.t)
    (args : selector) (value : pyvalue) (st : dataset_state) :
  payload_writes (Dataset.__setitem__ plugins self args value st).2 =
  payload_writes st.
Proof.
  destruct (decide (Object.io_mode self = Some READ_ONLY)) as [Hro|Hrw].
  - by rewrite __setitem___read_only.
  - rewrite (__setitem___eq _ _ _ _ _ Hrw).
    destruct (_prepare_write plugins value) as [[[data attrs] meta]|e]; [|done].
    pose proof (_data_payload_writes self (with_sidecars st attrs meta)) as Hw.
    destruct (Dataset._data self _) as [[a|e] st']; [|done].
    by destruct (np_setitem a args data).
Qed.

Lemma set_value_eq (plugins : list plugin) (self : Object.t) (value : pyvalue)
    (st st1 : dataset_state) (a : ndarray) (value_shape : list nat) :
  Dataset._data self st = (Ok a, st1) →
  shape_of value = Ok value_shape →
  Dataset.set_value plugins self value st =
    if bool_decide (ndarray_shape a = value_shape)
    then Dataset.__setitem__ plugins self SelAll value st1
    else Dataset._reset_data plugins self value st1.
Proof.
  intros Hdata Hshape. unfold Dataset.set_value. unfold_monad.
  rewrite Hdata, Hshape. by destruct (bool_decide _).
Qed.

(** C5.  With the payload mapped (now or on this access) as [a] and a new
    value of shape [value_shape]:
    - when the shapes differ, the setter of [value] is [_reset_data]; when
      that returns, the payload file has been written whole, once, with what
      the write pipeline made of the value, and the handle maps that new
      payload; without plugins it always returns, and the payload and the
      shape of the dataset are those of the new value;
    - when the shapes are equal, the setter is the indexed write with the
      full slice, and the payload file is not written whole.
    In the scenario of a dataset created with [[1, 2], [3, 4]], assigning
    [[1, 2, 3]] writes the payload whole, after which the shape is [(1, 3)]
    and the item at [0, 1] is [2]. *)
Theorem set_value_rewrites_or_writes_in_place :
  (∀ plugins self value st st1 a value_shape,
     Dataset._data self st = (Ok a, st1) →
     shape_of value = Ok value_shape →
     (ndarray_shape a ≠ value_shape →
        Dataset.set_value plugins self value st =
          Dataset._reset_data plugins self value st1
        ∧ (∀ st2, Dataset._reset_data plugins self value st1 = (Ok tt, st2) →
             ∃ data attrs meta arr,
               _prepare_write plugins value = Ok (data, attrs, meta)
               ∧ np_asarray data = Ok arr
               ∧ data_npy st2 = Some arr
               ∧ _data_memmap st2 = Some arr
               ∧ payload_writes st2 = S (payload_writes st))
        ∧ (∀ new, value = PArr new →
             ∃ st2, Dataset.set_value [] self value st = (Ok tt, st2)
                    ∧ data_npy st2 = Some new
                    ∧ _data_memmap st2 = Some new
                    ∧ payload_writes st2 = S (payload_writes st)
                    ∧ Dataset.shape [] self st2 = (Ok value_shape, st2)))
     ∧ (ndarray_shape a = value_shape →
          Dataset.set_value plugins self value st =
            Dataset.__setitem__ plugins self SelAll value st1
          ∧ payload_writes (Dataset.set_value plugins self value st).2 =
            payload_writes st))
  ∧ (let written :=
       Dataset.set_value [] dataset_handle (PArr array_1_3)
         (created_with array_2_2) in
     written.1 = Ok tt
     ∧ data_npy written.2 = Some array_1_3
     ∧ payload_writes written.2 = S (payload_writes (created_with array_2_2))
     ∧ (Dataset.shape [] dataset_handle written.2).1 = Ok [1; 3]
     ∧ (Dataset.__getitem__ [] dataset_handle (SelTuple [0; 1]%Z) written.2).1 =
       Ok (PNum 2)).
Proof.
  split; [|by vm_compute].
  intros plugins self value st st1 a value_shape Hdata Hshape.
  pose proof (_data_inv _ _ _ _ Hdata) as (_ & _ & _ & _ & Hwrites).
  split.
  - intros Hdiff. split; [|split].
    + rewrite (set_value_eq _ _ _ _ _ _ _ Hdata Hshape).
      by rewrite bool_decide_eq_false_2.
    + intros st2. rewrite _reset_data_eq.
      destruct (_prepare_write plugins value) as [[[data attrs] meta]|e];
        [|done].
      destruct (np_asarray data) as [arr|e] eqn:Harr; [|done].
      intros [= <-]. exists data, attrs, meta, arr. cbn.
      by rewrite Hwrites.
    + intros new ->. cbn in Hshape. injection Hshape as <-.
      rewrite (set_value_eq [] _ (PArr new) _ _ _ (ndarray_shape new) Hdata eq_refl).
      rewrite bool_decide_eq_false_2 by done.
      rewrite _reset_data_eq. cbn. eexists. split; [done|]. cbn.
      rewrite Hwrites. repeat split; try done.
      unfold Dataset.shape. unfold_monad.
      erewrite getitem_no_plugins; [|by apply _data_mapped|done].
      by rewrite selected_all.
  - intros Hsame.
    rewrite (set_value_eq _ _ _ _ _ _ _ Hdata Hshape).
    rewrite bool_decide_eq_true_2 by done. split; [done|].
    by rewrite __setitem___payload_writes.
Qed.

Lemma set_value_rewrites_or_writes_in_place_witness :
  Dataset.set_value [] dataset_handle (PArr array_1_3) (created_with array_2_2) =
    Dataset._reset_data [] dataset_handle (PArr array_1_3)
      (with_memmap (created_with array_2_2) array_2_2)
  ∧ Dataset.set_value [] dataset_handle (PArr array_2_2) (created_with array_2_2) =
      Dataset.__setitem__ [] dataset_handle SelAll (PArr array_2_2)
        (with_memmap (created_with array_2_2) array_2_2)
  ∧ payload_writes
      (Dataset.set_value [] dataset_handle (PArr array_2_2)
         (created_with array_2_2)).2 = 1.
Proof.
  split.
  - refine (proj1 (proj1 (proj1 set_value_rewrites_or_writes_in_place []
             dataset_handle (PArr array_1_3) (created_with array_2_2)
             (with_memmap (created_with array_2_2) array_2_2) array_2_2 [1; 3]
             _ _) _)).
    + reflexivity.
    + reflexivity.
    + discriminate.
  - refine (proj2 (proj1 set_value_rewrites_or_writes_in_place []
             dataset_handle (PArr array_2_2) (created_with array_2_2)
             (with_memmap (created_with array_2_2) array_2_2) array_2_2 [2; 2]
             _ _) _).
    + reflexivity.
    + reflexivity.
    + reflexivity.
Defined.

(** ** Datasets: the write pipeline *)

Lemma prepare_write_loop_trace (plugins : list plugin) (data : pyvalue)
    (attrs : dict pyvalue) (meta : dict plugin_meta)
    (data' : pyvalue) (attrs' : dict pyvalue) (meta' : dict plugin_meta) :
  prepare_write_loop plugins data attrs meta = Ok (data', attrs', meta') →
  meta' = dict_update meta (required_contributions plugins data)
  ∧ length (write_trace plugins data) = length plugins.
Proof.
  revert data attrs meta.
  induction plugins as [|p plugins IH]; intros data attrs meta.
  - cbn. by intros [= <- <- <-].
  - unfold required_contributions in *.
    cbn [prepare_write_loop write_trace]. unfold_monad.
    destruct (prepare_write p data) as [[[d1 pa] pm]|e]; [|done].
    intros Hloop. apply IH in Hloop as [-> Hlen].
    split; [|by cbn; rewrite Hlen].
    rewrite filter_cons. cbn [fst snd].
    destruct (required pm); by case_decide.
Qed.

Lemma _prepare_write_inv (plugins : list plugin) (value data : pyvalue)
    (attrs : dict pyvalue) (meta : dict plugin_meta) :
  _prepare_write plugins value = Ok (data, attrs, meta) →
  meta = dict_update [] (required_contributions plugins value)
  ∧ isinstance_number_tuple_str data = false.
Proof.
  unfold _prepare_write. unfold_monad.
  destruct (prepare_write_loop plugins value [] []) as [[[d0 a0] m0]|e] eqn:Hloop;
    [|done].
  apply prepare_write_loop_trace in Hloop as [-> _].
  destruct (isinstance_number_tuple_str d0) eqn:Hscalar.
  - destruct (np_asarray d0); [|done]. by intros [= <- <- <-].
  - by intros [= <- <- <-].
Qed.

(** The identifiers recorded by a write are those of the plugins that
    declared themselves required. *)
Lemma required_contributions_keys (plugins : list plugin) (data : pyvalue)
    (id : string) :
  id ∈ dict_keys (dict_update [] (required_contributions plugins data)) ↔
  ∃ c, c ∈ write_trace plugins data ∧ c.1.1 = id ∧ required c.2 = true.
Proof.
  rewrite elem_of_dict_keys, dict_get_update. cbn [dict_get].
  transitivity (is_Some (dict_get id (reverse (required_contributions plugins data)))).
  { by destruct (dict_get id (reverse _)). }
  rewrite dict_get_reverse_is_Some, <-elem_of_dict_keys.
  unfold dict_keys, required_contributions.
  rewrite <-list_fmap_compose, list_elem_of_fmap. split.
  - intros (c & -> & [Hreq Hc]%list_elem_of_filter). by exists c.
  - intros (c & Hc & <- & Hreq). exists c. split; [done|].
    by apply list_elem_of_filter.
Qed.

(** C8, as the code has it.  The first plugin is handed the incoming value
    as it is; the value is made an array after the last plugin has run, when
    what the plugins leave is a number, a tuple or a text; so what
    [_prepare_write] returns is never one of those. *)
Theorem prepare_write_normalizes_after_plugins (plugins : list plugin)
    (data : pyvalue) :
  (∀ plugin rest, plugins = plugin :: rest →
     head (prepare_write_args plugins data) = Some data)
  ∧ (∀ left attrs meta,
       prepare_write_loop plugins data [] [] = Ok (left, attrs, meta) →
       _prepare_write plugins data =
         if isinstance_number_tuple_str left
         then match np_asarray left with
              | Ok a => Ok (PArr a, attrs, meta)
              | Raise e => Raise e
              end
         else Ok (left, attrs, meta))
  ∧ (∀ data' attrs meta,
       _prepare_write plugins data = Ok (data', attrs, meta) →
       isinstance_number_tuple_str data' = false).
Proof.
  split; [|split].
  - by intros plugin rest ->.
  - intros left attrs meta Hloop. unfold _prepare_write. unfold_monad.
    rewrite Hloop. destruct (isinstance_number_tuple_str left); [|done].
    by destruct (np_asarray left).
  - intros data' attrs meta Hwrite.
    by apply _prepare_write_inv in Hwrite as [_ ?].
Qed.

Lemma prepare_write_normalizes_after_plugins_witness :
  head (prepare_write_args [probe] (PNum 5)) = Some (PNum 5)
  ∧ _prepare_write [probe] (PNum 5) =
      Ok (PArr (Ndarray [] [SInt 5]), [("saw_array", PNum 0)], [])
  ∧ isinstance_number_tuple_str (PArr (Ndarray [] [SInt 5])) = false.
Proof.
  split; [|split].
  - by apply (proj1 (prepare_write_normalizes_after_plugins [probe] (PNum 5))
                probe []).
  - by apply (proj1 (proj2 (prepare_write_normalizes_after_plugins [probe]
                              (PNum 5)))
                (PNum 5) [("saw_array", PNum 0)] []).
  - by apply (proj2 (proj2 (prepare_write_normalizes_after_plugins [probe]
                              (PNum 5)))
                (PArr (Ndarray [] [SInt 5])) [("saw_array", PNum 0)] []).
Defined.

(** C8 as stated fails: a plugin handed the number [5] sees the number, not
    an array, and running the plugins on the array first gives another
    result. *)
Lemma prepare_write_plugin_sees_raw_value :
  prepare_write_args [probe] (PNum 5) = [PNum 5]
  ∧ _prepare_write [probe] (PNum 5) =
      Ok (PArr (Ndarray [] [SInt 5]), [("saw_array", PNum 0)], [])
  ∧ _prepare_write_normalizing_first [probe] (PNum 5) =
      Ok (PArr (Ndarray [] [SInt 5]), [("saw_array", PNum 1)], [])
  ∧ _prepare_write [probe] (PNum 5) ≠
    _prepare_write_normalizing_first [probe] (PNum 5).
Proof. by vm_compute. Qed.

(** ** Datasets: recorded plugins *)

Lemma check_enabled_all (enabled : list string) (name : string)
    (recorded : list string) :
  (∀ id, id ∈ recorded → id ∈ enabled) →
  check_enabled enabled name recorded = Ok tt.
Proof.
  induction recorded as [|id recorded IH]; intros Hall; [done|].
  cbn [check_enabled]. rewrite bool_decide_eq_true_2 by (apply Hall; left).
  cbn [negb]. apply IH. intros id' Hid'. apply Hall. by right.
Qed.

Lemma check_enabled_missing (enabled : list string) (name : string)
    (recorded : list string) :
  (∃ id, id ∈ recorded ∧ id ∉ enabled) →
  ∃ id, id ∈ recorded ∧ (id ∉ enabled)
        ∧ check_enabled enabled name recorded =
          Raise (Exception (not_enabled_message id name)).
Proof.
  induction recorded as [|id recorded IH]; intros (id' & Hin & Hnot).
  - by apply elem_of_nil in Hin.
  - cbn [check_enabled]. destruct (decide (id ∈ enabled)) as [Hen|Hen].
    + rewrite bool_decide_eq_true_2 by done. cbn [negb].
      apply elem_of_cons in Hin as [->|Hin]; [done|].
      destruct IH as (id'' & ? & ? & ?); [by exists id'|].
      exists id''. split; [by right|done].
    + rewrite bool_decide_eq_false_2 by done. cbn [negb].
      exists id. split; [by left|done].
Qed.

Lemma __setitem___ok_inv (plugins : list plugin) (self : Object.t)
    (args : selector) (value : pyvalue) (st st' : dataset_state) :
  Dataset.__setitem__ plugins self args value st = (Ok tt, st') →
  ∃ data attrs meta,
    _prepare_write plugins value = Ok (data, attrs, meta)
    ∧ meta_plugins st' = Some meta
    ∧ attributes_yaml st' = dict_update (attributes_yaml st) attrs.
Proof.
  destruct (decide (Object.io_mode self = Some READ_ONLY)) as [Hro|Hrw].
  - by rewrite __setitem___read_only.
  - rewrite (__setitem___eq _ _ _ _ _ Hrw).
    destruct (_prepare_write plugins value) as [[[data attrs] meta]|e]; [|done].
    destruct (Dataset._data self _) as [[a|e] st1] eqn:Hdata; [|done].
    apply _data_inv in Hdata as (_ & Hattrs & Hmeta & _).
    destruct (np_setitem a args data); [|done].
    intros [= <-]. exists data, attrs, meta. cbn. by rewrite Hattrs, Hmeta.
Qed.

Lemma _reset_data_ok_inv (plugins : list plugin) (self : Object.t)
    (value : pyvalue) (st st' : dataset_state) :
  Dataset._reset_data plugins self value st = (Ok tt, st') →
  ∃ data attrs meta,
    _prepare_write plugins value = Ok (data, attrs, meta)
    ∧ meta_plugins st' = Some meta
    ∧ attributes_yaml st' = dict_update (attributes_yaml st) attrs.
Proof.
  rewrite _reset_data_eq.
  destruct (_prepare_write plugins value) as [[[data attrs] meta]|e]; [|done].
  destruct (np_asarray data); [|done].
  intros [= <-]. by exists data, attrs, meta.
Qed.

(** Both ways of writing, when they return. *)
Lemma write_ok_inv (plugins : list plugin) (self : Object.t)
    (value : pyvalue) (st st' : dataset_state) :
  (∃ args, Dataset.__setitem__ plugins self args value st = (Ok tt, st'))
  ∨ Dataset._reset_data plugins self value st = (Ok tt, st') →
  ∃ data attrs meta,
    _prepare_write plugins value = Ok (data, attrs, meta)
    ∧ meta_plugins st' = Some meta
    ∧ attributes_yaml st' = dict_update (attributes_yaml st) attrs.
Proof.
  intros [[args Hset]|Hreset].
  - by apply __setitem___ok_inv in Hset.
  - by apply _reset_data_ok_inv in Hreset.
Qed.

(** C9.  For a read whose selection of the payload has succeeded and whose
    dataset has recorded plugins: when some recorded identifier is not
    registered, the read raises the exception that names such an identifier
    and the dataset; when all are registered, the read is the run of the
    read hooks, so nothing is raised on account of the registry.  After an
    write that returned, indexed or whole, the recorded identifiers are those
    of the plugins that declared themselves required in that write; a later read under another
    registry that has those is the run of its read hooks, whichever plugin
    that was not required is missing. *)
Theorem getitem_checks_recorded_plugins (registered : list plugin)
    (self : Object.t) (args : selector) (st st1 : dataset_state)
    (a : ndarray) (values : pyvalue) :
  Dataset._data self st = (Ok a, st1) →
  selected a args = Ok values →
  (∀ recorded, meta_plugins st = Some recorded →
     ((∃ id, id ∈ dict_keys recorded ∧ id ∉ IDENTIFIER <$> registered) →
      ∃ id, id ∈ dict_keys recorded ∧ (id ∉ IDENTIFIER <$> registered)
            ∧ Dataset.__getitem__ registered self args st =
              (Raise (Exception (not_enabled_message id (Object.name self))),
               st1))
     ∧ ((∀ id, id ∈ dict_keys recorded → id ∈ IDENTIFIER <$> registered) →
        Dataset.__getitem__ registered self args st =
          prepare_read_loop registered values st1))
  ∧ (∀ writers value st0,
       (∃ wargs, Dataset.__setitem__ writers self wargs value st0 = (Ok tt, st))
       ∨ Dataset._reset_data writers self value st0 = (Ok tt, st) →
       (∃ recorded, meta_plugins st = Some recorded
          ∧ ∀ id, id ∈ dict_keys recorded ↔
                  ∃ c, c ∈ write_trace writers value ∧ c.1.1 = id
                       ∧ required c.2 = true)
       ∧ ((∀ c, c ∈ write_trace writers value → required c.2 = true →
                c.1.1 ∈ IDENTIFIER <$> registered) →
          Dataset.__getitem__ registered self args st =
            prepare_read_loop registered values st1)).
Proof.
  intros Hdata Hsel.
  pose proof (_data_inv _ _ _ _ Hdata) as (_ & _ & Hmeta & _).
  assert (∀ recorded, meta_plugins st = Some recorded →
            (∀ id, id ∈ dict_keys recorded → id ∈ IDENTIFIER <$> registered) →
            Dataset.__getitem__ registered self args st =
              prepare_read_loop registered values st1) as Hall.
  { intros recorded Hrec Hreg.
    rewrite (__getitem___eq _ _ _ _ _ _ Hdata), Hsel, Hmeta, Hrec.
    by rewrite check_enabled_all. }
  split.
  - intros recorded Hrec. split; [|by apply Hall].
    intros Hmissing.
    destruct (check_enabled_missing (IDENTIFIER <$> registered)
                (Object.name self) _ Hmissing) as (id & Hin & Hnot & Hcheck).
    exists id. split; [done|]. split; [done|].
    rewrite (__getitem___eq _ _ _ _ _ _ Hdata), Hsel, Hmeta, Hrec.
    by rewrite Hcheck.
  - intros writers value st0 Hwrite.
    apply write_ok_inv in Hwrite as (data & attrs & meta & Hprep & Hrec & _).
    apply _prepare_write_inv in Hprep as [-> _].
    split.
    + exists (dict_update [] (required_contributions writers value)).
      split; [done|]. intros id. apply required_contributions_keys.
    + intros Hreg. apply (Hall _ Hrec). intros id Hid.
      apply required_contributions_keys in Hid as (c & Hc & <- & Hreq).
      by apply Hreg.
Qed.

(** C10.  A write that returns, indexed or whole, leaves as the recorded
    plugins exactly the meta of the plugins that declared themselves required
    in this write: an identifier is recorded afterwards if and only if such a
    plugin has it, whatever was recorded before.  The attributes that the
    plugins contributed are merged into the attribute sidecar: the keys that
    were there stay, and a key has the last contributed value, or the value
    it had when none was contributed. *)
Theorem write_replaces_recorded_plugins (plugins : list plugin)
    (self : Object.t) (value : pyvalue) (st st' : dataset_state) :
  (∃ args, Dataset.__setitem__ plugins self args value st = (Ok tt, st'))
  ∨ Dataset._reset_data plugins self value st = (Ok tt, st') →
  ∃ data attrs meta,
    _prepare_write plugins value = Ok (data, attrs, meta)
    ∧ meta_plugins st' = Some meta
    ∧ meta = dict_update [] (required_contributions plugins value)
    ∧ (∀ id, id ∈ dict_keys meta ↔
             ∃ c, c ∈ write_trace plugins value ∧ c.1.1 = id
                  ∧ required c.2 = true)
    ∧ (∀ id, (¬ ∃ c, c ∈ write_trace plugins value ∧ c.1.1 = id
                     ∧ required c.2 = true) →
             dict_get id meta = None)
    ∧ attributes_yaml st' = dict_update (attributes_yaml st) attrs
    ∧ (∀ k, is_Some (dict_get k (attributes_yaml st)) →
            is_Some (dict_get k (attributes_yaml st')))
    ∧ (∀ k, dict_get k (attributes_yaml st') =
            match dict_get k (reverse attrs) with
            | Some v => Some v
            | None => dict_get k (attributes_yaml st)
            end).
Proof.
  intros Hwrite.
  assert (∃ data attrs meta,
            _prepare_write plugins value = Ok (data, attrs, meta)
            ∧ meta_plugins st' = Some meta
            ∧ attributes_yaml st' = dict_update (attributes_yaml st) attrs)
    as (data & attrs & meta & Hprep & Hrec & Hattrs).
  { by apply (write_ok_inv plugins self). }
  exists data, attrs, meta.
  pose proof (_prepare_write_inv _ _ _ _ _ Hprep) as [-> _].
  repeat split; try done.
  - by intros ?%required_contributions_keys.
  - by intros ?%required_contributions_keys.
  - intros id Hnone.
    destruct (dict_get id _) as [pm|] eqn:Hget; [|done].
    destruct Hnone. apply required_contributions_keys, elem_of_dict_keys.
    by rewrite Hget.
  - intros k Hk. rewrite Hattrs, dict_get_update.
    by destruct (dict_get k (reverse attrs)).
  - intros k. by rewrite Hattrs, dict_get_update.
Qed.

Lemma getitem_checks_recorded_plugins_witness :
  (∃ id, id ∈ dict_keys [("old", PluginMeta true [])]
         ∧ (id ∉ IDENTIFIER <$> [probe])
         ∧ Dataset.__getitem__ [probe] dataset_handle SelAll
             written_with_old_plugin =
           (Raise (Exception (not_enabled_message id
                                (Object.name dataset_handle))),
            with_memmap written_with_old_plugin array_2_2))
  ∧ Dataset.__getitem__ [scaling] dataset_handle (SelInt 0)
      (Dataset.__setitem__ [scaling; probe] dataset_handle SelAll
         (PArr array_2_2) written_with_old_plugin).2 =
    prepare_read_loop [scaling] (PArr (Ndarray [2] [SInt 1; SInt 2]))
      (Dataset.__setitem__ [scaling; probe] dataset_handle SelAll
         (PArr array_2_2) written_with_old_plugin).2
  ∧ Dataset.__getitem__ [scaling] dataset_handle SelAll
      (Dataset.__setitem__ [scaling; probe] dataset_handle SelAll
         (PArr array_2_2) written_with_old_plugin).2 =
    prepare_read_loop [scaling] (PArr array_2_2)
      (Dataset.__setitem__ [scaling; probe] dataset_handle SelAll
         (PArr array_2_2) written_with_old_plugin).2.
Proof.
  split; [|split].
  - refine (proj1 (proj1 (getitem_checks_recorded_plugins [probe] dataset_handle
              SelAll written_with_old_plugin
              (with_memmap written_with_old_plugin array_2_2) array_2_2
              (PArr array_2_2) _ _) [("old", PluginMeta true [])] _) _).
    + reflexivity.
    + reflexivity.
    + reflexivity.
    + exists "old". split; [by left|]. cbn.
      intros [Heq|Hin]%elem_of_cons; [discriminate Heq|].
      by apply elem_of_nil in Hin.
  - refine (proj2 (proj1 (getitem_checks_recorded_plugins [scaling]
              dataset_handle (SelInt 0) _ _ array_2_2
              (PArr (Ndarray [2] [SInt 1; SInt 2])) _ _)
              [("scaling", PluginMeta true [])] _) _).
    + reflexivity.
    + reflexivity.
    + reflexivity.
    + cbn. intros id [->|Hin]%elem_of_cons; [by left|].
      by apply elem_of_nil in Hin.
  - refine (proj2 (proj2 (getitem_checks_recorded_plugins [scaling]
              dataset_handle SelAll _ _ array_2_2 (PArr array_2_2) _ _)
              [scaling; probe] (PArr array_2_2)
              written_with_old_plugin _) _).
    + reflexivity.
    + reflexivity.
    + left. exists SelAll. reflexivity.
    + cbn. intros c [->|Hc]%elem_of_cons Hreq; [by left|].
      apply elem_of_cons in Hc as [->|Hc]; [discriminate Hreq|].
      by apply elem_of_nil in Hc.
Defined.

Lemma write_replaces_recorded_plugins_witness :
  let st := written_with_old_plugin in
  let st' := (Dataset.__setitem__ [scaling; probe] dataset_handle SelAll
                (PArr array_2_2) st).2 in
  ∃ data attrs meta,
    _prepare_write [scaling; probe] (PArr array_2_2) = Ok (data, attrs, meta)
    ∧ meta_plugins st' = Some meta
    ∧ meta = dict_update []
               (required_contributions [scaling; probe] (PArr array_2_2))
    ∧ (∀ id, id ∈ dict_keys meta ↔
             ∃ c, c ∈ write_trace [scaling; probe] (PArr array_2_2)
                  ∧ c.1.1 = id ∧ required c.2 = true)
    ∧ (∀ id, (¬ ∃ c, c ∈ write_trace [scaling; probe] (PArr array_2_2)
                     ∧ c.1.1 = id ∧ required c.2 = true) →
             dict_get id meta = None)
    ∧ attributes_yaml st' = dict_update (attributes_yaml st) attrs
    ∧ (∀ k, is_Some (dict_get k (attributes_yaml st)) →
            is_Some (dict_get k (attributes_yaml st')))
    ∧ (∀ k, dict_get k (attributes_yaml st') =
            match dict_get k (reverse attrs) with
            | Some v => Some v
            | None => dict_get k (attributes_yaml st)
            end).
Proof.
  intros st st'.
  apply (write_replaces_recorded_plugins [scaling; probe] dataset_handle
           (PArr array_2_2) st st').
  left. exists SelAll. reflexivity.
Defined.

(** What that write leaves: the record of ["old"] is gone, the attribute
    [keep] is still there. *)
Example write_with_scaling_and_probe :
  let st' := (Dataset.__setitem__ [scaling; probe] dataset_handle SelAll
                (PArr array_2_2) written_with_old_plugin).2 in
  meta_plugins st' = Some [("scaling", PluginMeta true [])]
  ∧ attributes_yaml st' =
      [("keep", PNum 1); ("unit", PStr "mV"); ("saw_array", PNum 1)].
Proof. by vm_compute. Qed.

(** * Further properties *)

(** ** Root discovery: what is returned, and what it depends on *)

Lemma root_directory_step_frame (fs1 fs2 : FS) (path : pathname) :
  fs1 !! (META_FILENAME :: path) = fs2 !! (META_FILENAME :: path) →
  root_directory_step fs1 path = root_directory_step fs2 path.
Proof.
  intros Hsame. rewrite !root_directory_step_eq, !is_nonraw_object_directory_eq.
  unfold file_typed. by rewrite Hsame.
Qed.

Lemma root_directory_skip (fs : FS) (below path : pathname) :
  (∀ s, s `suffix_of` below → s ≠ [] →
        root_directory_step fs (s ++ path) = Ok false) →
  root_directory fs (below ++ path) = root_directory fs path.
Proof.
  induction below as [|x below IH]; intros Hskip; [done|].
  cbn [app root_directory].
  assert (root_directory_step fs ((x :: below) ++ path) = Ok false) as Hstep
    by (by apply Hskip).
  cbn [app] in Hstep. rewrite Hstep. cbn.
  apply IH. intros s Hs Hne. apply Hskip; [|done]. by apply suffix_cons_r.
Qed.

Lemma root_directory_some_inv (fs : FS) (path root : pathname) :
  root_directory fs path = Ok (Some root) →
  ∃ below,
    path = below ++ root
    ∧ root ≠ []
    ∧ file_typed fs root = true
    ∧ is_nonraw_object_directory fs root = Ok true
    ∧ (∀ s, s `suffix_of` below → s ≠ [] →
            (∃ b, is_nonraw_object_directory fs (s ++ root) = Ok b)
            ∧ file_typed fs (s ++ root) = false)
    ∧ root_directory fs root = Ok (Some root).
Proof.
  induction path as [|x path IH]; [done|].
  cbn [root_directory]. rewrite root_directory_step_eq.
  destruct (is_nonraw_object_directory fs (x :: path)) as [b|e] eqn:Hb; [|done].
  destruct (file_typed fs (x :: path)) eqn:Hft; cbn.
  - intros [= <-]. exists []. repeat apply conj; try done.
    + by apply file_typed_nonraw.
    + intros s Hs Hne. by apply suffix_nil_inv in Hs.
    + cbn [root_directory]. rewrite root_directory_step_eq, Hb, Hft. done.
  - intros Hrec. destruct (IH Hrec) as (below & -> & Hne & Hroot & Hman & Hbetween & Hagain).
    exists (x :: below). repeat apply conj; try done.
    intros s Hs Hs_ne. destruct s as [|y s]; [done|].
    apply suffix_cons_inv in Hs as [[= -> ->]|Hs].
    + split; [by exists b|done].
    + by apply Hbetween.
Qed.


(** X1.  What [root_directory] returns is an ancestor of the path, or the
    path itself, other than the filesystem root; it is a store root and a
    managed object; every directory passed on the way was answered and is no
    store root; and discovery started from the result returns the result. *)
Theorem root_directory_sound (fs : FS) (path root : pathname) :
  root_directory fs path = Ok (Some root) →
  ∃ below,
    path = below ++ root
    ∧ root ≠ []
    ∧ file_typed fs root = true
    ∧ is_nonraw_object_directory fs root = Ok true
    ∧ (∀ s, s `suffix_of` below → s ≠ [] →
            (∃ b, is_nonraw_object_directory fs (s ++ root) = Ok b)
            ∧ file_typed fs (s ++ root) = false)
    ∧ root_directory fs root = Ok (Some root).
Proof. apply root_directory_some_inv. Qed.

Lemma root_directory_sound_witness :
  ∃ below,
    ["y"; "x"; "g"; "r"] = below ++ ["r"]
    ∧ ["r"] ≠ []
    ∧ file_typed fs_nested_store ["r"] = true
    ∧ is_nonraw_object_directory fs_nested_store ["r"] = Ok true
    ∧ (∀ s, s `suffix_of` below → s ≠ [] →
            (∃ b, is_nonraw_object_directory fs_nested_store (s ++ ["r"]) = Ok b)
            ∧ file_typed fs_nested_store (s ++ ["r"]) = false)
    ∧ root_directory fs_nested_store ["r"] = Ok (Some ["r"]).
Proof.
  apply (root_directory_sound fs_nested_store ["y"; "x"; "g"; "r"] ["r"]).
  reflexivity.
Defined.

Lemma root_directory_agree (fs1 fs2 : FS) (path : pathname) :
  (∀ s, s `suffix_of` path → s ≠ [] →
        fs1 !! (META_FILENAME :: s) = fs2 !! (META_FILENAME :: s)) →
  root_directory fs1 path = root_directory fs2 path.
Proof.
  induction path as [|x path IH]; intros Hsame; [done|].
  cbn [root_directory].
  rewrite (root_directory_step_frame fs1 fs2 (x :: path)) by by apply Hsame.
  destruct (root_directory_step fs2 (x :: path)) as [[|]|e]; cbn; try done.
  apply IH. intros s Hs Hne. apply Hsame; [|done]. by apply suffix_cons_r.
Qed.


(** X2.  [root_directory] reads nothing but the metadata files of the
    directories on the upward chain: two filesystems that agree on those
    give the same answer. *)
Theorem root_directory_frame (fs1 fs2 : FS) (path : pathname) :
  (∀ s, s `suffix_of` path → s ≠ [] →
        fs1 !! (META_FILENAME :: s) = fs2 !! (META_FILENAME :: s)) →
  root_directory fs1 path = root_directory fs2 path.
Proof. apply root_directory_agree. Qed.

Lemma root_directory_frame_witness :
  root_directory (<[["z"; "r"] := Dir]> fs_one_dir) ["x"; "r"] =
  root_directory fs_one_dir ["x"; "r"].
Proof.
  apply root_directory_frame. intros s Hs Hne.
  apply lookup_insert_ne. destruct s as [|a s]; [done|].
  apply suffix_cons_inv in Hs as [[= -> ->]|Hs]; [done|].
  apply suffix_cons_inv in Hs as [[= -> ->]|Hs]; [done|].
  by apply suffix_nil_inv in Hs.
Defined.

(** ** Creating object directories: effects and composition with discovery *)

Lemma _create_object_directory_inv (fs fs' : FS) (directory : pathname)
    (typename : string) :
  _create_object_directory directory typename fs = (Ok tt, fs') →
  os_path_exists fs directory = false
  ∧ typename ∈ valid_types
  ∧ os_path_isdir fs (os_path_dirname directory) = true
  ∧ fs' = <[META_FILENAME :: directory :=
              File (Document (object_metadata typename))]>
          (<[directory := Dir]> fs).
Proof.
  unfold _create_object_directory, os_mkdir, open_write,
    _metafile_from_directory, os_path_join, yaml_safe_dump, os_path_isdir.
  unfold_monad.
  destruct (os_path_exists fs directory) eqn:Hexists; [done|].
  destruct (existsb (String.eqb typename) valid_types) eqn:Htype; [|done].
  apply existsb_eqb_valid_types in Htype. cbn [negb app]. rewrite Hexists.
  destruct (node_at fs (os_path_dirname directory)) as [[|]|]; try done.
  destruct (node_at (<[directory:=Dir]> fs) (META_FILENAME :: directory))
    as [[|]|]; try done.
  - destruct (node_at (<[directory:=Dir]> fs)
                (os_path_dirname (META_FILENAME :: directory)))
      as [[|]|]; try done.
    intros H. by simplify_eq.
  - destruct (node_at (<[directory:=Dir]> fs)
                (os_path_dirname (META_FILENAME :: directory)))
      as [[|]|]; try done.
    intros H. by simplify_eq.
Qed.

Lemma _create_object_directory_ok (fs : FS) (directory : pathname)
    (typename : string) :
  fs_wf fs → os_path_exists fs directory = false →
  os_path_isdir fs (os_path_dirname directory) = true →
  typename ∈ valid_types →
  _create_object_directory directory typename fs =
    (Ok tt, <[META_FILENAME :: directory :=
                File (Document (object_metadata typename))]>
            (<[directory := Dir]> fs)).
Proof.
  intros Hwf Habsent Hparent Htype.
  assert (directory ≠ []) as Hne by (by intros ->).
  assert (fs !! (META_FILENAME :: directory) = None) as Hmeta
    by (by apply fs_wf_absent_below).
  apply existsb_eqb_valid_types in Htype.
  unfold _create_object_directory, os_mkdir, open_write,
    _metafile_from_directory, os_path_join, yaml_safe_dump.
  run. rewrite Habsent, Htype. cbn [negb]. rewrite Habsent.
  unfold os_path_isdir in Hparent.
  destruct (node_at fs (os_path_dirname directory)) as [[|]|]; try done.
  cbn [app os_path_dirname tail node_at].
  rewrite lookup_insert_ne by apply not_eq_sym, cons_neq_self.
  rewrite Hmeta.
  destruct directory as [|c parent]; [done|]. cbn [node_at].
  by rewrite lookup_insert_eq.
Qed.

(** Two paths of different lengths are different. *)
Ltac by_length :=
  let H := fresh in
  intros H; apply (f_equal length) in H; cbn in H;
  rewrite ?length_app in H; cbn in H; lia.

Lemma fs_wf_absent_descendants (fs : FS) (directory s : pathname) :
  fs_wf fs → os_path_exists fs directory = false → s ≠ [] →
  fs !! (s ++ directory) = None.
Proof.
  intros Hwf Habsent. induction s as [|c s IH]; [done|]. intros _.
  destruct s as [|c' s].
  - by apply fs_wf_absent_below.
  - destruct (fs !! ((c :: c' :: s) ++ directory)) as [n|] eqn:Hn; [|done].
    destruct (Hwf _ _ Hn) as [_ Hdir]. cbn in Hdir.
    unfold os_path_isdir in Hdir. cbn in Hdir, IH. by rewrite IH in Hdir.
Qed.

(** The metadata files at and below a directory that has just been made. *)
Lemma created_lookup_meta (fs : FS) (directory : pathname) (typename : string)
    (s : pathname) :
  fs_wf fs → os_path_exists fs directory = false →
  (<[META_FILENAME :: directory := File (Document (object_metadata typename))]>
     (<[directory := Dir]> fs)) !! (META_FILENAME :: s ++ directory) =
  match s with
  | [] => Some (File (Document (object_metadata typename)))
  | _ => None
  end.
Proof.
  intros Hwf Habsent. destruct s as [|c s].
  - cbn. by rewrite lookup_insert_eq.
  - rewrite lookup_insert_ne by by_length.
    rewrite lookup_insert_ne by by_length.
    by apply (fs_wf_absent_descendants fs directory (META_FILENAME :: c :: s)).
Qed.

Lemma created_step (fs : FS) (directory : pathname) (typename : string)
    (s : pathname) :
  fs_wf fs → os_path_exists fs directory = false →
  root_directory_step
    (<[META_FILENAME :: directory := File (Document (object_metadata typename))]>
       (<[directory := Dir]> fs)) (s ++ directory) =
  Ok (match s with
      | [] => String.eqb typename FILE_TYPENAME
      | _ => false
      end).
Proof.
  intros Hwf Habsent.
  rewrite root_directory_step_eq, is_nonraw_object_directory_eq.
  unfold file_typed. rewrite (created_lookup_meta _ _ _ s Hwf Habsent).
  by destruct s.
Qed.

(** X3.  After a store root has been made at a directory that was not
    there, discovery started at it or anywhere below it returns it, and the
    path counts as inside a repository. *)
Theorem created_store_root_is_found (fs fs' : FS) (directory below : pathname) :
  fs_wf fs →
  _create_object_directory directory FILE_TYPENAME fs = (Ok tt, fs') →
  root_directory fs' (below ++ directory) = Ok (Some directory)
  ∧ is_inside_exdir fs' (below ++ directory) = Ok true
  ∧ assert_inside_exdir fs' (below ++ directory) = Ok tt.
Proof.
  intros Hwf Hmade.
  apply _create_object_directory_inv in Hmade as (Habsent & Htype & _ & ->).
  assert (root_directory
            (<[META_FILENAME :: directory :=
                 File (Document (object_metadata FILE_TYPENAME))]>
               (<[directory := Dir]> fs)) (below ++ directory) =
          Ok (Some directory)) as Hroot.
  { rewrite root_directory_skip.
    - destruct directory as [|c parent]; [done|]. cbn [root_directory].
      by rewrite (created_step fs (c :: parent) FILE_TYPENAME [] Hwf Habsent
                  : root_directory_step _ (c :: parent) = _).
    - intros s _ Hne.
      rewrite (created_step fs directory FILE_TYPENAME s) by done.
      by destruct s. }
  unfold assert_inside_exdir, is_inside_exdir. unfold_monad.
  by rewrite Hroot.
Qed.

Lemma created_store_root_is_found_witness :
  let fs' := (_create_object_directory ["d"; "r"] FILE_TYPENAME fs_one_dir).2 in
  root_directory fs' ["y"; "x"; "d"; "r"] = Ok (Some ["d"; "r"])
  ∧ is_inside_exdir fs' ["y"; "x"; "d"; "r"] = Ok true
  ∧ assert_inside_exdir fs' ["y"; "x"; "d"; "r"] = Ok tt.
Proof.
  intros fs'.
  apply (created_store_root_is_found fs_one_dir fs' ["d"; "r"] ["y"; "x"]).
  - apply map_Forall_singleton. split; [discriminate|reflexivity].
  - reflexivity.
Defined.

(** X4.  Making a group or a dataset at a directory that was not there, under
    a name other than that of the metadata file, hides no store root and adds
    none: discovery started at the new directory or below it gives what
    discovery started at its parent gave before. *)
Theorem created_object_keeps_root (fs fs' : FS) (c : string)
    (parent below : pathname) (typename : string) :
  fs_wf fs →
  _create_object_directory (c :: parent) typename fs = (Ok tt, fs') →
  typename ≠ FILE_TYPENAME →
  c ≠ META_FILENAME →
  root_directory fs' (below ++ c :: parent) = root_directory fs parent.
Proof.
  intros Hwf Hmade Hfile Hname.
  apply _create_object_directory_inv in Hmade as (Habsent & Htype & _ & ->).
  rewrite root_directory_skip.
  - cbn [root_directory].
    rewrite (created_step fs (c :: parent) typename [] Hwf Habsent
             : root_directory_step _ (c :: parent) = _).
    apply String.eqb_neq in Hfile. rewrite Hfile. cbn.
    apply root_directory_agree. intros s Hs Hne.
    apply suffix_length in Hs.
    rewrite lookup_insert_ne by (intros [= <-]; cbn in Hs; lia).
    by rewrite lookup_insert_ne by (intros [= Hc _]; done).
  - intros s _ Hne.
    rewrite (created_step fs (c :: parent) typename s) by done.
    by destruct s.
Qed.

Lemma created_object_keeps_root_witness :
  let fs' := (_create_object_directory ["s"; "g"; "r"] DATASET_TYPENAME
                fs_nested_store).2 in
  root_directory fs' ["blob"; "s"; "g"; "r"] =
  root_directory fs_nested_store ["g"; "r"].
Proof.
  intros fs'.
  apply (created_object_keeps_root fs_nested_store fs' "s" ["g"; "r"] ["blob"]
           DATASET_TYPENAME).
  - unfold fs_nested_store. repeat apply map_Forall_insert_2;
      try (split; [discriminate|reflexivity]).
    apply map_Forall_empty.
  - reflexivity.
  - discriminate.
  - discriminate.
Defined.

Lemma os_path_isdir_insert (fs : FS) (k : pathname) (n : node) (q : pathname) :
  fs !! k = None → os_path_isdir fs q = true →
  os_path_isdir (<[k := n]> fs) q = true.
Proof.
  intros Hk. unfold os_path_isdir, node_at. destruct q as [|c q]; [done|].
  destruct (decide (k = c :: q)) as [->|Hne].
  - by rewrite Hk.
  - by rewrite lookup_insert_ne.
Qed.

Lemma fs_wf_insert (fs : FS) (k : pathname) (n : node) :
  fs_wf fs → fs !! k = None → k ≠ [] →
  os_path_isdir fs (os_path_dirname k) = true →
  fs_wf (<[k := n]> fs).
Proof.
  intros Hwf Hk Hne Hparent. apply map_Forall_insert_2.
  - split; [done|]. by apply os_path_isdir_insert.
  - intros p x Hp. destruct (Hwf p x Hp) as [? ?].
    split; [done|]. by apply os_path_isdir_insert.
Qed.

Lemma os_path_isdir_made (fs : FS) (k : pathname) :
  k ≠ [] → os_path_isdir (<[k := Dir]> fs) k = true.
Proof.
  intros Hne. unfold os_path_isdir, node_at. destruct k; [done|].
  by rewrite lookup_insert_eq.
Qed.

(** X5.  In a well-formed filesystem, [_create_object_directory] changes
    nothing when it raises.  When it returns, the filesystem is well formed,
    every path other than the directory and its metadata file is as before,
    the directory is not raw, and making it again, with any typename, raises
    [IOError] and changes nothing. *)
Theorem create_object_directory_effects (fs : FS) (directory : pathname)
    (typename : string) :
  fs_wf fs →
  (∀ e fs', _create_object_directory directory typename fs = (Raise e, fs') →
            fs' = fs)
  ∧ (∀ fs', _create_object_directory directory typename fs = (Ok tt, fs') →
       fs_wf fs'
       ∧ (∀ p, p ≠ directory → p ≠ META_FILENAME :: directory →
               fs' !! p = fs !! p)
       ∧ is_raw_object_directory fs' directory = Ok false
       ∧ ∀ typename',
           _create_object_directory directory typename' fs' =
             (Raise (IOError ("The directory '" +:+ path_str directory
                              +:+ "' already exists")), fs')).
Proof.
  intros Hwf. split.
  - intros e fs'.
    destruct (os_path_exists fs directory) eqn:Hexists;
      [|destruct (existsb (String.eqb typename) valid_types) eqn:Htype;
        [destruct (os_path_isdir fs (os_path_dirname directory)) eqn:Hparent|]].
    + unfold _create_object_directory. unfold_monad. rewrite Hexists.
      by intros [= _ <-].
    + apply existsb_eqb_valid_types in Htype.
      by rewrite _create_object_directory_ok.
    + unfold _create_object_directory, os_mkdir. unfold_monad.
      rewrite Hexists, Htype. cbn [negb]. rewrite Hexists.
      unfold os_path_isdir in Hparent.
      destruct (node_at fs (os_path_dirname directory)) as [[|]|]; try done;
        by intros [= _ <-].
    + unfold _create_object_directory. unfold_monad.
      rewrite Hexists, Htype. by intros [= _ <-].
  - intros fs' Hmade.
    apply _create_object_directory_inv in Hmade as (Habsent & Htype & Hparent & ->).
    assert (directory ≠ []) as Hne by (by intros ->).
    assert (fs !! directory = None) as Hnone.
    { unfold os_path_exists, node_at in Habsent.
      destruct directory; [done|]. by destruct (fs !! _). }
    repeat apply conj.
    + apply fs_wf_insert; [by apply fs_wf_insert| |done|by apply os_path_isdir_made].
      rewrite lookup_insert_ne by by_length.
      by apply fs_wf_absent_below.
    + intros p Hp Hp'. by rewrite !lookup_insert_ne.
    + unfold is_raw_object_directory, is_exdir_object.
      rewrite os_path_isdir_insert;
        [|rewrite lookup_insert_ne by by_length; by apply fs_wf_absent_below
         |by apply os_path_isdir_made].
      rewrite is_nonraw_object_directory_eq, lookup_insert_eq.
      cbn -[in_valid_types]. apply in_valid_types_str in Htype.
      by rewrite Htype.
    + intros typename'. unfold _create_object_directory. unfold_monad.
      assert (os_path_exists
                (<[META_FILENAME :: directory :=
                     File (Document (object_metadata typename))]>
                   (<[directory := Dir]> fs)) directory = true) as ->; [|done].
      unfold os_path_exists, node_at. destruct directory; [done|].
      rewrite lookup_insert_ne by by_length.
      by rewrite lookup_insert_eq.
Qed.

Lemma create_object_directory_effects_witness :
  (_create_object_directory ["d"; "missing"; "r"] GROUP_TYPENAME fs_one_dir).2 =
    fs_one_dir
  ∧ (let fs' := (_create_object_directory ["d"; "r"] GROUP_TYPENAME
                   fs_one_dir).2 in
     fs_wf fs'
     ∧ (∀ p, p ≠ ["d"; "r"] → p ≠ [META_FILENAME; "d"; "r"] →
             fs' !! p = fs_one_dir !! p)
     ∧ is_raw_object_directory fs' ["d"; "r"] = Ok false
     ∧ ∀ typename',
         _create_object_directory ["d"; "r"] typename' fs' =
           (Raise (IOError ("The directory '" +:+ path_str ["d"; "r"]
                            +:+ "' already exists")), fs')).
Proof.
  assert (fs_wf fs_one_dir) as Hwf
    by (apply map_Forall_singleton; split; [discriminate|reflexivity]).
  split.
  - apply (proj1 (create_object_directory_effects fs_one_dir
                    ["d"; "missing"; "r"] GROUP_TYPENAME Hwf)
             (FileNotFoundError (path_str ["d"; "missing"; "r"]))).
    reflexivity.
  - intros fs'.
    apply (proj2 (create_object_directory_effects fs_one_dir ["d"; "r"]
                    GROUP_TYPENAME Hwf)).
    reflexivity.
Defined.

(** ** The guard [assert_inside_exdir] *)

Lemma is_nonraw_raise_kind (fs : FS) (directory : pathname) (e : exn) :
  is_nonraw_object_directory fs directory = Raise e →
  (∃ msg, e = IsADirectoryError msg) ∨ e = YAMLError ∨ (∃ msg, e = TypeError msg).
Proof.
  rewrite is_nonraw_object_directory_eq.
  destruct (fs !! (META_FILENAME :: directory)) as [[|[|y]]|]; try done.
  - intros [= <-]. left. eauto.
  - intros [= <-]. right. by left.
  - destruct y as [| | | | |m]; try done.
    destruct (dict_get EXDIR_METANAME m) as [[| | |s|l|e']|]; try done;
      try (intros [= <-]; right; right; eauto).
    + destruct (is_substring TYPE_METANAME s); [|done].
      intros [= <-]. right. right. eauto.
    + destruct (existsb (yaml_is_str TYPE_METANAME) l); [|done].
      intros [= <-]. right. right. eauto.
    + by destruct (dict_get TYPE_METANAME e').
Qed.

Lemma root_directory_raise_kind (fs : FS) (path : pathname) (e : exn) :
  root_directory fs path = Raise e →
  (∃ msg, e = IsADirectoryError msg) ∨ e = YAMLError ∨ (∃ msg, e = TypeError msg).
Proof.
  induction path as [|x path IH]; [done|].
  cbn [root_directory]. rewrite root_directory_step_eq.
  destruct (is_nonraw_object_directory fs (x :: path)) as [b|e'] eqn:Hb.
  - cbn. destruct (file_typed fs (x :: path)); [done|apply IH].
  - cbn. intros [= <-]. by apply is_nonraw_raise_kind in Hb.
Qed.

(** X6.  [assert_inside_exdir] returns exactly when some directory on the
    upward chain, below the filesystem root, is a store root and every
    directory before it is answered by the query; it raises
    [FileNotFoundError], with the path in the message, exactly when every
    directory on the chain below the filesystem root is answered and none is
    a store root; an exception of the query comes out as it is. *)
Theorem assert_inside_exdir_cases (fs : FS) (path : pathname) :
  (assert_inside_exdir fs path = Ok tt ↔
     ∃ below root,
       path = below ++ root ∧ root ≠ [] ∧ file_typed fs root = true
       ∧ ∀ s, s `suffix_of` below → s ≠ [] →
              (∃ b, is_nonraw_object_directory fs (s ++ root) = Ok b)
              ∧ file_typed fs (s ++ root) = false)
  ∧ (assert_inside_exdir fs path =
       Raise (FileNotFoundError
                ("Path " +:+ path_str path
                 +:+ " is not inside an Exdir repository.")) ↔
     ∀ s, s `suffix_of` path → s ≠ [] →
          (∃ b, is_nonraw_object_directory fs s = Ok b)
          ∧ file_typed fs s = false)
  ∧ (∀ e, root_directory fs path = Raise e →
          assert_inside_exdir fs path = Raise e).
Proof.
  unfold assert_inside_exdir, is_inside_exdir. unfold_monad.
  split; [|split].
  - split.
    + destruct (root_directory fs path) as [[root|]|e] eqn:Hroot; try done.
      intros _. apply root_directory_some_inv in Hroot
        as (below & -> & Hne & Hft & _ & Hbetween & _).
      by exists below, root.
    + intros (below & root & -> & Hne & Hft & Hbetween).
      destruct root as [|c above]; [done|].
      by rewrite (root_directory_found fs below c above Hft Hbetween).
  - rewrite <-root_directory_not_found.
    destruct (root_directory fs path) as [[root|]|e] eqn:Hroot; cbn;
      split; try done.
    intros [= ->].
    apply root_directory_raise_kind in Hroot as [[? ?]|[?|[? ?]]]; done.
  - intros e Hroot. by rewrite Hroot.
Qed.

Lemma assert_inside_exdir_cases_witness :
  assert_inside_exdir fs_nested_store ["y"; "x"; "g"; "r"] = Ok tt
  ∧ assert_inside_exdir fs_one_dir ["x"; "r"] =
      Raise (FileNotFoundError
               ("Path " +:+ path_str ["x"; "r"]
                +:+ " is not inside an Exdir repository."))
  ∧ assert_inside_exdir fs_unparsable_below_root ["a"; "r"] = Raise YAMLError.
Proof.
  split; [|split].
  - apply (proj1 (assert_inside_exdir_cases fs_nested_store
                    ["y"; "x"; "g"; "r"])).
    exists ["y"; "x"; "g"], ["r"]. repeat apply conj; try done.
    intros s Hs Hne. destruct s as [|a s]; [done|].
    apply suffix_cons_inv in Hs as [[= -> ->]|Hs];
      [split; [by exists false|reflexivity]|].
    apply suffix_cons_inv in Hs as [[= -> ->]|Hs];
      [split; [by exists false|reflexivity]|].
    apply suffix_cons_inv in Hs as [[= -> ->]|Hs];
      [split; [by exists true|reflexivity]|].
    by apply suffix_nil_inv in Hs.
  - apply (proj1 (proj2 (assert_inside_exdir_cases fs_one_dir ["x"; "r"]))).
    intros s Hs Hne. destruct s as [|a s]; [done|].
    apply suffix_cons_inv in Hs as [[= -> ->]|Hs];
      [split; [by exists false|reflexivity]|].
    apply suffix_cons_inv in Hs as [[= -> ->]|Hs];
      [split; [by exists false|reflexivity]|].
    by apply suffix_nil_inv in Hs.
  - by apply (proj2 (proj2 (assert_inside_exdir_cases fs_unparsable_below_root
                              ["a"; "r"]))).
Defined.

(** ** Raw directories: effects of [create_raw] and [require_raw] *)

Lemma os_path_exists_lookup (fs : FS) (p : pathname) :
  os_path_exists fs p = false → fs !! p = None.
Proof.
  unfold os_path_exists, node_at. destruct p; [done|]. by destruct (fs !! _).
Qed.

(** [create_raw] by its three checks. *)
Lemma create_raw_eq (self : Object.t) (name : pathname) (fs : FS) :
  let target := os_path_join (Object.directory self) name in
  Object.create_raw self name fs =
    match Object.validate_name self (Object.directory self) name fs with
    | Raise e => (Raise e, fs)
    | Ok _ =>
        if os_path_exists fs target then
          (Raise (FileExistsError ("Raw directory " +:+ path_str target
                                   +:+ " already exists.")), fs)
        else
          match node_at fs (os_path_dirname target) with
          | Some Dir =>
              (Ok (Raw.Build (Object.root_directory self)
                     (Object.parent_path self) name (Object.io_mode self)),
               <[target := Dir]> fs)
          | Some (File _) => (Raise (NotADirectoryError (path_str target)), fs)
          | None => (Raise (FileNotFoundError (path_str target)), fs)
          end
    end.
Proof.
  intros target. subst target.
  unfold Object.create_raw, Object._assert_valid_name, os_mkdir. unfold_monad.
  destruct (Object.validate_name self (Object.directory self) name fs); [|done].
  destruct (os_path_exists fs (os_path_join (Object.directory self) name))
    eqn:Hexists; [done|].
  rewrite Hexists.
  by destruct (node_at fs _) as [[|]|].
Qed.

Lemma create_raw_ok_inv (self : Object.t) (name : pathname) (fs fs' : FS)
    (raw : Raw.t) :
  let target := os_path_join (Object.directory self) name in
  fs_wf fs → Object.create_raw self name fs = (Ok raw, fs') →
  os_path_exists fs target = false
  ∧ fs' = <[target := Dir]> fs
  ∧ fs_wf fs'
  ∧ fs' !! (META_FILENAME :: target) = None
  ∧ is_nonraw_object_directory fs' target = Ok false
  ∧ is_raw_object_directory fs' target = Ok true.
Proof.
  intros target Hwf. pose proof (create_raw_eq self name fs) as Heq.
  cbn zeta in Heq. fold target in Heq. rewrite Heq.
  destruct (Object.validate_name _ _ _ _); [|done].
  destruct (os_path_exists fs target) eqn:Habsent; [done|].
  destruct (node_at fs (os_path_dirname target)) as [[|]|] eqn:Hparent;
    try done.
  intros [= <- <-].
  assert (target ≠ []) as Hne by (by intros Hnil; rewrite Hnil in Habsent).
  assert (fs !! (META_FILENAME :: target) = None) as Hmeta
    by (by apply fs_wf_absent_below).
  assert ((<[target := Dir]> fs) !! (META_FILENAME :: target) = None) as Hmeta'
    by (by rewrite lookup_insert_ne by by_length).
  repeat apply conj; try done.
  - apply fs_wf_insert; [done|by apply os_path_exists_lookup|done|].
    unfold os_path_isdir. by rewrite Hparent.
  - by rewrite is_nonraw_object_directory_eq, Hmeta'.
  - unfold is_raw_object_directory, is_exdir_object.
    rewrite os_path_isdir_made by done.
    by rewrite is_nonraw_object_directory_eq, Hmeta'.
Qed.

(** X7.  [create_raw] validates the name before it looks at the filesystem,
    and changes nothing whenever it raises.  When it returns, in a
    well-formed filesystem, exactly the target directory has been added, the
    filesystem is well formed, and the new directory is raw: it has no
    metadata file and is no managed object. *)
Theorem create_raw_effects (self : Object.t) (name : pathname) (fs : FS) :
  let target := os_path_join (Object.directory self) name in
  (∀ e, Object.validate_name self (Object.directory self) name fs = Raise e →
        Object.create_raw self name fs = (Raise e, fs))
  ∧ (∀ e fs', Object.create_raw self name fs = (Raise e, fs') → fs' = fs)
  ∧ (∀ raw fs', fs_wf fs → Object.create_raw self name fs = (Ok raw, fs') →
       os_path_exists fs target = false
       ∧ fs' = <[target := Dir]> fs
       ∧ fs_wf fs'
       ∧ fs' !! (META_FILENAME :: target) = None
       ∧ is_nonraw_object_directory fs' target = Ok false
       ∧ is_raw_object_directory fs' target = Ok true).
Proof.
  intros target. pose proof (create_raw_eq self name fs) as Heq.
  cbn zeta in Heq. fold target in Heq. split; [|split].
  - intros e He. by rewrite Heq, He.
  - intros e fs'. rewrite Heq.
    destruct (Object.validate_name _ _ _ _); [|by intros [= _ <-]].
    destruct (os_path_exists fs target); [by intros [= _ <-]|].
    destruct (node_at fs (os_path_dirname target)) as [[|]|];
      try done; by intros [= _ <-].
  - intros raw fs' Hwf Hmade.
    by apply (create_raw_ok_inv self name fs fs' raw).
Qed.

Lemma create_raw_effects_witness :
  let target := ["blob"; "g"; "r"] in
  let fs' := (Object.create_raw group_handle ["blob"] fs_nested_store).2 in
  os_path_exists fs_nested_store target = false
  ∧ fs' = <[target := Dir]> fs_nested_store
  ∧ fs_wf fs'
  ∧ fs' !! (META_FILENAME :: target) = None
  ∧ is_nonraw_object_directory fs' target = Ok false
  ∧ is_raw_object_directory fs' target = Ok true.
Proof.
  intros target fs'.
  apply (proj2 (proj2 (create_raw_effects group_handle ["blob"] fs_nested_store))
           (Raw.Build ["r"] [] ["blob"] None) fs').
  - unfold fs_nested_store. repeat apply map_Forall_insert_2;
      try (split; [discriminate|reflexivity]).
    apply map_Forall_empty.
  - reflexivity.
Defined.

(** [require_raw] by what is at the target. *)
Lemma require_raw_eq (self : Object.t) (name : pathname) (fs : FS) :
  let target := os_path_join (Object.directory self) name in
  Object.require_raw self name fs =
    if os_path_exists fs target then
      match is_nonraw_object_directory fs target with
      | Raise e => (Raise e, fs)
      | Ok true =>
          (Raise (FileExistsError ("Directory '" +:+ path_str target
                                   +:+ "' already exists, but is not raw.")), fs)
      | Ok false => (Ok (inl target), fs)
      end
    else
      match Object.create_raw self name fs with
      | (Ok raw, fs') => (Ok (inr raw), fs')
      | (Raise e, fs') => (Raise e, fs')
      end.
Proof.
  intros target. subst target. unfold Object.require_raw. unfold_monad.
  destruct (os_path_exists fs (os_path_join (Object.directory self) name)).
  - by destruct (is_nonraw_object_directory fs _) as [[|]|].
  - by destruct (Object.create_raw self name fs) as [[raw|e] fs'].
Qed.

(** X8.  [require_raw] can be repeated: once it has returned, in a
    well-formed filesystem, a second call returns the path of the target and
    changes nothing.  The first call changes no path other than the target,
    and nothing at all when the target was there. *)
Theorem require_raw_idempotent (self : Object.t) (name : pathname)
    (fs fs' : FS) (r : pathname + Raw.t) :
  let target := os_path_join (Object.directory self) name in
  fs_wf fs →
  Object.require_raw self name fs = (Ok r, fs') →
  Object.require_raw self name fs' = (Ok (inl target), fs')
  ∧ os_path_exists fs' target = true
  ∧ is_nonraw_object_directory fs' target = Ok false
  ∧ (∀ p, p ≠ target → fs' !! p = fs !! p)
  ∧ (os_path_exists fs target = true → fs' = fs ∧ r = inl target).
Proof.
  intros target Hwf. pose proof (require_raw_eq self name fs) as Heq.
  cbn zeta in Heq. fold target in Heq. rewrite Heq.
  pose proof (require_raw_eq self name fs') as Heq'.
  cbn zeta in Heq'. fold target in Heq'. rewrite Heq'.
  destruct (os_path_exists fs target) eqn:Hexists.
  - destruct (is_nonraw_object_directory fs target) as [[|]|] eqn:Hquery;
      try done.
    intros [= <- <-]. by rewrite Hexists, Hquery.
  - destruct (Object.create_raw self name fs) as [[raw|e] fs1] eqn:Hmade;
      [|done].
    intros [= <- <-].
    destruct (create_raw_ok_inv self name fs fs1 raw Hwf Hmade)
      as (_ & -> & _ & _ & Hquery & Hraw).
    fold target in Hquery, Hraw |- *.
    assert (os_path_exists (<[target := Dir]> fs) target = true) as Hthere.
    { unfold is_raw_object_directory, is_exdir_object in Hraw.
      unfold os_path_exists. unfold os_path_isdir in Hraw.
      by destruct (node_at _ target) as [[|]|]. }
    rewrite Hthere, Hquery. repeat apply conj; try done.
    intros p Hp. by rewrite lookup_insert_ne.
Qed.

Lemma require_raw_idempotent_witness :
  let target := ["blob"; "g"; "r"] in
  let fs' := (Object.require_raw group_handle ["blob"] fs_nested_store).2 in
  Object.require_raw group_handle ["blob"] fs' = (Ok (inl target), fs')
  ∧ os_path_exists fs' target = true
  ∧ is_nonraw_object_directory fs' target = Ok false
  ∧ (∀ p, p ≠ target → fs' !! p = fs_nested_store !! p)
  ∧ (os_path_exists fs_nested_store target = true →
     fs' = fs_nested_store
     ∧ inr (Raw.Build ["r"] [] ["blob"] None) = inl target).
Proof.
  intros target fs'.
  apply (require_raw_idempotent group_handle ["blob"] fs_nested_store fs'
           (inr (Raw.Build ["r"] [] ["blob"] None))).
  - unfold fs_nested_store. repeat apply map_Forall_insert_2;
      try (split; [discriminate|reflexivity]).
    apply map_Forall_empty.
  - reflexivity.
Defined.

(** X9.  On a path that is there, [require_raw] does not validate the name
    and changes nothing: for a managed object it raises [FileExistsError];
    for a regular file, in a well-formed filesystem, it returns the path as
    it does for a raw directory. *)
Theorem require_raw_existing (self : Object.t) (name : pathname) (fs : FS) :
  let target := os_path_join (Object.directory self) name in
  fs_wf fs →
  (os_path_isdir fs target = true →
   is_nonraw_object_directory fs target = Ok true →
   Object.require_raw self name fs =
     (Raise (FileExistsError ("Directory '" +:+ path_str target
                              +:+ "' already exists, but is not raw.")), fs))
  ∧ (∀ c, fs !! target = Some (File c) →
          Object.require_raw self name fs = (Ok (inl target), fs)).
Proof.
  intros target Hwf. pose proof (require_raw_eq self name fs) as Heq.
  cbn zeta in Heq. fold target in Heq. rewrite Heq. split.
  - intros Hdir Hquery. unfold os_path_isdir in Hdir. unfold os_path_exists.
    destruct (node_at fs target) as [[|]|]; try done. by rewrite Hquery.
  - intros c Hfile.
    assert (target ≠ []) as Hne.
    { intros Hnil. rewrite Hnil in Hfile. by destruct (Hwf _ _ Hfile). }
    assert (os_path_exists fs target = true) as ->.
    { unfold os_path_exists, node_at. destruct target; [done|].
      by rewrite Hfile. }
    assert (fs !! (META_FILENAME :: target) = None) as Hmeta.
    { destruct (fs !! (META_FILENAME :: target)) as [n|] eqn:Hn; [|done].
      destruct (Hwf _ _ Hn) as [_ Hdir]. cbn in Hdir.
      unfold os_path_isdir, node_at in Hdir. destruct target; [done|].
      by rewrite Hfile in Hdir. }
    by rewrite is_nonraw_object_directory_eq, Hmeta.
Qed.

Lemma require_raw_existing_witness :
  Object.require_raw group_handle [] fs_nested_store =
    (Raise (FileExistsError ("Directory '" +:+ path_str ["g"; "r"]
                             +:+ "' already exists, but is not raw.")),
     fs_nested_store)
  ∧ Object.require_raw group_handle [META_FILENAME] fs_nested_store =
      (Ok (inl [META_FILENAME; "g"; "r"]), fs_nested_store).
Proof.
  assert (fs_wf fs_nested_store) as Hwf.
  { unfold fs_nested_store. repeat apply map_Forall_insert_2;
      try (split; [discriminate|reflexivity]).
    apply map_Forall_empty. }
  split.
  - by apply (proj1 (require_raw_existing group_handle [] fs_nested_store Hwf)).
  - by apply (proj2 (require_raw_existing group_handle [META_FILENAME]
                       fs_nested_store Hwf)
                (Document (object_metadata GROUP_TYPENAME))).
Defined.

(** X10.  The handle that [create_raw] returns carries the root, the parent
    path and the mode of the object it was asked on, and the name of the new
    directory; its directory is [root / parent_path / name].  That is the
    directory that was made exactly when the object has an empty name of its
    own. *)
Theorem create_raw_handle_directory (self : Object.t) (name : pathname)
    (fs fs' : FS) (raw : Raw.t) :
  Object.create_raw self name fs = (Ok raw, fs') →
  Raw.root_directory raw = Object.root_directory self
  ∧ Raw.parent_path raw = Object.parent_path self
  ∧ Raw.object_name raw = name
  ∧ Raw.io_mode raw = Object.io_mode self
  ∧ Raw.directory raw =
    os_path_join (os_path_join (Object.root_directory self)
                    (Object.parent_path self)) name
  ∧ (Raw.directory raw = os_path_join (Object.directory self) name ↔
     Object.object_name self = []).
Proof.
  pose proof (create_raw_eq self name fs) as Heq. cbn zeta in Heq. rewrite Heq.
  destruct (Object.validate_name _ _ _ _); [|done].
  destruct (os_path_exists fs _); [done|].
  destruct (node_at fs _) as [[|]|]; try done.
  intros [= <- <-]. cbn.
  unfold Raw.directory, Raw.relative_path, Object.directory,
    Object.relative_path, os_path_join. cbn.
  rewrite <-!app_assoc. do 5 (split; [done|]).
  split.
  - intros Hsame. apply app_inv_head in Hsame.
    apply (f_equal length) in Hsame. rewrite !length_app in Hsame.
    apply length_zero_iff_nil. lia.
  - by intros ->.
Qed.

Lemma create_raw_handle_directory_witness :
  let made := Object.create_raw group_handle ["blob"] fs_nested_store in
  let raw := Raw.Build ["r"] [] ["blob"] None in
  Raw.root_directory raw = Object.root_directory group_handle
  ∧ Raw.parent_path raw = Object.parent_path group_handle
  ∧ Raw.object_name raw = ["blob"]
  ∧ Raw.io_mode raw = Object.io_mode group_handle
  ∧ Raw.directory raw =
    os_path_join (os_path_join (Object.root_directory group_handle)
                    (Object.parent_path group_handle)) ["blob"]
  ∧ (Raw.directory raw = os_path_join (Object.directory group_handle) ["blob"] ↔
     Object.object_name group_handle = []).
Proof.
  intros made raw.
  apply (create_raw_handle_directory group_handle ["blob"] fs_nested_store
           made.2 raw).
  reflexivity.
Defined.

(** ** Raw and managed directories *)

(** X11.  In a well-formed filesystem the two queries sort every path on
    which the metadata can be judged: what is not a directory is neither
    managed nor raw, a directory is exactly one of the two, and
    [is_raw_object_directory] raises what [is_nonraw_object_directory]
    raises. *)
Theorem raw_and_nonraw_partition (fs : FS) (directory : pathname) :
  fs_wf fs →
  (os_path_isdir fs directory = false →
   is_nonraw_object_directory fs directory = Ok false
   ∧ is_raw_object_directory fs directory = Ok false)
  ∧ (os_path_isdir fs directory = true →
     ∀ nonraw, is_nonraw_object_directory fs directory = Ok nonraw →
               is_raw_object_directory fs directory = Ok (negb nonraw))
  ∧ (∀ e, is_nonraw_object_directory fs directory = Raise e →
          os_path_isdir fs directory = true
          ∧ is_raw_object_directory fs directory = Raise e).
Proof.
  intros Hwf.
  assert (os_path_isdir fs directory = false →
          fs !! (META_FILENAME :: directory) = None) as Hnone.
  { intros Hnodir.
    destruct (fs !! (META_FILENAME :: directory)) as [n|] eqn:Hn; [|done].
    destruct (Hwf _ _ Hn) as [_ Hdir]. cbn in Hdir. congruence. }
  unfold is_raw_object_directory, is_exdir_object. split; [|split].
  - intros Hnodir. rewrite Hnodir.
    by rewrite is_nonraw_object_directory_eq, (Hnone Hnodir).
  - intros Hdir nonraw Hquery. by rewrite Hdir, Hquery.
  - intros e Hquery.
    destruct (os_path_isdir fs directory) eqn:Hdir.
    + by rewrite Hquery.
    + by rewrite is_nonraw_object_directory_eq, (Hnone eq_refl) in Hquery.
Qed.

Lemma raw_and_nonraw_partition_witness :
  (is_nonraw_object_directory fs_nested_store ["nowhere"; "r"] = Ok false
   ∧ is_raw_object_directory fs_nested_store ["nowhere"; "r"] = Ok false)
  ∧ is_raw_object_directory fs_nested_store ["g"; "r"] = Ok (negb true)
  ∧ is_raw_object_directory fs_nested_store ["x"; "g"; "r"] = Ok (negb false)
  ∧ (os_path_isdir fs_unparsable_meta ["d"] = true
     ∧ is_raw_object_directory fs_unparsable_meta ["d"] = Raise YAMLError).
Proof.
  assert (fs_wf fs_nested_store) as Hwf.
  { unfold fs_nested_store. repeat apply map_Forall_insert_2;
      try (split; [discriminate|reflexivity]).
    apply map_Forall_empty. }
  assert (fs_wf fs_unparsable_meta) as Hwf'.
  { unfold fs_unparsable_meta. repeat apply map_Forall_insert_2;
      try (split; [discriminate|reflexivity]).
    apply map_Forall_empty. }
  split; [|split; [|split]].
  - by apply (proj1 (raw_and_nonraw_partition fs_nested_store
                       ["nowhere"; "r"] Hwf)).
  - by apply (proj1 (proj2 (raw_and_nonraw_partition fs_nested_store
                              ["g"; "r"] Hwf))).
  - by apply (proj1 (proj2 (raw_and_nonraw_partition fs_nested_store
                              ["x"; "g"; "r"] Hwf))).
  - by apply (proj2 (proj2 (raw_and_nonraw_partition fs_unparsable_meta
                              ["d"] Hwf'))).
Defined.

(** ** Handles *)

(** X12.  [Object.__init__] raises exactly on a text other than the empty
    one, ["simple"], ["strict"] and ["none"], and then it is a [ValueError];
    so the name ["thorough"], which the message lists, is refused.  When it
    returns, the handle has the root, the parent path, the name and the mode
    it was given, its directory is [root / parent_path / name], and a warning
    was issued exactly when a text other than the empty one was given.  A
    rule is taken as it is; nothing, the empty text and ["simple"] stand for
    the rule [thorough]. *)
Theorem init_rule_names (filename_validation : rules)
    (root parent name : pathname) (mode : option OpenMode)
    (arg : validate_name_arg) :
  let made := Object.__init__ filename_validation root parent name mode arg in
  ((∃ e, made = Raise e) ↔
   ∃ s, arg = RuleName s ∧ s ∉ [EmptyString; "simple"; "strict"; "none"])
  ∧ (∀ e, made = Raise e → ∃ msg, e = ValueError msg)
  ∧ (arg = RuleName "thorough" → ∃ msg, made = Raise (ValueError msg))
  ∧ (∀ self warned, made = Ok (self, warned) →
       Object.root_directory self = root
       ∧ Object.parent_path self = parent
       ∧ Object.object_name self = name
       ∧ Object.io_mode self = mode
       ∧ Object.directory self = name ++ parent ++ root
       ∧ (warned = true ↔ ∃ s, arg = RuleName s ∧ s ≠ EmptyString)
       ∧ (∀ v, arg = Rule v → Object.validate_name self = v)
       ∧ (arg = NoRule ∨ arg = RuleName EmptyString ∨ arg = RuleName "simple" →
          Object.validate_name self = thorough filename_validation)
       ∧ (arg = RuleName "strict" →
          Object.validate_name self = strict filename_validation)
       ∧ (arg = RuleName "none" →
          Object.validate_name self = none filename_validation)).
Proof.
  intros made. subst made. unfold Object.__init__.
  assert (∀ s, s ≠ EmptyString →
            match s with
            | EmptyString => Rule (thorough filename_validation)
            | _ => RuleName s
            end = RuleName s) as Hkept by (by intros []).
  destruct arg as [|v|s]; [| |destruct (decide (s = EmptyString)) as [->|Hs]];
    [| | |cbn zeta; rewrite (Hkept s Hs); unfold_monad;
          destruct (String.eqb_spec s "simple") as [->|Hsimple];
          [|destruct (String.eqb_spec s "strict") as [->|Hstrict];
            [|destruct (String.eqb_spec s "none") as [->|Hnone]]]];
    cbn; unfold Object.directory, Object.relative_path, os_path_join.
  all: split_and!.
  all: try (intros self warned [= <- <-]; cbn; split_and!).
  all: try done.
  all: try (by rewrite app_assoc).
  all: try (by intros [?|[?|?]]).
  all: try (by intros ? [= ->]).
  all: try (by intros [= ->]).
  all: try (split; [by intros [e ?]|by intros (? & ? & _)]).
  all: try (split; [done|by intros (? & ? & ?)]).
  all: try (split; [by intros [e ?]|intros (? & [= <-] & Hnot); destruct Hnot;
                    rewrite !elem_of_cons; tauto]).
  all: try (split; [by intros (? & [= <-] & ?)|done]).
  all: try (split; [intros _; eexists; split; [reflexivity|done]|done]).
  all: try (by intros e [= <-]; eauto).
  all: try (by intros _; eauto).
  - split; [done|]. by intros (s & [= <-] & ?).
  - split; [|by eauto]. intros _. exists s. split; [done|].
    rewrite !not_elem_of_cons. repeat split; try done. apply not_elem_of_nil.
Qed.

Lemma init_rule_names_witness :
  let rules := Rules accept_name accept_name accept_name in
  ∃ msg, Object.__init__ rules ["r"] [] ["g"] None (RuleName "thorough") =
         Raise (ValueError msg).
Proof.
  intros rules.
  by apply (proj1 (proj2 (proj2 (init_rule_names rules ["r"] [] ["g"] None
                                   (RuleName "thorough"))))).
Defined.

(** ** Datasets: what a read leaves behind *)

Lemma mapM_state {S A B : Type} (f : A → M S B) (l : list A) (s : S) :
  (∀ x, (f x s).2 = s) → (mapM f l s).2 = s.
Proof.
  intros Hf. induction l as [|x l IH]; [done|].
  cbn [mapM]. unfold_monad. pose proof (Hf x) as Hx.
  destruct (f x s) as [[y|e] s']; cbn in Hx; subst s'; [|done].
  destruct (mapM f l s) as [[k|e] s']; cbn in IH; by subst s'.
Qed.

Lemma _data_raise_inv (self : Object.t) (st st1 : dataset_state) (e : exn) :
  Dataset._data self st = (Raise e, st1) →
  st1 = st ∧ _data_memmap st = None ∧ data_npy st = None.
Proof.
  destruct (_data_memmap st) as [a0|] eqn:Hmap.
  - by rewrite (_data_mapped _ _ _ Hmap).
  - rewrite (_data_unmapped _ _ Hmap).
    destruct (data_npy st); [done|]. by intros [= _ <-].
Qed.

Lemma _data_stable (self : Object.t) (st : dataset_state) :
  (Dataset._data self (Dataset._data self st).2).2 = (Dataset._data self st).2.
Proof.
  destruct (Dataset._data self st) as [[a|e] st1] eqn:Hdata; cbn.
  - by rewrite (_data_again _ _ _ _ Hdata).
  - pose proof (_data_raise_inv _ _ _ _ Hdata) as [-> _]. by rewrite Hdata.
Qed.

Lemma __getitem___final (plugins : list plugin) (self : Object.t)
    (args : selector) (st : dataset_state) :
  (Dataset.__getitem__ plugins self args st).2 = (Dataset._data self st).2.
Proof.
  destruct (Dataset._data self st) as [[a|e] st1] eqn:Hdata.
  - by apply __getitem___state with a.
  - by rewrite (__getitem___unreadable _ _ _ _ _ _ Hdata).
Qed.

Lemma shape_final (plugins : list plugin) (self : Object.t)
    (st : dataset_state) :
  (Dataset.shape plugins self st).2 = (Dataset._data self st).2.
Proof.
  rewrite <-(__getitem___final plugins self SelAll).
  unfold Dataset.shape. unfold_monad.
  destruct (Dataset.__getitem__ plugins self SelAll st) as [[values|e] st1];
    [|done].
  by destruct (shape_of values).
Qed.

Lemma __len___final (plugins : list plugin) (self : Object.t)
    (st : dataset_state) :
  (Dataset.__len__ plugins self st).2 = (Dataset._data self st).2.
Proof.
  pose proof (shape_final plugins self st) as Hfirst.
  unfold Dataset.__len__. unfold_monad.
  destruct (Dataset.shape plugins self st) as [[s|e] st1] eqn:Hshape; [|done].
  cbn in Hfirst. destruct (bool_decide (length s = 0)); [done|].
  rewrite (shape_again _ _ _ _ _ Hshape). by destruct s.
Qed.

Lemma __iter___final (plugins : list plugin) (self : Object.t)
    (st : dataset_state) :
  (Dataset.__iter__ plugins self st).2 = (Dataset._data self st).2.
Proof.
  pose proof (shape_final plugins self st) as Hfirst.
  unfold Dataset.__iter__. unfold_monad.
  destruct (Dataset.shape plugins self st) as [[s|e] st1] eqn:Hshape; [|done].
  cbn in Hfirst. destruct (bool_decide (length s = 0)); [done|].
  rewrite (shape_again _ _ _ _ _ Hshape). destruct s as [|n rest]; [done|].
  rewrite <-Hfirst. apply mapM_state.
  intros i. rewrite __getitem___final, Hfirst. apply _data_stable.
Qed.

Lemma _data_maps_only (self : Object.t) (st : dataset_state) :
  let st1 := (Dataset._data self st).2 in
  same_files st st1
  ∧ (_data_memmap st1 = _data_memmap st
     ∨ (_data_memmap st = None ∧ _data_memmap st1 = data_npy st)).
Proof.
  unfold same_files. destruct (_data_memmap st) as [a0|] eqn:Hmap.
  - rewrite (_data_mapped _ _ _ Hmap). cbn. rewrite Hmap. by auto.
  - rewrite (_data_unmapped _ _ Hmap). destruct (data_npy st) eqn:Hfile; cbn.
    + rewrite Hfile. by auto 10.
    + rewrite Hmap, Hfile. by auto.
Qed.

(** X13.  Reading never writes.  After an indexed read, [shape], [value],
    [len] or an iteration, whether it returned or raised and whatever the
    registered plugins did, the state is the one that the first access to the
    payload leaves: the attribute sidecar, the metadata sidecar and the
    payload file are as they were, the payload file has not been written, and
    the mapping is the one there was or, when there was none, the payload
    file as it is. *)
Theorem reads_only_map_the_payload (plugins : list plugin) (self : Object.t)
    (st : dataset_state) :
  let st1 := (Dataset._data self st).2 in
  (∀ args, (Dataset.__getitem__ plugins self args st).2 = st1)
  ∧ (Dataset.shape plugins self st).2 = st1
  ∧ (Dataset.value plugins self st).2 = st1
  ∧ (Dataset.__len__ plugins self st).2 = st1
  ∧ (Dataset.__iter__ plugins self st).2 = st1
  ∧ same_files st st1
  ∧ (_data_memmap st1 = _data_memmap st
     ∨ (_data_memmap st = None ∧ _data_memmap st1 = data_npy st)).
Proof.
  intros st1. subst st1. split_and!.
  - intros args. apply __getitem___final.
  - apply shape_final.
  - apply __getitem___final.
  - apply __len___final.
  - apply __iter___final.
  - apply _data_maps_only.
  - apply _data_maps_only.
Qed.

(** ** Datasets: what is written can be read back *)

Lemma concat_chunks {A : Type} (sz t : nat) (l : list A) :
  length l = t * sz →
  concat ((λ k, take sz (drop (k * sz) l)) <$> seq 0 t) = l.
Proof.
  revert l. induction t as [|t IH]; intros l Hlen.
  - by destruct l.
  - cbn [seq fmap list_fmap concat]. rewrite <-fmap_S_seq, <-list_fmap_compose.
    cbn [Nat.mul]. rewrite drop_0.
    transitivity (take sz l ++ drop sz l); [|apply take_drop]. f_equal.
    rewrite <-(IH (drop sz l)) by (rewrite length_drop; lia).
    f_equal. apply list_fmap_ext. intros _ k _. cbn.
    by rewrite drop_drop.
Qed.

Lemma mapM_option_fmap {A B : Type} (f : A → option B) (g : A → B)
    (l : list A) :
  (∀ x, x ∈ l → f x = Some (g x)) → mapM f l = Some (g <$> l).
Proof.
  induction l as [|x l IH]; intros Hf; [done|].
  cbn. rewrite (Hf x) by left. cbn.
  rewrite IH by (intros y Hy; apply Hf; by right). done.
Qed.

(** A value of the shape of the target is broadcast to itself. *)
Lemma broadcast_to_same (shape : list nat) (items : list scalar) :
  length items = shape_size shape → broadcast_to shape shape items = Some items.
Proof.
  revert items. induction shape as [|t shape IH]; intros items Hlen; [done|].
  cbn [broadcast_to]. rewrite bool_decide_eq_false_2 by (cbn; lia).
  rewrite bool_decide_eq_true_2 by done.
  rewrite (mapM_option_fmap _
             (λ k, take (shape_size shape) (drop (k * shape_size shape) items))).
  - cbn. by rewrite concat_chunks.
  - intros k Hk%elem_of_seq. apply IH. rewrite length_take, length_drop.
    change (shape_size (t :: shape)) with (t * shape_size shape) in Hlen.
    apply Nat.min_l. nia.
Qed.

(** A single item is broadcast to every place of the target. *)
Lemma broadcast_to_item (shape : list nat) (x : scalar) :
  broadcast_to shape [] [x] = Some (replicate (shape_size shape) x).
Proof.
  induction shape as [|t shape IH]; [done|].
  cbn [broadcast_to]. rewrite bool_decide_eq_true_2 by (cbn; lia).
  rewrite IH. cbn. f_equal. clear IH.
  induction t as [|t IH]; [done|]. cbn. by rewrite IH, replicate_add.
Qed.

Lemma np_setitem_all_same (a new : ndarray) :
  ndarray_wf a → ndarray_wf new →
  ndarray_shape a = ndarray_shape new → ndarray_shape a ≠ [] →
  np_setitem a SelAll (PArr new) = Ok new.
Proof.
  destruct a as [shape items], new as [shape' items']. unfold ndarray_wf. cbn.
  intros Hwf Hwf' <- Hrank. unfold np_setitem. cbn.
  destruct shape as [|n shape]; [done|]. cbn -[broadcast_to shape_size].
  rewrite Nat.sub_diag. cbn -[broadcast_to shape_size].
  rewrite broadcast_to_same by done.
  rewrite drop_ge by (unfold shape_size; lia). by rewrite app_nil_r.
Qed.

Lemma np_setitem_all_item (a : ndarray) (z : Z) :
  ndarray_wf a → ndarray_shape a ≠ [] →
  np_setitem a SelAll (PArr (Ndarray [] [SInt z])) =
    Ok (Ndarray (ndarray_shape a)
          (replicate (shape_size (ndarray_shape a)) (SInt z))).
Proof.
  destruct a as [shape items]. unfold ndarray_wf. cbn.
  intros Hwf Hrank. unfold np_setitem. cbn.
  destruct shape as [|n shape]; [done|]. cbn -[broadcast_to shape_size].
  rewrite broadcast_to_item.
  rewrite drop_ge by (unfold shape_size; lia). by rewrite app_nil_r.
Qed.

Lemma value_after_write (self : Object.t) (st : dataset_state) (a : ndarray) :
  _data_memmap st = Some a → meta_plugins st = Some [] →
  Dataset.value [] self st = (Ok (PArr a), st)
  ∧ Dataset.shape [] self st = (Ok (ndarray_shape a), st).
Proof.
  intros Hmap Hmeta. pose proof (_data_mapped self st a Hmap) as Hdata.
  unfold Dataset.shape, Dataset.value. unfold_monad.
  by rewrite (getitem_no_plugins _ _ _ _ _ Hdata Hmeta), selected_all.
Qed.

Lemma set_value_no_plugins (self : Object.t) (st st1 st2 : dataset_state)
    (a new : ndarray) :
  Dataset._data self st = (Ok a, st1) → ndarray_wf a → ndarray_wf new →
  Dataset.set_value [] self (PArr new) st = (Ok tt, st2) →
  data_npy st2 = Some new
  ∧ _data_memmap st2 = Some new
  ∧ attributes_yaml st2 = attributes_yaml st
  ∧ meta_plugins st2 = Some [].
Proof.
  intros Hdata Hwf Hwf'.
  pose proof (_data_inv _ _ _ _ Hdata) as (Hmap & Hattrs & _ & _ & _).
  rewrite (set_value_eq [] _ (PArr new) _ _ _ (ndarray_shape new) Hdata eq_refl).
  destruct (decide (ndarray_shape a = ndarray_shape new)) as [Hsame|Hdiff].
  - rewrite bool_decide_eq_true_2 by done.
    destruct (decide (Object.io_mode self = Some READ_ONLY)) as [Hro|Hrw];
      [by rewrite __setitem___read_only|].
    rewrite (__setitem___eq _ _ _ _ _ Hrw). cbn -[np_setitem].
    rewrite (_data_mapped self (with_sidecars st1 [] []) a) by done.
    destruct (np_setitem a SelAll (PArr new)) as [a'|e] eqn:Hset; [|done].
    intros [= <-]. cbn.
    destruct (decide (ndarray_shape a = [])) as [Hrank|Hrank].
    + unfold np_setitem in Hset. cbn in Hset. by rewrite Hrank in Hset.
    + rewrite np_setitem_all_same in Hset by done. by simplify_eq.
  - rewrite bool_decide_eq_false_2 by done. rewrite _reset_data_eq. cbn.
    by intros [= <-].
Qed.

(** X14.  Without plugins, through a handle that is not read-only, what the
    setter of [value] stores is what [value] returns.  The payload has as
    many items as its shape says, and so has the new array.  When the shapes
    differ the payload file is written anew with the array.  When they agree
    the array is assigned in place, into the element type of the payload;
    this case is stated for a payload with an axis and for an array whose
    items are among those of the payload, which its element type holds as
    they are.  The assignment returns; after it the payload file and the
    mapping hold the array, [value] returns it, [shape] is its shape, the
    attributes are as they were and no plugin is recorded. *)
Theorem set_value_then_value (self : Object.t) (st st1 : dataset_state)
    (a new : ndarray) :
  Object.io_mode self ≠ Some READ_ONLY →
  Dataset._data self st = (Ok a, st1) → ndarray_wf a → ndarray_wf new →
  (ndarray_shape a = ndarray_shape new →
   ndarray_shape a ≠ []
   ∧ ∀ x, x ∈ ndarray_items new → x ∈ ndarray_items a) →
  ∃ st2,
    Dataset.set_value [] self (PArr new) st = (Ok tt, st2)
    ∧ data_npy st2 = Some new
    ∧ _data_memmap st2 = Some new
    ∧ attributes_yaml st2 = attributes_yaml st
    ∧ meta_plugins st2 = Some []
    ∧ Dataset.value [] self st2 = (Ok (PArr new), st2)
    ∧ Dataset.shape [] self st2 = (Ok (ndarray_shape new), st2).
Proof.
  intros Hrw Hdata Hwf Hwf' Hfits.
  assert (∃ st2, Dataset.set_value [] self (PArr new) st = (Ok tt, st2))
    as [st2 Hset].
  { pose proof (_data_inv _ _ _ _ Hdata) as (Hmap & _).
    rewrite (set_value_eq [] _ (PArr new) _ _ _ (ndarray_shape new) Hdata eq_refl).
    destruct (decide (ndarray_shape a = ndarray_shape new)) as [Hsame|Hdiff].
    - destruct (Hfits Hsame) as [Hrank _].
      rewrite bool_decide_eq_true_2 by done.
      rewrite (__setitem___eq _ _ _ _ _ Hrw). cbn -[np_setitem].
      rewrite (_data_mapped self (with_sidecars st1 [] []) a) by done.
      rewrite np_setitem_all_same by done. eauto.
    - rewrite bool_decide_eq_false_2 by done.
      rewrite _reset_data_eq. cbn. eauto. }
  exists st2.
  destruct (set_value_no_plugins _ _ _ _ _ _ Hdata Hwf Hwf' Hset)
    as (Hfile & Hmap & Hattrs & Hmeta).
  destruct (value_after_write self st2 new Hmap Hmeta) as [Hvalue Hshape].
  by split_and!.
Qed.

Lemma set_value_then_value_witness :
  let st := created_with array_2_2 in
  let new := Ndarray [2; 2] [SInt 4; SInt 3; SInt 2; SInt 1] in
  ∃ st2,
    Dataset.set_value [] dataset_handle (PArr new) st = (Ok tt, st2)
    ∧ data_npy st2 = Some new
    ∧ _data_memmap st2 = Some new
    ∧ attributes_yaml st2 = attributes_yaml st
    ∧ meta_plugins st2 = Some []
    ∧ Dataset.value [] dataset_handle st2 = (Ok (PArr new), st2)
    ∧ Dataset.shape [] dataset_handle st2 = (Ok (ndarray_shape new), st2).
Proof.
  intros st new.
  apply (set_value_then_value dataset_handle st (with_memmap st array_2_2)
           array_2_2 new);
    [discriminate|reflexivity|reflexivity|reflexivity|].
  intros _. split; [discriminate|].
  intros x Hx. cbn in Hx |- *. rewrite !elem_of_cons in Hx.
  destruct Hx as [->|[->|[->|[->|Hx]]]]; [repeat constructor..|].
  by apply elem_of_nil in Hx.
Defined.

(** ** Datasets: the setter of [value] through a read-only handle *)

(** X15.  Through a handle opened [READ_ONLY], assigning to [value] an array
    of the shape of the payload raises the [IOError] of the indexed write,
    whatever the plugins are: the payload was mapped for the comparison of
    the shapes, no hook has run and no file has changed. *)
Theorem set_value_read_only_same_shape_raises (plugins : list plugin)
    (self : Object.t) (st st1 : dataset_state) (a new : ndarray) :
  Object.io_mode self = Some READ_ONLY →
  Dataset._data self st = (Ok a, st1) →
  ndarray_shape a = ndarray_shape new →
  Dataset.set_value plugins self (PArr new) st =
    (Raise (IOError ("Cannot write data to file in read only (" +:+ dquote
                     +:+ "r" +:+ dquote +:+ ") mode")), st1)
  ∧ same_files st st1
  ∧ _data_memmap st1 = Some a.
Proof.
  intros Hro Hdata Hsame.
  pose proof (_data_inv _ _ _ _ Hdata) as (Hmap & Hattrs & Hmeta & Hfile & Hwrites).
  split; [|done].
  rewrite (set_value_eq _ _ (PArr new) _ _ _ (ndarray_shape new) Hdata eq_refl).
  rewrite bool_decide_eq_true_2 by done.
  by rewrite __setitem___read_only.
Qed.

Lemma set_value_read_only_same_shape_raises_witness :
  let st := created_with array_2_2 in
  let st1 := with_memmap st array_2_2 in
  Dataset.set_value [scaling] read_only_handle (PArr array_2_2) st =
    (Raise (IOError ("Cannot write data to file in read only (" +:+ dquote
                     +:+ "r" +:+ dquote +:+ ") mode")), st1)
  ∧ same_files st st1
  ∧ _data_memmap st1 = Some array_2_2.
Proof.
  intros st st1.
  apply (set_value_read_only_same_shape_raises [scaling] read_only_handle st
           st1 array_2_2 array_2_2); reflexivity.
Defined.

Lemma _data_with_sidecars (self : Object.t) (st st1 : dataset_state)
    (a : ndarray) (attrs : dict pyvalue) (meta : dict plugin_meta) :
  Dataset._data self st = (Ok a, st1) →
  Dataset._data self (with_sidecars st attrs meta) =
    (Ok a, with_sidecars st1 attrs meta).
Proof.
  intros Hdata. destruct (_data_memmap st) as [a0|] eqn:Hmapped.
  - rewrite (_data_mapped _ _ _ Hmapped) in Hdata. injection Hdata as <- <-.
    by apply _data_mapped.
  - rewrite (_data_unmapped _ _ Hmapped) in Hdata.
    rewrite (_data_unmapped _ (with_sidecars st attrs meta) Hmapped). cbn.
    destruct (data_npy st); [|done]. by injection Hdata as <- <-.
Qed.

(** ** Datasets: values without a shape *)

(** X16.  The setter of [value] asks the new value for its shape, so a tuple
    is refused with [AttributeError] once the payload is there, whatever the
    plugins are, and no file changes.  The indexed write with the full slice
    takes a number: on a payload with an axis, through a handle that is not
    read-only and without plugins, a number that is among the items of the
    payload, which its element type therefore holds as it is, becomes every
    item; the payload file is not written whole. *)
Theorem set_value_needs_a_shape (plugins : list plugin) (self : Object.t)
    (st st1 : dataset_state) (a : ndarray) :
  Dataset._data self st = (Ok a, st1) →
  (∀ l, ∃ msg, Dataset.set_value plugins self (PTuple l) st =
               (Raise (AttributeError msg), st1))
  ∧ same_files st st1
  ∧ (∀ z, Object.io_mode self ≠ Some READ_ONLY →
          ndarray_wf a → ndarray_shape a ≠ [] →
          SInt z ∈ ndarray_items a →
          ∃ st2, Dataset.__setitem__ [] self SelAll (PNum z) st = (Ok tt, st2)
                 ∧ data_npy st2 =
                   Some (Ndarray (ndarray_shape a)
                           (replicate (shape_size (ndarray_shape a)) (SInt z)))
                 ∧ _data_memmap st2 = data_npy st2
                 ∧ payload_writes st2 = payload_writes st).
Proof.
  intros Hdata.
  pose proof (_data_inv _ _ _ _ Hdata) as (Hmap & Hattrs & Hmeta & Hfile & Hwrites).
  split; [|split].
  - intros l. unfold Dataset.set_value. unfold_monad. rewrite Hdata.
    cbn. eauto.
  - done.
  - intros z Hrw Hwf Hrank _.
    rewrite (__setitem___eq _ _ _ _ _ Hrw). cbn -[np_setitem].
    rewrite (_data_with_sidecars _ _ _ _ [] [] Hdata).
    rewrite np_setitem_all_item by done. eexists. split; [done|]. by cbn.
Qed.

Lemma set_value_needs_a_shape_witness :
  let st := created_with array_2_2 in
  ∃ st2, Dataset.__setitem__ [] dataset_handle SelAll (PNum 3) st = (Ok tt, st2)
         ∧ data_npy st2 =
           Some (Ndarray (ndarray_shape array_2_2)
                   (replicate (shape_size (ndarray_shape array_2_2)) (SInt 3)))
         ∧ _data_memmap st2 = data_npy st2
         ∧ payload_writes st2 = payload_writes st.
Proof.
  intros st.
  apply (proj2 (proj2 (set_value_needs_a_shape [] dataset_handle st
                         (with_memmap st array_2_2) array_2_2 eq_refl)) 3%Z);
    [discriminate|reflexivity|discriminate|].
  cbn. repeat constructor.
Defined.

(** ** Datasets: writes that raise *)



(** ** Datasets: iteration over the first axis *)

Lemma mapM_ok {S A B : Type} (f : A → M S B) (l : list A) (s : S) :
  (∀ x, x ∈ l → ∃ y, f x s = (Ok y, s)) →
  ∃ ys, mapM f l s = (Ok ys, s) ∧ Forall2 (λ x y, f x s = (Ok y, s)) l ys.
Proof.
  induction l as [|x l IH]; intros Hf.
  - exists []. by split.
  - destruct (Hf x) as [y Hy]; [by left|].
    destruct IH as (ys & Hys & Hall); [intros x' Hx'; apply Hf; by right|].
    exists (y :: ys). split; [|by constructor].
    transitivity (match f x s with
                  | (Ok y, s') =>
                      match mapM f l s' with
                      | (Ok k, s'') => (Ok (y :: k), s'')
                      | (Raise e, s'') => (Raise e, s'')
                      end
                  | (Raise e, s') => (Raise e, s')
                  end); [reflexivity|].
    by rewrite Hy, Hys.
Qed.

Lemma norm_index_of_nat (n i : nat) : i < n → norm_index n (Z.of_nat i) = Some i.
Proof.
  intros Hi. unfold norm_index. rewrite bool_decide_eq_true_2 by lia.
  by rewrite Nat2Z.id.
Qed.

(** [a[i]] on an array with a first axis of length [n], for [i < n]. *)
Lemma np_getitem_row (a : ndarray) (n : nat) (rest : list nat) (i : nat) :
  ndarray_shape a = n :: rest → i < n →
  ∃ v, np_getitem a (SelInt (Z.of_nat i)) = Ok v
       ∧ (rest ≠ [] →
          v = PArr (Ndarray rest
                      (take (shape_size rest)
                         (drop (i * shape_size rest) (ndarray_items a))))).
Proof.
  intros Hshape Hi. unfold np_getitem, region. rewrite Hshape.
  cbn [locate]. rewrite norm_index_of_nat by done. unfold_monad.
  destruct rest as [|m rest]; cbn [locate]; rewrite Nat.add_0_r.
  - destruct (take _ _) as [|[z|s] [|? ?]]; eexists; by split.
  - eexists. by split.
Qed.

(** X18.  Without plugins, on a payload whose first axis has length [n],
    iteration returns, [len] is [n], and iteration yields [n] values, the
    one at position [i] being [a[i]]: when the payload has further axes, the
    array of the items [i * k] to [(i + 1) * k - 1], where [k] is the number
    of items of one row. *)
Theorem iter_yields_rows (self : Object.t) (st st1 : dataset_state)
    (a : ndarray) (n : nat) (rest : list nat) :
  Dataset._data self st = (Ok a, st1) →
  meta_plugins st = Some [] →
  ndarray_shape a = n :: rest →
  ∃ rows,
    Dataset.__iter__ [] self st = (Ok rows, st1)
    ∧ Dataset.__len__ [] self st = (Ok (length rows), st1)
    ∧ length rows = n
    ∧ ∀ i, i < n →
        ∃ v, rows !! i = Some v
             ∧ np_getitem a (SelInt (Z.of_nat i)) = Ok v
             ∧ (rest ≠ [] →
                v = PArr (Ndarray rest
                            (take (shape_size rest)
                               (drop (i * shape_size rest) (ndarray_items a))))).
Proof.
  intros Hdata Hmeta Hshape.
  pose proof (_data_inv _ _ _ _ Hdata) as (Hmap & _ & Hmeta1 & _).
  rewrite Hmeta in Hmeta1.
  assert (Dataset.shape [] self st = (Ok (n :: rest), st1)) as Hs.
  { unfold Dataset.shape. unfold_monad.
    rewrite (getitem_no_plugins _ _ _ _ _ Hdata Hmeta), selected_all. cbn.
    by rewrite Hshape. }
  pose proof (shape_again _ _ _ _ _ Hs) as Hagain.
  assert (∀ i, i < n →
            Dataset.__getitem__ [] self (SelInt (Z.of_nat i)) st1 =
            (np_getitem a (SelInt (Z.of_nat i)), st1)) as Hread.
  { intros i Hi.
    rewrite (getitem_no_plugins _ _ _ _ _ (_data_mapped _ _ _ Hmap) Hmeta1).
    unfold selected. rewrite Hshape. cbn [length bool_decide].
    rewrite bool_decide_eq_false_2 by done.
    by destruct (np_getitem a _). }
  destruct (mapM_ok (λ i, Dataset.__getitem__ [] self (SelInt (Z.of_nat i)))
              (seq 0 n) st1) as (rows & Hrows & Hall).
  { intros i Hi%elem_of_seq. rewrite Hread by lia.
    destruct (np_getitem_row a n rest i Hshape) as (v & -> & _); [lia|]. eauto. }
  pose proof (Forall2_length _ _ _ Hall) as Hlen. rewrite length_seq in Hlen.
  exists rows. split_and!.
  - unfold Dataset.__iter__. unfold_monad. rewrite Hs.
    rewrite bool_decide_eq_false_2 by done. rewrite Hagain. apply Hrows.
  - unfold Dataset.__len__. unfold_monad. rewrite Hs.
    rewrite bool_decide_eq_false_2 by done. rewrite Hagain. by rewrite <-Hlen.
  - done.
  - intros i Hi.
    destruct (Forall2_lookup_l _ _ _ i i Hall) as (v & Hv & Hget);
      [by apply lookup_seq_lt|].
    cbn in Hget. rewrite Hread in Hget by done.
    destruct (np_getitem_row a n rest i Hshape Hi) as (v' & Hv' & Hblock).
    rewrite Hv' in Hget. injection Hget as <-. exists v'. by split_and!.
Qed.

Lemma iter_yields_rows_witness :
  let st := created_with array_2_2 in
  ∃ rows,
    Dataset.__iter__ [] dataset_handle st = (Ok rows, with_memmap st array_2_2)
    ∧ Dataset.__len__ [] dataset_handle st =
      (Ok (length rows), with_memmap st array_2_2)
    ∧ length rows = 2
    ∧ ∀ i, i < 2 →
        ∃ v, rows !! i = Some v
             ∧ np_getitem array_2_2 (SelInt (Z.of_nat i)) = Ok v
             ∧ ([2] ≠ [] →
                v = PArr (Ndarray [2]
                            (take (shape_size [2])
                               (drop (i * shape_size [2])
                                  (ndarray_items array_2_2))))).
Proof.
  intros st.
  apply (iter_yields_rows dataset_handle st (with_memmap st array_2_2)
           array_2_2 2 [2]); reflexivity.
Defined.

(** ** The write pipeline: hooks that raise, and the attributes returned *)

Lemma prepare_write_loop_attrs (plugins : list plugin) (data : pyvalue)
    (attrs : dict pyvalue) (meta : dict plugin_meta)
    (data' : pyvalue) (attrs' : dict pyvalue) (meta' : dict plugin_meta) :
  prepare_write_loop plugins data attrs meta = Ok (data', attrs', meta') →
  attrs' = foldl dict_update attrs ((λ c, c.1.2) <$> write_trace plugins data)
  ∧ length (prepare_write_args plugins data) = length plugins.
Proof.
  revert data attrs meta.
  induction plugins as [|p plugins IH]; intros data attrs meta.
  - cbn. by intros [= <- <- <-].
  - cbn [prepare_write_loop write_trace prepare_write_args]. unfold_monad.
    destruct (prepare_write p data) as [[[d1 pa] pm]|e]; [|done].
    intros Hloop. apply IH in Hloop as [-> Hlen]. cbn. by rewrite Hlen.
Qed.

Lemma prepare_write_loop_raise (plugins : list plugin) (data : pyvalue)
    (attrs : dict pyvalue) (meta : dict plugin_meta) (e : exn) :
  prepare_write_loop plugins data attrs meta = Raise e →
  let k := length (write_trace plugins data) in
  k < length plugins
  ∧ length (prepare_write_args plugins data) = S k
  ∧ ∃ p d, plugins !! k = Some p
           ∧ prepare_write_args plugins data !! k = Some d
           ∧ prepare_write p d = Raise e.
Proof.
  revert data attrs meta.
  induction plugins as [|p plugins IH]; intros data attrs meta; [done|].
  cbn [prepare_write_loop write_trace prepare_write_args]. unfold_monad.
  destruct (prepare_write p data) as [[[d1 pa] pm]|e0] eqn:Hp.
  - intros Hloop. apply IH in Hloop as (Hlt & Hlen & p' & d & Hp' & Hd & He).
    cbn. split; [lia|]. split; [by rewrite Hlen|]. by exists p', d.
  - intros [= <-]. cbn. split; [lia|]. split; [done|]. by exists p, data.
Qed.

(** X19.  In [_prepare_write] a hook that raises stops the pipeline: the
    hooks of the plugins before it have run, those of the plugins after it
    are not called, and its exception is what [_prepare_write] raises.  When
    [_prepare_write] raises otherwise, every hook has run and what they left,
    a number, a tuple or a text, could not be made an array.  When it
    returns, every hook has run, and the attributes it returns are those of
    the plugins, merged in the order of the plugins. *)
Theorem prepare_write_stops_at_raising_hook (plugins : list plugin)
    (data : pyvalue) :
  (∀ e, _prepare_write plugins data = Raise e →
     (let k := length (write_trace plugins data) in
      k < length plugins
      ∧ length (prepare_write_args plugins data) = S k
      ∧ ∃ p d, plugins !! k = Some p
               ∧ prepare_write_args plugins data !! k = Some d
               ∧ prepare_write p d = Raise e)
     ∨ (length (prepare_write_args plugins data) = length plugins
        ∧ ∃ left attrs meta,
            prepare_write_loop plugins data [] [] = Ok (left, attrs, meta)
            ∧ isinstance_number_tuple_str left = true
            ∧ np_asarray left = Raise e))
  ∧ (∀ p d e k, plugins !! k = Some p →
       prepare_write_args plugins data !! k = Some d →
       prepare_write p d = Raise e →
       _prepare_write plugins data = Raise e
       ∧ length (prepare_write_args plugins data) = S k)
  ∧ (∀ data' attrs meta, _prepare_write plugins data = Ok (data', attrs, meta) →
       length (prepare_write_args plugins data) = length plugins
       ∧ attrs = foldl dict_update [] ((λ c, c.1.2) <$> write_trace plugins data)).
Proof.
  split; [|split].
  - intros e. unfold _prepare_write. unfold_monad.
    destruct (prepare_write_loop plugins data [] []) as [[[left attrs] meta]|e0]
      eqn:Hloop.
    + destruct (isinstance_number_tuple_str left) eqn:Hleft; [|done].
      destruct (np_asarray left) as [arr|e1] eqn:Harr; [done|].
      intros [= <-]. right.
      split; [by apply prepare_write_loop_attrs in Hloop as [_ ?]|].
      by exists left, attrs, meta.
    + intros [= <-]. left. by apply prepare_write_loop_raise in Hloop.
  - intros p d e k. unfold _prepare_write. unfold_monad.
    generalize (@nil (string * pyvalue)) (@nil (string * plugin_meta)).
    revert data k.
    induction plugins as [|q plugins IH]; intros data k attrs meta; [done|].
    cbn [prepare_write_loop prepare_write_args]. unfold_monad.
    destruct k as [|k]; cbn.
    + intros [= ->] [= ->] ->. done.
    + intros Hp Hd He.
      destruct (prepare_write q data) as [[[d1 pa] pm]|e0]; [|done].
      destruct (IH d1 k (dict_update attrs pa)
                  (if required pm then dict_set (IDENTIFIER q) pm meta else meta)
                  Hp Hd He) as [Hraise Hlen].
      split; [done|]. cbn. by rewrite Hlen.
  - intros data' attrs meta. unfold _prepare_write. unfold_monad.
    destruct (prepare_write_loop plugins data [] []) as [[[left attrs0] meta0]|e0]
      eqn:Hloop; [|done].
    apply prepare_write_loop_attrs in Hloop as [-> Hlen].
    destruct (isinstance_number_tuple_str left).
    + destruct (np_asarray left); [|done]. by intros [= <- <- <-].
    + by intros [= <- <- <-].
Qed.

Lemma prepare_write_stops_at_raising_hook_witness :
  _prepare_write [probe; failing; scaling] (PNum 5) =
    Raise (ValueError "cannot prepare")
  ∧ length (prepare_write_args [probe; failing; scaling] (PNum 5)) = 2.
Proof.
  by apply (proj1 (proj2 (prepare_write_stops_at_raising_hook
                            [probe; failing; scaling] (PNum 5)))
              failing (PNum 5) (ValueError "cannot prepare") 1).
Defined.

(** ** Managed objects and raw directories exclude each other *)

(** X20.  In a well-formed filesystem, where [_create_object_directory] has
    made a managed object, [require_raw] raises [FileExistsError] and
    [create_raw] does not return; where [create_raw] has made a raw
    directory, [_create_object_directory] raises [IOError].  None of these
    refusals changes the filesystem. *)
Theorem managed_and_raw_exclude (self : Object.t) (name : pathname) (fs : FS) :
  let target := os_path_join (Object.directory self) name in
  fs_wf fs →
  (∀ typename fs', _create_object_directory target typename fs = (Ok tt, fs') →
     Object.require_raw self name fs' =
       (Raise (FileExistsError ("Directory '" +:+ path_str target
                                +:+ "' already exists, but is not raw.")), fs')
     ∧ ∃ e, Object.create_raw self name fs' = (Raise e, fs'))
  ∧ (∀ raw fs', Object.create_raw self name fs = (Ok raw, fs') →
     ∀ typename,
       _create_object_directory target typename fs' =
         (Raise (IOError ("The directory '" +:+ path_str target
                          +:+ "' already exists")), fs')).
Proof.
  intros target Hwf. split.
  - intros typename fs' Hmade.
    apply _create_object_directory_inv in Hmade as (Habsent & Htype & Hparent & ->).
    assert (target ≠ []) as Hne by (by intros Hnil; rewrite Hnil in Habsent).
    set (fs' := <[META_FILENAME :: target :=
                    File (Document (object_metadata typename))]>
                  (<[target := Dir]> fs)).
    assert (os_path_exists fs' target = true) as Hthere.
    { unfold os_path_exists, node_at, fs'. destruct target; [done|].
      rewrite lookup_insert_ne by by_length. by rewrite lookup_insert_eq. }
    assert (is_nonraw_object_directory fs' target = Ok true) as Hquery.
    { unfold fs'. rewrite is_nonraw_object_directory_eq, lookup_insert_eq.
      cbn -[in_valid_types]. apply in_valid_types_str in Htype.
      by rewrite Htype. }
    split.
    + pose proof (require_raw_eq self name fs') as Heq. cbn zeta in Heq.
      fold target in Heq. by rewrite Heq, Hthere, Hquery.
    + pose proof (create_raw_eq self name fs') as Heq. cbn zeta in Heq.
      fold target in Heq. rewrite Heq, Hthere.
      destruct (Object.validate_name _ _ _ _); eauto.
  - intros raw fs' Hmade typename.
    destruct (create_raw_ok_inv self name fs fs' raw Hwf Hmade)
      as (Habsent & -> & _).
    fold target in Habsent |- *.
    assert (target ≠ []) as Hne by (by intros Hnil; rewrite Hnil in Habsent).
    unfold _create_object_directory. unfold_monad.
    assert (os_path_exists (<[target := Dir]> fs) target = true) as ->; [|done].
    unfold os_path_exists, node_at. destruct target; [done|].
    by rewrite lookup_insert_eq.
Qed.

Lemma managed_and_raw_exclude_witness :
  let made := (_create_object_directory ["d"; "g"; "r"] DATASET_TYPENAME
                 fs_nested_store).2 in
  let fs' := (Object.create_raw group_handle ["blob"] fs_nested_store).2 in
  (Object.require_raw group_handle ["d"] made =
     (Raise (FileExistsError ("Directory '" +:+ path_str ["d"; "g"; "r"]
                              +:+ "' already exists, but is not raw.")), made)
   ∧ ∃ e, Object.create_raw group_handle ["d"] made = (Raise e, made))
  ∧ _create_object_directory ["blob"; "g"; "r"] GROUP_TYPENAME fs' =
      (Raise (IOError ("The directory '" +:+ path_str ["blob"; "g"; "r"]
                       +:+ "' already exists")), fs').
Proof.
  intros made fs'.
  assert (fs_wf fs_nested_store) as Hwf.
  { unfold fs_nested_store. repeat apply map_Forall_insert_2;
      try (split; [discriminate|reflexivity]).
    apply map_Forall_empty. }
  split.
  - apply (proj1 (managed_and_raw_exclude group_handle ["d"] fs_nested_store
                    Hwf) DATASET_TYPENAME made).
    reflexivity.
  - apply (proj2 (managed_and_raw_exclude group_handle ["blob"] fs_nested_store
                    Hwf) (Raw.Build ["r"] [] ["blob"] None) fs').
    reflexivity.
Defined.

(** ** Datasets: the constructor *)

(** X21.  [_dataset_filename] applies the operator [/] to its argument, so
    it returns on a path object and raises [TypeError] on a text.
    [Dataset.__init__] hands it [self.directory], which [os.path.join] has
    made and which is a text: whenever the part of [Object] has returned,
    the constructor raises that [TypeError], and what the part of [Object]
    raises is passed on; the constructor never returns. *)
Theorem dataset_init_raises (filename_validation : rules)
    (root parent name : pathname) (mode : option OpenMode)
    (arg : validate_name_arg) :
  (∀ p, _dataset_filename (PathObject p) = Ok (PathObject ("data.npy" :: p)))
  ∧ (∀ p, ∃ msg, _dataset_filename (PathText p) = Raise (TypeError msg))
  ∧ (∀ self warned,
       Object.__init__ filename_validation root parent name mode arg =
         Ok (self, warned) →
       ∃ msg, Dataset.__init__ filename_validation root parent name mode arg =
              Raise (TypeError msg))
  ∧ (∀ e, Object.__init__ filename_validation root parent name mode arg =
            Raise e →
          Dataset.__init__ filename_validation root parent name mode arg =
            Raise e)
  ∧ (∀ made, Dataset.__init__ filename_validation root parent name mode arg ≠
             Ok made).
Proof.
  unfold Dataset.__init__, _dataset_filename. unfold_monad. cbn.
  split_and!.
  - done.
  - intros _. eauto.
  - intros self warned ->. eauto.
  - by intros e ->.
  - intros made.
    by destruct (Object.__init__ _ _ _ _ _ _) as [[self warned]|e].
Qed.

Lemma dataset_init_raises_witness :
  let rules := Rules accept_name accept_name accept_name in
  ∃ msg, Dataset.__init__ rules ["r"] [] ["a"] None NoRule =
         Raise (TypeError msg).
Proof.
  intros rules.
  by apply (proj1 (proj2 (proj2 (dataset_init_raises rules ["r"] [] ["a"]
                                   None NoRule)))
              (Object.Build ["r"] [] ["a"] None accept_name) false).
Defined.

(** ** Datasets: writing one row *)

(** The block [j] of a list in which the block [i] was replaced. *)
Lemma block_of_spliced {A : Type} (old items : list A) (sz n i j : nat) :
  length old = n * sz → length items = sz → i < n → j < n →
  take sz (drop (j * sz)
             (take (i * sz) old ++ items ++ drop (i * sz + sz) old)) =
    if decide (j = i) then items else take sz (drop (j * sz) old).
Proof.
  intros Hold Hitems Hi Hj.
  assert (length (take (i * sz) old) = i * sz) as Hfirst
    by (rewrite length_take; nia).
  apply list_eq. intros k. rewrite lookup_take.
  destruct (decide (k < sz)) as [Hk|Hk].
  - rewrite lookup_drop.
    destruct (decide (j = i)) as [->|Hne].
    + rewrite lookup_app_r by lia. rewrite Hfirst.
      rewrite lookup_app_l by lia. f_equal. lia.
    + rewrite lookup_take, decide_True by done. rewrite lookup_drop.
      destruct (decide (j < i)) as [Hlt|Hge].
      * rewrite lookup_app_l by (rewrite Hfirst; nia).
        by rewrite lookup_take, decide_True by nia.
      * rewrite lookup_app_r by (rewrite Hfirst; nia). rewrite Hfirst.
        rewrite lookup_app_r by nia. rewrite lookup_drop. f_equal. nia.
  - destruct (decide (j = i)) as [->|Hne].
    + symmetry. apply lookup_ge_None_2. lia.
    + by rewrite lookup_take, decide_False.
Qed.

Lemma np_setitem_row (a row : ndarray) (n : nat) (rest : list nat) (i : nat) :
  ndarray_shape a = n :: rest → ndarray_shape row = rest → ndarray_wf row →
  i < n →
  np_setitem a (SelInt (Z.of_nat i)) (PArr row) =
    Ok (Ndarray (n :: rest)
          (take (i * shape_size rest) (ndarray_items a)
           ++ ndarray_items row
           ++ drop (i * shape_size rest + shape_size rest) (ndarray_items a))).
Proof.
  intros Hshape Hrow Hwf Hi. unfold np_setitem, region. cbn [np_asarray].
  unfold_monad. rewrite Hshape. cbn [locate].
  rewrite norm_index_of_nat by done.
  assert (locate rest [] = Ok (0, rest)) as -> by (by destruct rest).
  unfold_monad. rewrite Hrow, Nat.sub_diag, Nat.add_0_r.
  assert (strip_leading_ones 0 rest = rest) as -> by (by destruct rest).
  rewrite broadcast_to_same; [done|]. unfold ndarray_wf in Hwf. by rewrite <-Hrow.
Qed.

(** X22.  Without plugins, through a handle that is not read-only, on a
    payload with at least two axes that has as many items as its shape says:
    the indexed write of a row of the right shape at a position of the first
    axis returns; after it the read at that position returns the row, the
    read at every other position returns what it returned before the write,
    and the shape of the dataset is the same.  The payload file is not
    written whole.  The row is assigned into the element type of the
    payload: the property is stated for a row whose items are among those of
    the payload, which that type holds as they are. *)
Theorem setitem_then_getitem_row (self : Object.t) (st st1 : dataset_state)
    (a row : ndarray) (n : nat) (rest : list nat) (i : nat) :
  Object.io_mode self ≠ Some READ_ONLY →
  Dataset._data self st = (Ok a, st1) →
  ndarray_wf a → ndarray_shape a = n :: rest → rest ≠ [] →
  ndarray_wf row → ndarray_shape row = rest → i < n →
  (∀ x, x ∈ ndarray_items row → x ∈ ndarray_items a) →
  ∃ st2,
    Dataset.__setitem__ [] self (SelInt (Z.of_nat i)) (PArr row) st = (Ok tt, st2)
    ∧ Dataset.__getitem__ [] self (SelInt (Z.of_nat i)) st2 = (Ok (PArr row), st2)
    ∧ (∀ j, j < n → j ≠ i →
         Dataset.__getitem__ [] self (SelInt (Z.of_nat j)) st2 =
           (np_getitem a (SelInt (Z.of_nat j)), st2))
    ∧ Dataset.shape [] self st2 = (Ok (n :: rest), st2)
    ∧ payload_writes st2 = payload_writes st.
Proof.
  intros Hrw Hdata Hwf Hshape Hrest Hwf' Hrow Hi _.
  pose proof (_data_inv _ _ _ _ Hdata) as (_ & _ & _ & _ & Hwrites).
  set (a' := Ndarray (n :: rest)
               (take (i * shape_size rest) (ndarray_items a)
                ++ ndarray_items row
                ++ drop (i * shape_size rest + shape_size rest)
                     (ndarray_items a))).
  set (st2 := DatasetState (attributes_yaml (with_sidecars st1 [] []))
                (meta_plugins (with_sidecars st1 [] [])) (Some a')
                (payload_writes (with_sidecars st1 [] [])) (Some a')).
  assert (∀ j, j < n →
            Dataset.__getitem__ [] self (SelInt (Z.of_nat j)) st2 =
            (Ok (PArr (Ndarray rest
                         (if decide (j = i) then ndarray_items row
                          else take (shape_size rest)
                                 (drop (j * shape_size rest)
                                    (ndarray_items a))))), st2)) as Hread.
  { intros j Hj.
    rewrite (getitem_no_plugins self _ st2 st2 a') by done.
    unfold selected. cbn [ndarray_shape a' length].
    rewrite bool_decide_eq_false_2 by done.
    destruct (np_getitem_row a' n rest j eq_refl Hj) as (v & -> & Hv).
    rewrite (Hv Hrest). cbn [ndarray_items a'].
    rewrite (block_of_spliced _ _ _ n); try done.
    - unfold ndarray_wf in Hwf. by rewrite Hwf, Hshape.
    - unfold ndarray_wf in Hwf'. by rewrite Hwf', Hrow. }
  exists st2. split_and!.
  - rewrite (__setitem___eq _ _ _ _ _ Hrw). cbn -[np_setitem].
    rewrite (_data_with_sidecars _ _ _ _ [] [] Hdata).
    by rewrite (np_setitem_row a row n rest i).
  - rewrite Hread by done. rewrite decide_True by done.
    destruct row as [shape items]. cbn in *. by subst shape.
  - intros j Hj Hne. rewrite Hread by done. rewrite decide_False by done.
    destruct (np_getitem_row a n rest j Hshape Hj) as (v & -> & Hv).
    by rewrite (Hv Hrest).
  - by apply (value_after_write self st2 a').
  - done.
Qed.

Lemma setitem_then_getitem_row_witness :
  let st := created_with array_2_2 in
  let row := Ndarray [2] [SInt 1; SInt 2] in
  ∃ st2,
    Dataset.__setitem__ [] dataset_handle (SelInt (Z.of_nat 1)) (PArr row) st =
      (Ok tt, st2)
    ∧ Dataset.__getitem__ [] dataset_handle (SelInt (Z.of_nat 1)) st2 =
      (Ok (PArr row), st2)
    ∧ (∀ j, j < 2 → j ≠ 1 →
         Dataset.__getitem__ [] dataset_handle (SelInt (Z.of_nat j)) st2 =
           (np_getitem array_2_2 (SelInt (Z.of_nat j)), st2))
    ∧ Dataset.shape [] dataset_handle st2 = (Ok [2; 2], st2)
    ∧ payload_writes st2 = payload_writes st.
Proof.
  intros st row.
  apply (setitem_then_getitem_row dataset_handle st (with_memmap st array_2_2)
           array_2_2 row 2 [2] 1);
    [discriminate|reflexivity|reflexivity|reflexivity|discriminate
    |reflexivity|reflexivity|lia|].
  intros x Hx. cbn in Hx |- *. rewrite !elem_of_cons in Hx.
  destruct Hx as [->|[->|Hx]]; [repeat constructor..|].
  by apply elem_of_nil in Hx.
Defined.
